(** * aspire-splitwise: splits, balances and settlements

    A shallow embedding of the backend of the bill-splitting ledger:
    the Mongoose models [Expense], [Group] and [Settlement]
    (backend/models), the settlement controller
    ([updateSettlementStatus]) and the expense controller
    ([createExpense], [markSplitAsPaid]).

    Conventions of the embedding.
    - A JavaScript [Number] is an exact rational ([Q]).  The code only
      adds, subtracts, multiplies, divides, compares and takes
      [Math.min]/[Math.abs]; rounding of IEEE doubles, [NaN] and the
      infinities are outside the model.  Every concrete input used below
      is a dyadic rational on which double arithmetic is exact.
    - A plain object used as a dictionary ([userBalances]) is an
      association list in insertion order, which is the order of
      [Object.keys] for keys that are not array indices (user ids are
      24-digit hexadecimal strings).
    - A Mongo collection is a list of [(_id, document)] in insertion
      order; [save] validates the document against the constraints the
      schema declares and then writes its schema paths.
    - [Date.now()] is a parameter [now] of each request. *)

From Stdlib Require Import QArith Qabs Qminmax Lqa Lia ZArith.
From Stdlib Require Import List String Bool.
Import ListNotations.

Local Open Scope Q_scope.
Local Open Scope string_scope.

(** ** JavaScript values used by the backend *)

Module JS.

(** [x > y] and [x < y] on numbers. *)
Definition gt (x y : Q) : bool := negb (Qle_bool x y).
Definition lt (x y : Q) : bool := negb (Qle_bool y x).

(** [xs.reduce((sum, x) => sum + f(x), 0)] *)
Definition reduce_sum {A : Type} (f : A -> Q) (xs : list A) : Q :=
  fold_left (fun sum x => sum + f x) xs 0.

(** [v || 0] for a number that may be [undefined]. *)
Definition orZero (v : option Q) : Q :=
  match v with
  | Some x => x
  | None => 0
  end.

(** A dictionary object with string keys. *)
Definition object := list (string * Q).

(** [o[k]] *)
Fixpoint get (o : object) (k : string) : option Q :=
  match o with
  | [] => None
  | (k', v) :: o' => if String.eqb k' k then Some v else get o' k
  end.

(** [o[k] = v]: an existing key keeps its position, a new key goes last. *)
Fixpoint set (o : object) (k : string) (v : Q) : object :=
  match o with
  | [] => [(k, v)]
  | (k', v') :: o' =>
      if String.eqb k' k then (k', v) :: o' else (k', v') :: set o' k v
  end.

(** [Object.keys(o)] *)
Definition keys (o : object) : list string := map fst o.

(** A truthy string: defined and not empty. *)
Definition truthy (s : option string) : bool :=
  match s with
  | Some "" => false
  | Some _ => true
  | None => false
  end.

(** [v === s] for a string literal [s]. *)
Definition strictEq (v : option string) (s : string) : bool :=
  match v with
  | Some x => String.eqb x s
  | None => false
  end.

(** [xs.includes(s)] for a string [s] in an array of strings. *)
Definition includes (xs : list string) (s : string) : bool :=
  existsb (String.eqb s) xs.

End JS.

(** The tolerance of the sum checks, [0.01]. *)
Definition epsilon : Q := 1 # 100.

(** ** models/Expense.js *)

Module Split.
(** One element of [expenseSchema.splits].  [percentage] has no default
    and may be absent. *)
Record t : Type := mk {
  user : string;
  amount : Q;
  percentage : option Q;
  isPaid : bool
}.
End Split.

Module Payer.
(** One element of [expenseSchema.paidByMultiple]. *)
Record t : Type := mk {
  user : string;
  amount : Q
}.
End Payer.

Module Expense.

Record t : Type := mk {
  description : string;
  amount : Q;
  currency : string;
  paidBy : string;
  paidByMultiple : list Payer.t;
  group : option string;
  category : string;
  date : Z;
  splits : list Split.t;
  splitType : string;
  notes : string;
  receipt : string;
  createdAt : Z;
  updatedAt : Z
}.

Definition categories : list string :=
  ["food"; "transport"; "entertainment"; "shopping"; "bills"; "other"].

Definition splitTypes : list string := ["equal"; "percentage"; "custom"].

(** The validators the schema declares on a split: [amount] has
    [min: 0], [percentage] has [min: 0, max: 100]. *)
Definition validSplit (s : Split.t) : bool :=
  Qle_bool 0 (Split.amount s) &&
  match Split.percentage s with
  | Some p => Qle_bool 0 p && Qle_bool p 100
  | None => true
  end.

Definition validPayer (p : Payer.t) : bool := Qle_bool 0 (Payer.amount p).

(** Schema validation run by [save]: [description] is required (an
    empty string does not satisfy [required]), [amount] has [min: 0],
    [category] and [splitType] are enums, and every subdocument is
    validated. *)
Definition validate (e : t) : bool :=
  negb (String.eqb (description e) "") &&
  Qle_bool 0 (amount e) &&
  JS.includes categories (category e) &&
  JS.includes splitTypes (splitType e) &&
  forallb validSplit (splits e) &&
  forallb validPayer (paidByMultiple e).

(** The [pre("save")] hook. *)
Definition preSave (now : Z) (e : t) : t :=
  mk (description e) (amount e) (currency e) (paidBy e) (paidByMultiple e)
     (group e) (category e) (date e) (splits e) (splitType e) (notes e)
     (receipt e) (createdAt e) now.

Definition setSplits (ss : list Split.t) (e : t) : t :=
  mk (description e) (amount e) (currency e) (paidBy e) (paidByMultiple e)
     (group e) (category e) (date e) ss (splitType e) (notes e)
     (receipt e) (createdAt e) (updatedAt e).

End Expense.

(** ** models/Group.js *)

Module Group.

Record member : Type := mkMember {
  user : string;
  role : string
}.

Record t : Type := mk {
  name : string;
  members : list member;
  currency : string
}.

(** [groupSchema.methods.isMember] *)
Definition isMember (g : t) (userId : string) : bool :=
  existsb (fun m => String.eqb (user m) userId) (members g).

End Group.

(** ** models/Settlement.js *)

Module Settlement.

Record t : Type := mk {
  fromUser : string;
  toUser : string;
  group : string;
  amount : Q;
  currency : string;
  status : string;
  method : string;
  notes : option string;
  completedAt : option Z;
  createdAt : Z;
  updatedAt : Z
}.

Definition statuses : list string := ["pending"; "completed"; "cancelled"].

Definition methods : list string :=
  ["cash"; "bank_transfer"; "digital_wallet"; "other"].

(** Schema validation run by [save]. *)
Definition validate (s : t) : bool :=
  Qle_bool 0 (amount s) &&
  JS.includes statuses (status s) &&
  JS.includes methods (method s).

Definition setStatus (v : string) (s : t) : t :=
  mk (fromUser s) (toUser s) (group s) (amount s) (currency s) v
     (method s) (notes s) (completedAt s) (createdAt s) (updatedAt s).

Definition setMethod (v : string) (s : t) : t :=
  mk (fromUser s) (toUser s) (group s) (amount s) (currency s) (status s)
     v (notes s) (completedAt s) (createdAt s) (updatedAt s).

Definition setNotes (v : option string) (s : t) : t :=
  mk (fromUser s) (toUser s) (group s) (amount s) (currency s) (status s)
     (method s) v (completedAt s) (createdAt s) (updatedAt s).

Definition setCompletedAt (v : option Z) (s : t) : t :=
  mk (fromUser s) (toUser s) (group s) (amount s) (currency s) (status s)
     (method s) (notes s) v (createdAt s) (updatedAt s).

(** The [pre("save")] hook. *)
Definition preSave (now : Z) (s : t) : t :=
  mk (fromUser s) (toUser s) (group s) (amount s) (currency s) (status s)
     (method s) (notes s) (completedAt s) (createdAt s) now.

(** What [calculateGroupSettlements] pushes: a plain object with five
    properties; the other paths get their defaults at [insertMany]. *)
Record plain : Type := mkPlain {
  p_fromUser : string;
  p_toUser : string;
  p_group : string;
  p_amount : Q;
  p_currency : string
}.

(** *** Net amounts (first half of [calculateGroupSettlements]) *)

(** [userBalances[paidBy] = (userBalances[paidBy] || 0) + expense.amount] *)
Definition addPaid (userBalances : JS.object) (e : Expense.t) : JS.object :=
  let paidBy := Expense.paidBy e in
  JS.set userBalances paidBy
    (JS.orZero (JS.get userBalances paidBy) + Expense.amount e).

(** [userBalances[userId] = (userBalances[userId] || 0) - split.amount] *)
Definition subOwed (userBalances : JS.object) (split : Split.t) : JS.object :=
  let userId := Split.user split in
  JS.set userBalances userId
    (JS.orZero (JS.get userBalances userId) - Split.amount split).

(** The body of [expenses.forEach]. *)
Definition addExpense (userBalances : JS.object) (e : Expense.t) : JS.object :=
  fold_left subOwed (Expense.splits e) (addPaid userBalances e).

Definition netAmounts (expenses : list Expense.t) : JS.object :=
  fold_left addExpense expenses [].

(** *** Pairing (second half of [calculateGroupSettlements]) *)

(** The body of the inner loop for the pair [(user1, user2)]. *)
Definition pair (userBalances : JS.object) (groupId user1 user2 : string)
  : list plain :=
  match JS.get userBalances user1, JS.get userBalances user2 with
  | Some balance1, Some balance2 =>
      if JS.gt balance1 0 && JS.lt balance2 0 then
        [mkPlain user1 user2 groupId (Qmin balance1 (Qabs balance2)) "LKR"]
      else if JS.lt balance1 0 && JS.gt balance2 0 then
        [mkPlain user2 user1 groupId (Qmin (Qabs balance1) balance2) "LKR"]
      else []
  | _, _ => []
  end.

(** [for (j = i + 1; j < users.length; j++)], over the users after [user1]. *)
Fixpoint inner (userBalances : JS.object) (groupId user1 : string)
  (rest : list string) : list plain :=
  match rest with
  | [] => []
  | user2 :: rest' =>
      pair userBalances groupId user1 user2
        ++ inner userBalances groupId user1 rest'
  end.

(** [for (i = 0; i < users.length; i++)] *)
Fixpoint outer (userBalances : JS.object) (groupId : string)
  (users : list string) : list plain :=
  match users with
  | [] => []
  | user1 :: rest =>
      inner userBalances groupId user1 rest
        ++ outer userBalances groupId rest
  end.

Definition generate (userBalances : JS.object) (groupId : string)
  : list plain :=
  outer userBalances groupId (JS.keys userBalances).

(** [Expense.find({ group: groupId })] followed by the two halves. *)
Definition calculateGroupSettlements
  (expenses : list (string * Expense.t)) (groupId : string) : list plain :=
  let found :=
    filter (fun e => match Expense.group e with
                     | Some g => String.eqb g groupId
                     | None => false
                     end) (map snd expenses) in
  generate (netAmounts found) groupId.

End Settlement.

(** ** The database and HTTP responses *)

Section Collection.
Context {A : Type}.

Definition collection : Type := list (string * A).

(** [Model.findById(id)] *)
Fixpoint findById (c : collection) (id : string) : option A :=
  match c with
  | [] => None
  | (id', doc) :: c' => if String.eqb id' id then Some doc else findById c' id
  end.

(** The write of [doc.save()]: an existing document is replaced where
    it stands, a new one is appended. *)
Fixpoint write (c : collection) (id : string) (doc : A) : collection :=
  match c with
  | [] => [(id, doc)]
  | (id', doc') :: c' =>
      if String.eqb id' id then (id', doc) :: c'
      else (id', doc') :: write c' id doc
  end.
End Collection.

Record DB : Type := mkDB {
  expenses : list (string * Expense.t);
  groups : list (string * Group.t);
  settlements : list (string * Settlement.t)
}.

Definition withExpenses (c : list (string * Expense.t)) (db : DB) : DB :=
  mkDB c (groups db) (settlements db).

Definition withSettlements (c : list (string * Settlement.t)) (db : DB) : DB :=
  mkDB (expenses db) (groups db) c.

(** [res.status(code).json({ message, ... })]; [payload] is the document
    sent along, if any. *)
Record response (A : Type) : Type := mkResponse {
  code : nat;
  message : string;
  payload : option A
}.
Arguments mkResponse {A} _ _ _.
Arguments code {A} _.
Arguments message {A} _.
Arguments payload {A} _.

(** The setter of a [String] path declared with [trim: true]. *)
Definition isSpace (c : Ascii.ascii) : bool :=
  match Ascii.nat_of_ascii c with
  | 9%nat | 10%nat | 11%nat | 12%nat | 13%nat | 32%nat => true
  | _ => false
  end.

Fixpoint trimStart (s : string) : string :=
  match s with
  | EmptyString => EmptyString
  | String c s' => if isSpace c then trimStart s' else s
  end.

Fixpoint trimEnd (s : string) : string :=
  match s with
  | EmptyString => EmptyString
  | String c s' =>
      match trimEnd s' with
      | EmptyString => if isSpace c then EmptyString else String c EmptyString
      | t => String c t
      end
  end.

Definition trim (s : string) : string := trimEnd (trimStart s).

(** ** Instance methods of the Settlement model *)

Module SettlementDoc.

(** [this.save()]: [None] is a rejected promise (validation error);
    otherwise the hook runs and the document is written. *)
Definition save (now : Z) (id : string) (s : Settlement.t) (db : DB)
  : option (Settlement.t * DB) :=
  if Settlement.validate s then
    let s' := Settlement.preSave now s in
    Some (s', withSettlements (write (settlements db) id s') db)
  else None.

(** A [save()] whose promise the caller neither awaits nor catches: the
    write happens when the document is valid, and a rejection is seen by
    nobody. *)
Definition saveDropped (now : Z) (id : string) (s : Settlement.t) (db : DB)
  : Settlement.t * DB :=
  match save now id s db with
  | Some r => r
  | None => (s, db)
  end.

(** [settlementSchema.methods.markCompleted] *)
Definition markCompleted (now : Z) (id : string) (s : Settlement.t) (db : DB)
  : Settlement.t * DB :=
  let s1 := Settlement.setStatus "completed" s in
  let s2 := Settlement.setCompletedAt (Some now) s1 in
  saveDropped now id s2 db.

(** [settlementSchema.methods.cancel] *)
Definition cancel (now : Z) (id : string) (s : Settlement.t) (db : DB)
  : Settlement.t * DB :=
  let s1 := Settlement.setStatus "cancelled" s in
  saveDropped now id s1 db.

End SettlementDoc.

(** ** controllers/settlementController.js *)

Module settlementController.

Record body : Type := mkBody {
  status : option string;
  method : option string;
  notes : option string
}.

(** [if (status) ...; if (method) ...; if (notes !== undefined) ...] *)
Definition assignFields (b : body) (settlement : Settlement.t) : Settlement.t :=
  let s1 :=
    match status b with
    | Some v => if JS.truthy (status b)
                then Settlement.setStatus v settlement else settlement
    | None => settlement
    end in
  let s2 :=
    match method b with
    | Some v => if JS.truthy (method b)
                then Settlement.setMethod v s1 else s1
    | None => s1
    end in
  match notes b with
  | Some v => Settlement.setNotes (Some (trim v)) s2
  | None => s2
  end.

(** [if (status === "completed") settlement.markCompleted();
    else if (status === "cancelled") settlement.cancel();]
    Neither call is awaited: the first component tells whether a
    [save()] of the document has been started and is still in flight. *)
Definition statusMethods (now : Z) (id : string) (status : option string)
  (s : Settlement.t) (db : DB) : bool * (Settlement.t * DB) :=
  if JS.strictEq status "completed"
  then (true, SettlementDoc.markCompleted now id s db)
  else if JS.strictEq status "cancelled"
  then (true, SettlementDoc.cancel now id s db)
  else (false, (s, db)).

(** The controller's own [await settlement.save()].  Mongoose may refuse
    a [save()] of a document that is already being saved
    (ParallelSaveError); [parallelSaveError] tells whether it does.  The
    write of the save in flight lands in either case. *)
Definition awaitSave (parallelSaveError inFlight : bool) (now : Z)
  (id : string) (s : Settlement.t) (db : DB) : option (Settlement.t * DB) :=
  if inFlight && parallelSaveError then None
  else SettlementDoc.save now id s db.

(** [updateSettlementStatus] *)
Definition updateSettlementStatus (parallelSaveError : bool)
  (db : DB) (now : Z) (reqUser settlementId : string) (b : body)
  : response Settlement.t * DB :=
  match findById (settlements db) settlementId with
  | None => (mkResponse 404 "Settlement not found." None, db)
  | Some settlement =>
      if negb (String.eqb (Settlement.fromUser settlement) reqUser) &&
         negb (String.eqb (Settlement.toUser settlement) reqUser)
      then (mkResponse 403 "Access denied." None, db)
      else
        let s3 := assignFields b settlement in
        let r := statusMethods now settlementId (status b) s3 db in
        match awaitSave parallelSaveError (fst r) now settlementId
                (fst (snd r)) (snd (snd r)) with
        | Some (s5, db2) =>
            (mkResponse 200 "Settlement updated successfully" (Some s5), db2)
        | None => (mkResponse 500 "Server error." None, snd (snd r))
        end
  end.

End settlementController.

(** ** Expense documents in memory *)

Module ExpenseDoc.

(** A split subdocument as a JavaScript object: its schema paths and
    the one property the controller sets that the schema does not
    declare, [paid]. *)
Record splitObject : Type := mkObject {
  paths : Split.t;
  paid : option bool
}.

(** A subdocument as loaded from the collection. *)
Definition hydrate (s : Split.t) : splitObject := mkObject s None.

(** What Mongoose writes for a subdocument: its schema paths (the
    schema is strict, other properties are not persisted). *)
Definition persist (o : splitObject) : Split.t := paths o.

(** [expense.save()]: [None] is a validation error. *)
Definition save (now : Z) (id : string) (e : Expense.t) (db : DB)
  : option (Expense.t * DB) :=
  if Expense.validate e then
    let e' := Expense.preSave now e in
    Some (e', withExpenses (write (expenses db) id e') db)
  else None.

(** [split = splits.find(s => s.user.toString() === userId)] followed
    by [split.paid = true]; [None] when [find] returns [undefined]. *)
Fixpoint setPaidOfFirst (userId : string) (ss : list splitObject)
  : option (list splitObject) :=
  match ss with
  | [] => None
  | s :: ss' =>
      if String.eqb (Split.user (paths s)) userId
      then Some (mkObject (paths s) (Some true) :: ss')
      else option_map (cons s) (setPaidOfFirst userId ss')
  end.

Definition withIsPaid (v : bool) (s : Split.t) : Split.t :=
  Split.mk (Split.user s) (Split.amount s) (Split.percentage s) v.

(** [splits.find(...)] followed by [split.isPaid = true]. *)
Fixpoint setIsPaidOfFirst (userId : string) (ss : list Split.t)
  : option (list Split.t) :=
  match ss with
  | [] => None
  | s :: ss' =>
      if String.eqb (Split.user s) userId
      then Some (withIsPaid true s :: ss')
      else option_map (cons s) (setIsPaidOfFirst userId ss')
  end.

(** [expenseSchema.methods.markSplitAsPaid], the method of the model;
    [None] is a thrown error ("User not found in expense splits", or a
    validation error of [save]).  No controller calls it. *)
Definition markSplitAsPaid (now : Z) (id userId : string) (e : Expense.t)
  (db : DB) : option (Expense.t * DB) :=
  match setIsPaidOfFirst userId (Expense.splits e) with
  | Some ss => save now id (Expense.setSplits ss e) db
  | None => None
  end.

End ExpenseDoc.

(** ** controllers/expenseController.js *)

Module CustomSplit.
(** One element of [req.body.customSplits]; [percentage] is read for a
    percentage split and [amount] for a custom one. *)
Record t : Type := mk {
  userId : string;
  percentage : Q;
  amount : Q
}.
End CustomSplit.

Module expenseController.

(** An element of [expenseParticipants]: an [ObjectId] taken from
    [group.members], or a string from the request. *)
Inductive ref : Type :=
| ObjectId (hex : string)
| Str (s : string).

Definition toString (r : ref) : string :=
  match r with
  | ObjectId h => h
  | Str s => s
  end.

(** [expenseParticipants.includes(s)] for a string [s], on the plain
    array that [map] or the request gives: [includes] compares with
    SameValueZero, so no [ObjectId] is equal to [s]. *)
Definition includes (xs : list ref) (s : string) : bool :=
  existsb (fun r => match r with
                    | Str t => String.eqb t s
                    | ObjectId _ => false
                    end) xs.

Record body : Type := mkBody {
  description : string;
  amount : Q;
  groupId : option string;
  category : option string;
  date : option Z;
  splitType : option string;
  customSplits : list CustomSplit.t;
  notes : option string;
  paidByMultiple : list Payer.t;
  participants : list string
}.

Definition orDefault {A : Type} (d : A) (v : option A) : A :=
  match v with
  | Some x => x
  | None => d
  end.

(** [if (!includes(user)) push(user)] *)
Definition pushIfMissing (eps : list ref) (user : string) : list ref :=
  if includes eps user then eps else eps ++ [Str user].

(** "Ensure the person(s) who paid are always included in the split". *)
Definition withPayers (eps : list ref) (pbm : list Payer.t) (reqUser : string)
  : list ref :=
  match pbm with
  | _ :: _ => fold_left (fun acc payer => pushIfMissing acc (Payer.user payer)) pbm eps
  | [] => pushIfMissing eps reqUser
  end.

(** "Determine the primary payer". *)
Definition primaryPayer (pbm : list Payer.t) (reqUser : string) : string :=
  match pbm with
  | p :: _ => Payer.user p
  | [] => reqUser
  end.

(** "Calculate splits based on split type": [inl] is the early
    [return res.status(400)], [inr] the value of [expense.splits]
    ([None] when no branch assigns it). *)
Definition calculateSplits (splitType : string) (amount : Q)
  (expenseParticipants : list ref) (customSplits : list CustomSplit.t)
  : string + option (list Split.t) :=
  if String.eqb splitType "equal" then
    let memberCount := inject_Z (Z.of_nat (List.length expenseParticipants)) in
    let splitAmount := amount / memberCount in
    inr (Some (map (fun userId =>
                      Split.mk (toString userId) splitAmount None false)
                   expenseParticipants))
  else if String.eqb splitType "percentage" then
    let totalPercentage := JS.reduce_sum CustomSplit.percentage customSplits in
    if JS.gt (Qabs (totalPercentage - 100)) epsilon then
      inl "Percentages must add up to 100%."
    else
      inr (Some (map (fun split =>
                        Split.mk (CustomSplit.userId split)
                          (amount * CustomSplit.percentage split / 100)
                          (Some (CustomSplit.percentage split)) false)
                     customSplits))
  else if String.eqb splitType "custom" then
    let totalAmount := JS.reduce_sum CustomSplit.amount customSplits in
    if JS.gt (Qabs (totalAmount - amount)) epsilon then
      inl "Custom split amounts must add up to the total expense amount."
    else
      inr (Some (map (fun split =>
                        Split.mk (CustomSplit.userId split)
                          (CustomSplit.amount split)
                          (Some (CustomSplit.amount split / amount * 100)) false)
                     customSplits))
  else inr None.

(** The part of [createExpense] after the participants are known. *)
Definition createWith (db : DB) (now : Z) (newId reqUser : string) (b : body)
  (group : option string) (eps0 : list ref) : response Expense.t * DB :=
  let category := orDefault "other" (category b) in
  let date := orDefault now (date b) in
  let splitType := orDefault "equal" (splitType b) in
  let notes := orDefault "" (notes b) in
  let pbm := paidByMultiple b in
  let expenseParticipants := withPayers eps0 pbm reqUser in
  let expense :=
    Expense.mk (trim (description b)) (amount b) "LKR"
      (primaryPayer pbm reqUser)
      (if (1 <? List.length pbm)%nat then pbm else [])
      group category date [] splitType (trim notes) "" now now in
  match calculateSplits splitType (amount b) expenseParticipants
          (customSplits b) with
  | inl msg => (mkResponse 400 msg None, db)
  | inr splits =>
      let expense' :=
        match splits with
        | Some ss => Expense.setSplits ss expense
        | None => expense
        end in
      if Expense.validate expense' then
        let saved := Expense.preSave now expense' in
        (mkResponse 201 "Expense created successfully" (Some saved),
         withExpenses (expenses db ++ [(newId, saved)]) db)
      else (mkResponse 500 "Server error." None, db)
  end.

(** "Handle group expenses" and "Determine participants for
    splitting": [inl] is an early [return res.status(...)], [inr] the
    value of [groupId || null] with the initial [expenseParticipants]. *)
Definition resolveParticipants (db : DB) (reqUser : string) (b : body)
  : response Expense.t + (option string * list ref) :=
  if JS.truthy (groupId b) then
    let gid := orDefault "" (groupId b) in
    match findById (groups db) gid with
    | None => inl (mkResponse 404 "Group not found." None)
    | Some group =>
        if negb (Group.isMember group reqUser)
        then inl (mkResponse 403 "Access denied." None)
        else inr (Some gid,
                  map (fun member => ObjectId (Group.user member))
                      (Group.members group))
    end
  else
    match participants b with
    | _ :: _ => inr (None, map Str (participants b))
    | [] => inl (mkResponse 400 "No participants specified for expense." None)
    end.

(** [createExpense]; [newId] is the [_id] given to the new document. *)
Definition createExpense (db : DB) (now : Z) (newId reqUser : string)
  (b : body) : response Expense.t * DB :=
  match resolveParticipants db reqUser b with
  | inl early => (early, db)
  | inr (group, eps0) => createWith db now newId reqUser b group eps0
  end.

(** [markSplitAsPaid].  A missing group makes [group.isMember] throw,
    which the [catch] turns into a 500. *)
Definition markSplitAsPaid (db : DB) (now : Z)
  (reqUser expenseId userId : string) : response Expense.t * DB :=
  match findById (expenses db) expenseId with
  | None => (mkResponse 404 "Expense not found." None, db)
  | Some expense =>
      match match Expense.group expense with
            | Some gid => findById (groups db) gid
            | None => None
            end with
      | None => (mkResponse 500 "Server error." None, db)
      | Some group =>
          if negb (Group.isMember group reqUser)
          then (mkResponse 403 "Access denied." None, db)
          else
            match ExpenseDoc.setPaidOfFirst userId
                    (map ExpenseDoc.hydrate (Expense.splits expense)) with
            | None => (mkResponse 404 "Split not found." None, db)
            | Some objects =>
                let expense' :=
                  Expense.setSplits (map ExpenseDoc.persist objects) expense in
                match ExpenseDoc.save now expenseId expense' db with
                | Some (saved, db') =>
                    (mkResponse 200 "Split marked as paid successfully"
                       (Some saved), db')
                | None => (mkResponse 500 "Server error." None, db)
                end
            end
      end
  end.

End expenseController.

(** * The rest of the backend

    The handlers and model methods the sections above leave out.  The
    collection of users is not part of [DB]: a handler that dereferences
    a populated user takes [userExists] (or [nameOf], [userByEmail]),
    which tells what the collection holds. *)

From Stdlib Require Import Permutation Sorted.

(** [Model.findByIdAndDelete(id)]: the first document with that [_id]
    is removed. *)
Fixpoint removeById {A : Type} (c : list (string * A)) (id : string)
  : list (string * A) :=
  match c with
  | [] => []
  | (id', doc) :: c' =>
      if String.eqb id' id then c' else (id', doc) :: removeById c' id
  end.

(** [docs.sort(...)] for a comparison [before a b] ("a goes before b or
    ties with it"), as an insertion sort. *)
Fixpoint insertSorted {A : Type} (before : A -> A -> bool) (x : A)
  (l : list A) : list A :=
  match l with
  | [] => [x]
  | y :: l' => if before x y then x :: y :: l'
               else y :: insertSorted before x l'
  end.

Fixpoint sortBy {A : Type} (before : A -> A -> bool) (l : list A) : list A :=
  match l with
  | [] => []
  | x :: l' => insertSorted before x (sortBy before l')
  end.

(** ** The other handlers of controllers/settlementController.js *)

Module settlementHandlers.

(** The document Mongoose builds from the given paths: [currency],
    [status], [method], [createdAt] and [updatedAt] get their defaults
    when absent, [notes] is trimmed. *)
Definition construct (now : Z) (fromUser toUser group : string) (amount : Q)
  (method : option string) (notes : option string) : Settlement.t :=
  Settlement.mk fromUser toUser group amount "LKR" "pending"
    (match method with Some m => m | None => "other" end)
    (option_map trim notes) None now now.

(** A plain object of [calculateGroupSettlements] as a document. *)
Definition ofPlain (now : Z) (p : Settlement.plain) : Settlement.t :=
  Settlement.mk (Settlement.p_fromUser p) (Settlement.p_toUser p)
    (Settlement.p_group p) (Settlement.p_amount p) (Settlement.p_currency p)
    "pending" "other" None None now now.

(** The [_id]s of a batch: document number [i] gets [ids i]. *)
Fixpoint withIds {A : Type} (ids : nat -> string) (i : nat) (docs : list A)
  : list (string * A) :=
  match docs with
  | [] => []
  | d :: docs' => (ids i, d) :: withIds ids (S i) docs'
  end.

(** The query [{ $or: [{ fromUser }, { toUser }] }] with the optional
    [status] and [group] conditions. *)
Definition matches (reqUser : string) (status groupId : option string)
  (s : Settlement.t) : bool :=
  (String.eqb (Settlement.fromUser s) reqUser
   || String.eqb (Settlement.toUser s) reqUser)
  && (if JS.truthy status
      then JS.strictEq status (Settlement.status s) else true)
  && (if JS.truthy groupId
      then JS.strictEq groupId (Settlement.group s) else true).

(** [.sort({ createdAt: -1 })] *)
Definition newerFirst (a b : Settlement.t) : bool :=
  (Settlement.createdAt b <=? Settlement.createdAt a)%Z.


(** [getGroupSettlements]; the handler does not look at [req.user]. *)
Definition getGroupSettlements (db : DB) (groupId : string)
  (status : option string) : list Settlement.t :=
  sortBy newerFirst
    (filter (fun s => String.eqb (Settlement.group s) groupId
                      && (if JS.truthy status
                          then JS.strictEq status (Settlement.status s)
                          else true))
       (map snd (settlements db))).

(** [Expense.find({ group: groupId })] *)
Definition expensesOf (db : DB) (groupId : string) : list Expense.t :=
  filter (fun e => match Expense.group e with
                   | Some g => String.eqb g groupId
                   | None => false
                   end) (map snd (expenses db)).

(** [.populate("paidBy", ...)] and [.populate("splits.user", ...)] leave
    [null] where no user document has the id; [expense.paidBy._id] and
    [split.user._id] then throw.  [userExists] tells whether a user
    document with that [_id] is stored: whether the static method reads
    the expense without throwing. *)
Definition populated (userExists : string -> bool) (e : Expense.t) : bool :=
  userExists (Expense.paidBy e)
  && forallb (fun split => userExists (Split.user split)) (Expense.splits e).

(** [calculateGroupSettlements], the handler: the static method throws
    on an expense that names a user who does not exist, before anything
    is written; [Settlement.insertMany] validates every document and
    inserts them all, or throws. *)
Definition calculateGroupSettlements (userExists : string -> bool) (db : DB)
  (now : Z) (ids : nat -> string) (reqUser groupId : string)
  : response (list Settlement.t) * DB :=
  match findById (groups db) groupId with
  | None => (mkResponse 404 "Group not found." None, db)
  | Some group =>
      if negb (Group.isMember group reqUser)
      then (mkResponse 403 "Access denied." None, db)
      else if negb (forallb (populated userExists) (expensesOf db groupId))
      then (mkResponse 500 "Server error." None, db)
      else
        let computed :=
          Settlement.calculateGroupSettlements (expenses db) groupId in
        let docs := map (ofPlain now) computed in
        if forallb Settlement.validate docs then
          (mkResponse 200 "Settlements calculated successfully" (Some docs),
           withSettlements (settlements db ++ withIds ids 0 docs) db)
        else (mkResponse 500 "Server error." None, db)
  end.

Record body : Type := mkBody {
  toUserId : string;
  groupId : string;
  amount : Q;
  method : option string;
  notes : option string
}.

(** [createSettlement]; [newId] is the [_id] of the new document. *)
Definition createSettlement (db : DB) (now : Z) (newId reqUser : string)
  (b : body) : response Settlement.t * DB :=
  match findById (groups db) (groupId b) with
  | None => (mkResponse 404 "Group not found." None, db)
  | Some group =>
      if negb (Group.isMember group reqUser)
         || negb (Group.isMember group (toUserId b))
      then (mkResponse 403 "Access denied." None, db)
      else
        let settlement :=
          construct now reqUser (toUserId b) (groupId b) (amount b)
            (method b) (notes b) in
        if Settlement.validate settlement then
          let saved := Settlement.preSave now settlement in
          (mkResponse 201 "Settlement created successfully" (Some saved),
           withSettlements (settlements db ++ [(newId, saved)]) db)
        else (mkResponse 500 "Server error." None, db)
  end.

(** [deleteSettlement] *)
Definition deleteSettlement (db : DB) (reqUser settlementId : string)
  : response Settlement.t * DB :=
  match findById (settlements db) settlementId with
  | None => (mkResponse 404 "Settlement not found." None, db)
  | Some settlement =>
      if negb (String.eqb (Settlement.fromUser settlement) reqUser) &&
         negb (String.eqb (Settlement.toUser settlement) reqUser)
      then (mkResponse 403 "Access denied." None, db)
      else
        (mkResponse 200 "Settlement deleted successfully" None,
         withSettlements (removeById (settlements db) settlementId) db)
  end.

(** [updateSettlementStatus], from the request: [Settlement.findById]
    casts [settlementId] to an [ObjectId] and throws a CastError when
    the string is not one, which the [catch] of the handler answers with
    500.  [isObjectId] tells whether the string casts. *)
Definition updateSettlementStatus (isObjectId : string -> bool)
  (parallelSaveError : bool) (db : DB) (now : Z)
  (reqUser settlementId : string) (b : settlementController.body)
  : response Settlement.t * DB :=
  if isObjectId settlementId
  then settlementController.updateSettlementStatus parallelSaveError
         db now reqUser settlementId b
  else (mkResponse 500 "Server error." None, db).

Record stats : Type := mkStats {
  total : nat;
  pending : nat;
  completed : nat;
  cancelled : nat;
  totalAmount : Q;
  pendingAmount : Q;
  completedAmount : Q
}.

Definition hasStatus (v : string) (s : Settlement.t) : bool :=
  String.eqb (Settlement.status s) v.

(** [getSettlementStats] *)
Definition getSettlementStats (db : DB) (reqUser : string)
  (groupId : option string) : stats :=
  let found :=
    filter (matches reqUser None groupId) (map snd (settlements db)) in
  mkStats
    (List.length found)
    (List.length (filter (hasStatus "pending") found))
    (List.length (filter (hasStatus "completed") found))
    (List.length (filter (hasStatus "cancelled") found))
    (JS.reduce_sum Settlement.amount found)
    (JS.reduce_sum Settlement.amount (filter (hasStatus "pending") found))
    (JS.reduce_sum Settlement.amount (filter (hasStatus "completed") found)).

End settlementHandlers.

(** ** The methods of the Expense model *)

Module Share.
(** An element of the argument of [calculatePercentageSplits]. *)
Record t : Type := mk {
  user : string;
  percentage : Q
}.
End Share.

Module Portion.
(** An element of the argument of [setCustomSplits]. *)
Record t : Type := mk {
  user : string;
  amount : Q
}.
End Portion.

Module ExpenseMethods.

Definition setSplitType (v : string) (e : Expense.t) : Expense.t :=
  Expense.mk (Expense.description e) (Expense.amount e) (Expense.currency e)
    (Expense.paidBy e) (Expense.paidByMultiple e) (Expense.group e)
    (Expense.category e) (Expense.date e) (Expense.splits e) v
    (Expense.notes e) (Expense.receipt e) (Expense.createdAt e)
    (Expense.updatedAt e).

(** [expenseSchema.methods.calculateEqualSplits]; [None] is a rejected
    [save()]. *)
Definition calculateEqualSplits (now : Z) (id : string)
  (memberIds : list string) (e : Expense.t) (db : DB)
  : option (Expense.t * DB) :=
  let n := inject_Z (Z.of_nat (List.length memberIds)) in
  let splitAmount := Expense.amount e / n in
  let splits :=
    map (fun userId => Split.mk userId splitAmount (Some (100 / n)) false)
      memberIds in
  ExpenseDoc.save now id (setSplitType "equal" (Expense.setSplits splits e)) db.

(** [expenseSchema.methods.calculatePercentageSplits]; [None] is the
    thrown "Total percentage must equal 100%" or a rejected [save()]. *)
Definition calculatePercentageSplits (now : Z) (id : string)
  (splits : list Share.t) (e : Expense.t) (db : DB)
  : option (Expense.t * DB) :=
  let totalPercentage := JS.reduce_sum Share.percentage splits in
  if JS.gt (Qabs (totalPercentage - 100)) epsilon then None
  else
    let computed :=
      map (fun split =>
             Split.mk (Share.user split)
               (Expense.amount e * Share.percentage split / 100)
               (Some (Share.percentage split)) false) splits in
    ExpenseDoc.save now id
      (setSplitType "percentage" (Expense.setSplits computed e)) db.

(** [expenseSchema.methods.setCustomSplits]; [None] is the thrown "Total
    split amount must equal expense amount" or a rejected [save()]. *)
Definition setCustomSplits (now : Z) (id : string)
  (splits : list Portion.t) (e : Expense.t) (db : DB)
  : option (Expense.t * DB) :=
  let totalAmount := JS.reduce_sum Portion.amount splits in
  if JS.gt (Qabs (totalAmount - Expense.amount e)) epsilon then None
  else
    let computed :=
      map (fun split =>
             Split.mk (Portion.user split) (Portion.amount split)
               (Some (Portion.amount split / Expense.amount e * 100)) false)
        splits in
    ExpenseDoc.save now id
      (setSplitType "custom" (Expense.setSplits computed e)) db.

(** [expenseSchema.methods.getTotalPaid] *)
Definition getTotalPaid (e : Expense.t) : Q :=
  JS.reduce_sum Split.amount (filter Split.isPaid (Expense.splits e)).

(** [expenseSchema.methods.getTotalUnpaid] *)
Definition getTotalUnpaid (e : Expense.t) : Q :=
  JS.reduce_sum Split.amount
    (filter (fun split => negb (Split.isPaid split)) (Expense.splits e)).

End ExpenseMethods.

(** ** The methods of the Group model *)

Definition withGroups (c : list (string * Group.t)) (db : DB) : DB :=
  mkDB (expenses db) c (settlements db).

Module GroupDoc.

Definition roles : list string := ["admin"; "member"].

(** Schema validation run by [save]: [name] is required and every
    member's [role] is one of the two roles. *)
Definition validate (g : Group.t) : bool :=
  negb (String.eqb (Group.name g) "") &&
  forallb (fun m => JS.includes roles (Group.role m)) (Group.members g).

Definition setMembers (ms : list Group.member) (g : Group.t) : Group.t :=
  Group.mk (Group.name g) ms (Group.currency g).

(** [group.save()]: [None] is a validation error. *)
Definition save (id : string) (g : Group.t) (db : DB)
  : option (Group.t * DB) :=
  if validate g then Some (g, withGroups (write (groups db) id g) db)
  else None.

(** The member list after [groupSchema.methods.addMember]. *)
Definition membersWith (userId role : string) (g : Group.t)
  : list Group.member :=
  if existsb (fun m => String.eqb (Group.user m) userId) (Group.members g)
  then Group.members g
  else Group.members g ++ [Group.mkMember userId role].

(** [groupSchema.methods.addMember] *)
Definition addMember (id userId role : string) (g : Group.t) (db : DB)
  : option (Group.t * DB) :=
  save id (setMembers (membersWith userId role g) g) db.

(** The member list after [groupSchema.methods.removeMember]. *)
Definition membersWithout (userId : string) (g : Group.t)
  : list Group.member :=
  filter (fun m => negb (String.eqb (Group.user m) userId)) (Group.members g).

(** [groupSchema.methods.removeMember] *)
Definition removeMember (id userId : string) (g : Group.t) (db : DB)
  : option (Group.t * DB) :=
  save id (setMembers (membersWithout userId g) g) db.

(** [groupSchema.methods.isAdmin]: the role of the first member entry of
    the user decides. *)
Definition isAdmin (g : Group.t) (userId : string) : bool :=
  match find (fun m => String.eqb (Group.user m) userId) (Group.members g) with
  | Some member => String.eqb (Group.role member) "admin"
  | None => false
  end.

End GroupDoc.

(** ** middleware/groupAccess.js *)

Module groupAccess.

(** [requireGroupMember]: [inl] is the response sent, [inr] the group put
    in [req.group] before [next()]. *)
Definition requireGroupMember (db : DB) (reqUser : string)
  (groupId : option string) : response Group.t + Group.t :=
  match groupId with
  | Some gid =>
      if JS.truthy groupId then
        match findById (groups db) gid with
        | None => inl (mkResponse 404 "Group not found." None)
        | Some group =>
            if negb (Group.isMember group reqUser)
            then inl (mkResponse 403
                        "Access denied. You are not a member of this group."
                        None)
            else inr group
        end
      else inl (mkResponse 400 "Group ID is required." None)
  | None => inl (mkResponse 400 "Group ID is required." None)
  end.

(** [requireGroupAdmin] *)
Definition requireGroupAdmin (db : DB) (reqUser : string)
  (groupId : option string) : response Group.t + Group.t :=
  match groupId with
  | Some gid =>
      if JS.truthy groupId then
        match findById (groups db) gid with
        | None => inl (mkResponse 404 "Group not found." None)
        | Some group =>
            if negb (GroupDoc.isAdmin group reqUser)
            then inl (mkResponse 403
                        "Access denied. Admin privileges required." None)
            else inr group
        end
      else inl (mkResponse 400 "Group ID is required." None)
  | None => inl (mkResponse 400 "Group ID is required." None)
  end.

End groupAccess.

(** ** controllers/groupController.js *)

Module groupController.

(** [createGroup].  The [groups] list of the user document is outside
    the database modelled here. *)
Definition createGroup (db : DB) (newId reqUser : string) (name : string)
  (currency : option string) : response Group.t * DB :=
  let group :=
    Group.mk (trim name) [Group.mkMember reqUser "admin"]
      (match currency with Some c => c | None => "LKR" end) in
  match GroupDoc.save newId group db with
  | Some (saved, db') =>
      (mkResponse 201 "Group created successfully" (Some saved), db')
  | None => (mkResponse 500 "Server error." None, db)
  end.

(** [addMember]; [userByEmail] is [User.findOne({ email })], giving the
    [_id] of the user. *)
Definition addMember (userByEmail : string -> option string) (db : DB)
  (groupId : string) (group : Group.t) (email : string)
  (role : option string) : response Group.t * DB :=
  match userByEmail email with
  | None => (mkResponse 404 "User not found." None, db)
  | Some userId =>
      if Group.isMember group userId
      then (mkResponse 400 "User is already a member of this group." None, db)
      else
        match GroupDoc.addMember groupId userId
                (match role with Some r => r | None => "member" end)
                group db with
        | Some (saved, db') =>
            (mkResponse 200 "Member added successfully" (Some saved), db')
        | None => (mkResponse 500 "Server error." None, db)
        end
  end.

(** [removeMember] *)
Definition removeMember (db : DB) (groupId : string) (group : Group.t)
  (reqUser userId : string) : response Group.t * DB :=
  if String.eqb userId reqUser
  then (mkResponse 400 "You cannot remove yourself from the group." None, db)
  else if negb (Group.isMember group userId)
  then (mkResponse 400 "User is not a member of this group." None, db)
  else
    match GroupDoc.removeMember groupId userId group db with
    | Some (_, db') => (mkResponse 200 "Member removed successfully" None, db')
    | None => (mkResponse 500 "Server error." None, db)
    end.

(** [member = members.find(...)] followed by [member.role = role]. *)
Fixpoint setRoleOfFirst (userId role : string) (ms : list Group.member)
  : option (list Group.member) :=
  match ms with
  | [] => None
  | m :: ms' =>
      if String.eqb (Group.user m) userId
      then Some (Group.mkMember (Group.user m) role :: ms')
      else option_map (cons m) (setRoleOfFirst userId role ms')
  end.

(** [changeMemberRole] *)
Definition changeMemberRole (db : DB) (groupId : string) (group : Group.t)
  (userId : string) (role : option string) : response Group.t * DB :=
  match role with
  | Some r =>
      if JS.includes GroupDoc.roles r then
        match setRoleOfFirst userId r (Group.members group) with
        | None => (mkResponse 404 "Member not found." None, db)
        | Some ms =>
            match GroupDoc.save groupId (GroupDoc.setMembers ms group) db with
            | Some (_, db') =>
                (mkResponse 200 "Member role updated successfully" None, db')
            | None => (mkResponse 500 "Server error." None, db)
            end
        end
      else (mkResponse 400 "Invalid role." None, db)
  | None => (mkResponse 400 "Invalid role." None, db)
  end.

(** [deleteGroup] *)
Definition deleteGroup (db : DB) (groupId : string) : response Group.t * DB :=
  (mkResponse 200 "Group deleted successfully" None,
   withGroups (removeById (groups db) groupId) db).

End groupController.

(** ** routes/groups.js: each handler behind its middleware *)

Module groupRoutes.

Definition guarded (db : DB) (reqUser groupId : string)
  (handler : Group.t -> response Group.t * DB) : response Group.t * DB :=
  match groupAccess.requireGroupAdmin db reqUser (Some groupId) with
  | inl refused => (refused, db)
  | inr group => handler group
  end.

(** [router.post('/:groupId/members', requireGroupAdmin, addMember)] *)
Definition addMember (userByEmail : string -> option string) (db : DB)
  (reqUser groupId email : string) (role : option string)
  : response Group.t * DB :=
  guarded db reqUser groupId
    (fun group => groupController.addMember userByEmail db groupId group email role).

(** [router.delete('/:groupId/members/:userId', requireGroupAdmin,
    removeMember)] *)
Definition removeMember (db : DB) (reqUser groupId userId : string)
  : response Group.t * DB :=
  guarded db reqUser groupId
    (fun group => groupController.removeMember db groupId group reqUser userId).

(** [router.put('/:groupId/members/:userId/role', requireGroupAdmin,
    changeMemberRole)] *)
Definition changeMemberRole (db : DB) (reqUser groupId userId : string)
  (role : option string) : response Group.t * DB :=
  guarded db reqUser groupId
    (fun group => groupController.changeMemberRole db groupId group userId role).

(** [router.delete('/:groupId', requireGroupAdmin, deleteGroup)] *)
Definition deleteGroup (db : DB) (reqUser groupId : string)
  : response Group.t * DB :=
  guarded db reqUser groupId (fun _ => groupController.deleteGroup db groupId).

End groupRoutes.

(** ** The other handlers of controllers/expenseController.js *)

Module expenseHandlers.

(** [.populate("group", ...)]: the group document the expense refers
    to, or [null]. *)
Definition populatedGroup (db : DB) (e : Expense.t) : option Group.t :=
  match Expense.group e with
  | Some gid => findById (groups db) gid
  | None => None
  end.

(** [getExpense].  With [expense.group] null, [expense.group._id] throws
    and the [catch] answers 500. *)
Definition getExpense (db : DB) (reqUser expenseId : string)
  : response Expense.t :=
  match findById (expenses db) expenseId with
  | None => mkResponse 404 "Expense not found." None
  | Some expense =>
      match populatedGroup db expense with
      | None => mkResponse 500 "Server error." None
      | Some group =>
          if negb (Group.isMember group reqUser)
          then mkResponse 403 "Access denied." None
          else mkResponse 200 "" (Some expense)
      end
  end.

(** [isOwner || isGroupAdmin] of [updateExpense] and [deleteExpense]. *)
Definition mayEdit (db : DB) (reqUser : string) (e : Expense.t) : bool :=
  let isOwner := String.eqb (Expense.paidBy e) reqUser in
  let isGroupAdmin :=
    match populatedGroup db e with
    | Some group =>
        existsb (fun member =>
                   String.eqb (Group.user member) reqUser
                   && String.eqb (Group.role member) "admin")
          (Group.members group)
    | None => false
    end in
  isOwner || isGroupAdmin.

(** [deleteExpense].  [.populate("paidBy", ...)] leaves [null] when no
    user document has the id of the payer; [expense.paidBy._id] then
    throws and the [catch] answers 500.  [userExists] tells whether a
    user document with that [_id] is stored. *)
Definition deleteExpense (userExists : string -> bool) (db : DB)
  (reqUser expenseId : string) : response Expense.t * DB :=
  match findById (expenses db) expenseId with
  | None => (mkResponse 404 "Expense not found." None, db)
  | Some expense =>
      if negb (userExists (Expense.paidBy expense))
      then (mkResponse 500 "Server error." None, db)
      else if negb (mayEdit db reqUser expense)
      then (mkResponse 403 "Access denied." None, db)
      else (mkResponse 200 "Expense deleted successfully." None,
            withExpenses (removeById (expenses db) expenseId) db)
  end.

(** The body of [updateExpense].  [category], [notes] and [splitType]
    may be absent.  The record holds the requests that carry a
    description, an amount and a date that [new Date] parses: a request
    without one of them is answered 400 or 500 and writes nothing. *)
Record body : Type := mkBody {
  description : string;
  amount : Q;
  category : option string;
  date : Z;
  notes : option string;
  splitType : option string;
  customSplits : list CustomSplit.t;
  paidByMultiple : list Payer.t;
  participants : list string
}.

(** "Update basic fields" and "Handle paidByMultiple".  Assigning
    [undefined] unsets the path: a document without [category] or
    [splitType] is read with the default of the schema, and one without
    [notes] is modelled with the empty string. *)
Definition assignFields (b : body) (e : Expense.t) : Expense.t :=
  let pbm := paidByMultiple b in
  Expense.mk (trim (description b)) (amount b) (Expense.currency e)
    (match pbm with p :: _ => Payer.user p | [] => Expense.paidBy e end)
    (match pbm with
     | _ :: _ => if (1 <? List.length pbm)%nat then pbm else []
     | [] => Expense.paidByMultiple e
     end)
    (Expense.group e)
    (match category b with Some c => c | None => "other" end)
    (date b) (Expense.splits e)
    (match splitType b with Some t => t | None => "equal" end)
    (match notes b with Some n => trim n | None => "" end)
    (Expense.receipt e) (Expense.createdAt e) (Expense.updatedAt e).

Definition pushIfMissing (eps : list string) (user : string) : list string :=
  if JS.includes eps user then eps else eps ++ [user].

(** "Ensure the person(s) who paid are always included in the split",
    on an array of strings. *)
Definition withPayers (eps : list string) (pbm : list Payer.t)
  (reqUser : string) : list string :=
  match pbm with
  | _ :: _ => fold_left (fun acc payer => pushIfMissing acc (Payer.user payer)) pbm eps
  | [] => pushIfMissing eps reqUser
  end.

(** "Recalculate splits based on split type": [inl] is the early
    [return res.status(400)], [inr] the new value of [expense.splits]
    ([None] when no branch assigns it).  The custom branch sets no
    [percentage]. *)
Definition recalculateSplits (splitType : string) (amount : Q)
  (expenseParticipants : list string) (customSplits : list CustomSplit.t)
  : string + option (list Split.t) :=
  if String.eqb splitType "equal" then
    let memberCount := inject_Z (Z.of_nat (List.length expenseParticipants)) in
    let splitAmount := amount / memberCount in
    inr (Some (map (fun userId => Split.mk userId splitAmount None false)
                 expenseParticipants))
  else if String.eqb splitType "percentage" then
    let totalPercentage := JS.reduce_sum CustomSplit.percentage customSplits in
    if JS.gt (Qabs (totalPercentage - 100)) epsilon then
      inl "Percentages must add up to 100%."
    else
      inr (Some (map (fun split =>
                        Split.mk (CustomSplit.userId split)
                          (amount * CustomSplit.percentage split / 100)
                          (Some (CustomSplit.percentage split)) false)
                   customSplits))
  else if String.eqb splitType "custom" then
    let totalAmount := JS.reduce_sum CustomSplit.amount customSplits in
    if JS.gt (Qabs (totalAmount - amount)) epsilon then
      inl "Custom split amounts must add up to the total expense amount."
    else
      inr (Some (map (fun split =>
                        Split.mk (CustomSplit.userId split)
                          (CustomSplit.amount split) None false)
                   customSplits))
  else inr None.

(** [updateExpense].  There is no branch for an absent [splitType]:
    the splits are then left as they are. *)
Definition updateExpense (userExists : string -> bool) (db : DB) (now : Z)
  (reqUser expenseId : string) (b : body) : response Expense.t * DB :=
  match findById (expenses db) expenseId with
  | None => (mkResponse 404 "Expense not found." None, db)
  | Some expense =>
      if negb (userExists (Expense.paidBy expense))
      then (mkResponse 500 "Server error." None, db)
      else if negb (mayEdit db reqUser expense)
      then (mkResponse 403 "Access denied." None, db)
      else
        let assigned := assignFields b expense in
        let initial :=
          match populatedGroup db expense with
          | Some group => Some (map Group.user (Group.members group))
          | None =>
              match participants b with
              | _ :: _ => Some (participants b)
              | [] => None
              end
          end in
        match initial with
        | None =>
            (mkResponse 400 "No participants specified for expense." None, db)
        | Some eps0 =>
            let expenseParticipants :=
              withPayers eps0 (paidByMultiple b) reqUser in
            match match splitType b with
                  | Some t => recalculateSplits t (amount b)
                                expenseParticipants (customSplits b)
                  | None => inr None
                  end with
            | inl msg => (mkResponse 400 msg None, db)
            | inr splits =>
                let expense' :=
                  match splits with
                  | Some ss => Expense.setSplits ss assigned
                  | None => assigned
                  end in
                match ExpenseDoc.save now expenseId expense' db with
                | Some (saved, db') => (mkResponse 200 "" (Some saved), db')
                | None => (mkResponse 500 "Server error." None, db)
                end
            end
        end
  end.

Record summary : Type := mkSummary {
  totalExpenses : nat;
  totalSpent : Q;
  totalOwed : Q;
  categoryBreakdown : JS.object;
  userBreakdown : list (string * (string * Q));
  recentExpenses : list Expense.t
}.

(** [Expense.find({ group: groupId })] *)
Definition ofGroup (db : DB) (groupId : string) : list Expense.t :=
  filter (fun e => JS.strictEq (Expense.group e) groupId)
    (map snd (expenses db)).

(** The body of the "Category breakdown" loop. *)
Definition addCategory (breakdown : JS.object) (e : Expense.t) : JS.object :=
  JS.set breakdown (Expense.category e)
    (JS.orZero (JS.get breakdown (Expense.category e)) + Expense.amount e).

(** The [totalPaid] of the "User breakdown" loop, by payer. *)
Definition addPayer (totals : JS.object) (e : Expense.t) : JS.object :=
  JS.set totals (Expense.paidBy e)
    (JS.orZero (JS.get totals (Expense.paidBy e)) + Expense.amount e).

(** [getExpenseSummary]; [nameOf] gives the "firstName lastName" of the
    user document with that [_id], if there is one.  A payer who does
    not exist is populated as [null], [expense.paidBy._id] throws and
    the [catch] answers 500. *)
Definition getExpenseSummary (nameOf : string -> option string) (db : DB)
  (reqUser groupId : string) : response summary :=
  match findById (groups db) groupId with
  | None => mkResponse 404 "Group not found." None
  | Some group =>
      if negb (Group.isMember group reqUser)
      then mkResponse 403 "Access denied." None
      else
        let found := ofGroup db groupId in
        if forallb (fun e => match nameOf (Expense.paidBy e) with
                             | Some _ => true
                             | None => false
                             end) found
        then
          mkResponse 200 ""
            (Some (mkSummary
                     (List.length found)
                     (JS.reduce_sum Expense.amount found)
                     0
                     (fold_left addCategory found [])
                     (map (fun kv =>
                             (fst kv,
                              (match nameOf (fst kv) with
                               | Some name => name
                               | None => ""
                               end, snd kv)))
                        (fold_left addPayer found []))
                     (firstn 5 found)))
        else mkResponse 500 "Server error." None
  end.

(** A query parameter the handler uses as a number; [page] and [limit]
    arrive as strings.  [num] is the number arithmetic makes of the
    string (in [page - 1], [* limit] and [total / limit]) and [int] what
    [parseInt] makes of it: the two agree on a decimal numeral and
    differ on a string such as "1e1".  The strings modelled are those
    for which both are natural numbers. *)
Record numeral : Type := mkNumeral {
  num : nat;
  int : nat
}.

Definition decimal (n : nat) : numeral := mkNumeral n n.

(** The response of [getGroupExpenses]; [totalPages] is [None] when
    [Math.ceil(total / limit)] is not a finite number. *)
Record page : Type := mkPage {
  data : list Expense.t;
  totalPages : option nat;
  currentPage : nat;
  pageTotal : nat;
  pageLimit : nat
}.

(** The query of [getGroupExpenses]: the group, and the optional
    category and date bounds. *)
Definition inQuery (groupId : string) (category : option string)
  (startDate endDate : option Z) (e : Expense.t) : bool :=
  JS.strictEq (Expense.group e) groupId
  && (if JS.truthy category
      then JS.strictEq category (Expense.category e) else true)
  && (match startDate with
      | Some d => (d <=? Expense.date e)%Z
      | None => true
      end)
  && (match endDate with
      | Some d => (Expense.date e <=? d)%Z
      | None => true
      end).

(** [.sort({ date: -1 })] *)
Definition laterFirst (a b : Expense.t) : bool :=
  (Expense.date b <=? Expense.date a)%Z.

(** [Math.ceil(total / limit)] on natural numbers, [limit] positive. *)
Definition ceilDiv (total limit : nat) : nat :=
  ((total + limit - 1) / limit)%nat.

(** [getGroupExpenses].  The query is run with
    [skip((page - 1) * limit)] and [limit(parseInt(limit))]: a negative
    skip is refused by the database (500), and a limit of 0 is no
    limit. *)
Definition getGroupExpenses (db : DB) (reqUser groupId : string)
  (category : option string) (startDate endDate : option Z)
  (pageNo limit : numeral) : response page :=
  match findById (groups db) groupId with
  | None => mkResponse 404 "Group not found." None
  | Some group =>
      if negb (Group.isMember group reqUser)
      then mkResponse 403 "Access denied." None
      else if (num pageNo =? 0)%nat && negb (num limit =? 0)%nat
      then mkResponse 500 "Server error." None
      else
        let found :=
          sortBy laterFirst
            (filter (inQuery groupId category startDate endDate)
               (map snd (expenses db))) in
        let skip := ((num pageNo - 1) * num limit)%nat in
        let rest := skipn skip found in
        mkResponse 200 ""
          (Some (mkPage
                   (if (int limit =? 0)%nat then rest
                    else firstn (int limit) rest)
                   (if (num limit =? 0)%nat then None
                    else Some (ceilDiv (List.length found) (num limit)))
                   (int pageNo) (List.length found) (int limit)))
  end.

End expenseHandlers.

(** * Properties *)

(** ** What the statements are written with *)








(** Every balance is zero within the tolerance. *)
Definition allWithinEpsilon (userBalances : JS.object) : Prop :=
  forall k v, In (k, v) userBalances -> Qabs v <= epsilon.

(** Scenario 1 of the specification: group {A, B, C}, one expense of 300
    paid by A and split equally. *)
Definition scenario1 : Expense.t :=
  Expense.mk "dinner" 300 "LKR" "A" [] (Some "g") "other" 0
    [Split.mk "A" 100 None false;
     Split.mk "B" 100 None false;
     Split.mk "C" 100 None false]
    "equal" "" "" 0 0.

(** Two creditors and two debtors. *)
Definition twoByTwo : JS.object :=
  [("A", 100); ("C", -(100)); ("B", 100); ("D", -(100))].


(** Balances of 1/256 and -1/256: both within the tolerance of zero. *)
Definition nearlySettled : JS.object := [("A", 1 # 256); ("B", -(1 # 256))].

(** The sum of the values of a balance object. *)
Definition totalBalance (userBalances : JS.object) : Q :=
  JS.reduce_sum snd userBalances.

(** The sum of the owed amounts of a list of splits. *)
Definition owedTotal (ss : list Split.t) : Q := JS.reduce_sum Split.amount ss.

(** What an expense adds to the total of the balances. *)
Definition imbalance (e : Expense.t) : Q :=
  Expense.amount e - owedTotal (Expense.splits e).

(** A valid expense: its splits sum to its amount within the tolerance. *)
Definition validExpense (e : Expense.t) : Prop :=
  Qabs (owedTotal (Expense.splits e) - Expense.amount e) <= epsilon.

(** The zero-sum property, as the specification words it. *)
Definition zeroSum (expenses : list Expense.t) : Prop :=
  Qabs (totalBalance (Settlement.netAmounts expenses)) <= epsilon.

(** An expense of 100 whose custom splits sum to 100 - 1/128. *)
Definition drifting : Expense.t :=
  Expense.mk "fuel" 100 "LKR" "A" [] (Some "g") "transport" 0
    [Split.mk "A" 50 (Some 50) false;
     Split.mk "B" (6399 # 128) (Some (6399 # 128)) false]
    "custom" "" "" 0 0.

(** A request for an expense of 100 to which A contributed 60 and B 40,
    with custom splits of 50 each. *)
Definition multiPayerRequest : expenseController.body :=
  expenseController.mkBody "hotel" 100 (Some "g") None None (Some "custom")
    [CustomSplit.mk "A" 0 50; CustomSplit.mk "B" 0 50]
    None [Payer.mk "A" 60; Payer.mk "B" 40] [].

(** The balances the specification asks for: every listed payer is
    credited with their own [amountPaid]. *)
Definition creditEachPayer (userBalances : JS.object) (e : Expense.t)
  : JS.object :=
  fold_left (fun o payer =>
               JS.set o (Payer.user payer)
                 (JS.orZero (JS.get o (Payer.user payer)) + Payer.amount payer))
    (Expense.paidByMultiple e) userBalances.

(** The fields of a settlement that name its parties, amount and group. *)
Definition sameParties (s s' : Settlement.t) : Prop :=
  Settlement.fromUser s' = Settlement.fromUser s /\
  Settlement.toUser s' = Settlement.toUser s /\
  Settlement.amount s' = Settlement.amount s /\
  Settlement.group s' = Settlement.group s.

(** The status stored under [id] after a request. *)
Definition storedStatus (r : response Settlement.t * DB) (id : string)
  : option string :=
  option_map Settlement.status (findById (settlements (snd r)) id).

(** Terminal-state rejection at one request, as the specification words
    it: the request is refused and the stored status stays what it was. *)
Definition rejectsTransition (parallelSaveError : bool) (db : DB) (now : Z)
  (reqUser id : string) (b : settlementController.body) : Prop :=
  let r := settlementController.updateSettlementStatus parallelSaveError
             db now reqUser id b in
  code (fst r) <> 200%nat /\
  storedStatus r id
  = option_map Settlement.status (findById (settlements db) id).

(** A settlement of 100 from B to A that was completed at time 3. *)
Definition completedOne : Settlement.t :=
  Settlement.mk "B" "A" "g" 100 "LKR" "completed" "cash" None (Some 3%Z) 1 3.

(** The same settlement while still pending. *)
Definition pendingOne : Settlement.t :=
  Settlement.mk "B" "A" "g" 100 "LKR" "pending" "other" None None 1 1.

Definition trip : Group.t :=
  Group.mk "trip"
    [Group.mkMember "A" "admin"; Group.mkMember "B" "member";
     Group.mkMember "C" "member"] "LKR".

Definition dbCompleted : DB := mkDB [] [("g", trip)] [("s1", completedOne)].

Definition dbPending : DB := mkDB [] [("g", trip)] [("s1", pendingOne)].

Definition cancelRequest : settlementController.body :=
  settlementController.mkBody (Some "cancelled") None None.

Definition completeRequest : settlementController.body :=
  settlementController.mkBody (Some "completed") (Some "cash") None.

Definition methodRequest : settlementController.body :=
  settlementController.mkBody None (Some "cash") (Some " paid in cash ").


(** The response of the percentage check. *)
Definition percentageError : response Expense.t :=
  mkResponse 400 "Percentages must add up to 100%." None.

(** A database with the group and no expense yet. *)
Definition dbTrip : DB := mkDB [] [("g", trip)] [].

(** A percentage request on the group; [percentage] is what is read. *)
Definition percentageRequest (amount : Q) (percentages : list (string * Q))
  : expenseController.body :=
  expenseController.mkBody "rent" amount (Some "g") None None
    (Some "percentage")
    (map (fun up => CustomSplit.mk (fst up) (snd up) 0) percentages)
    None [] [].

(** Percentages 50 and 50 + 1/128 on an amount of 12800. *)
Definition largeRequest : expenseController.body :=
  percentageRequest 12800 [("A", 50); ("B", 6401 # 128)].

(** Percentages summing to 99.5, to 100.5 and to 100 (scenario 2). *)
Definition shortRequest : expenseController.body :=
  percentageRequest 100 [("A", 50); ("B", 99 # 2)].

Definition longRequest : expenseController.body :=
  percentageRequest 100 [("A", 50); ("B", 101 # 2)].

Definition exactRequest : expenseController.body :=
  percentageRequest 100 [("A", 50); ("B", 30); ("C", 20)].






(** A database in which the expense of scenario 1 is stored as e1. *)
Definition dbLedger : DB := mkDB [("e1", scenario1)] [("g", trip)] [].

(** ** What the further statements are written with *)

(** The participants of a balance object with a positive balance, and
    those with a negative one. *)
Definition creditors (userBalances : JS.object) : list (string * Q) :=
  filter (fun kv => JS.gt (snd kv) 0) userBalances.

Definition debtors (userBalances : JS.object) : list (string * Q) :=
  filter (fun kv => JS.lt (snd kv) 0) userBalances.

(** What [u] paid as [paidBy] over a list of expenses. *)
Definition paidTotal (u : string) (es : list Expense.t) : Q :=
  JS.reduce_sum Expense.amount
    (filter (fun e => String.eqb (Expense.paidBy e) u) es).

(** What the splits of [u] add up to over a list of expenses. *)
Definition owedBy (u : string) (es : list Expense.t) : Q :=
  JS.reduce_sum
    (fun e => JS.reduce_sum Split.amount
                (filter (fun s => String.eqb (Split.user s) u)
                   (Expense.splits e))) es.

(** [u] is named by an expense, as payer or in a split. *)
Definition namedIn (u : string) (e : Expense.t) : Prop :=
  Expense.paidBy e = u \/ In u (map Split.user (Expense.splits e)).

(** The two sign tests, by key. *)
Definition positiveKey (o : JS.object) (k : string) : bool :=
  match JS.get o k with Some b => JS.gt b 0 | None => false end.

Definition negativeKey (o : JS.object) (k : string) : bool :=
  match JS.get o k with Some b => JS.lt b 0 | None => false end.

(** Every user an expense of the group names, as its payer or in a
    split, exists. *)
Definition usersExist (userExists : string -> bool) (db : DB)
  (groupId : string) : Prop :=
  forall e, In e (settlementHandlers.expensesOf db groupId) ->
    userExists (Expense.paidBy e) = true /\
    forall split, In split (Expense.splits e) ->
      userExists (Split.user split) = true.

(** The users A, B and C exist. *)
Definition knownUsers (userId : string) : bool :=
  JS.includes ["A"; "B"; "C"] userId.

(** A request for a manual settlement of 40 from the requester to A. *)
Definition owe40 : settlementHandlers.body :=
  settlementHandlers.mkBody "A" "g" 40 (Some "cash") (Some " lunch ").

(** Every stored settlement satisfies the schema. *)
Definition settlementsValid (db : DB) : Prop :=
  forall id s, In (id, s) (settlements db) -> Settlement.validate s = true.

(** Two databases that differ at most in the settlement stored under
    [id]. *)
Definition sameElsewhere (id : string) (db db' : DB) : Prop :=
  (forall id', id <> id' ->
     findById (settlements db') id' = findById (settlements db) id') /\
  expenses db' = expenses db /\ groups db' = groups db.

(** The sum of the percentages a list of splits carries. *)
Definition percentageTotalOf (ss : list Split.t) : Q :=
  JS.reduce_sum (fun s => JS.orZero (Split.percentage s)) ss.

(** The request element a share or a portion corresponds to. *)
Definition ofShare (s : Share.t) : CustomSplit.t :=
  CustomSplit.mk (Share.user s) (Share.percentage s) 0.

Definition ofPortion (p : Portion.t) : CustomSplit.t :=
  CustomSplit.mk (Portion.user p) 0 (Portion.amount p).

(** An equal-split request on the group, without payers. *)
Definition equalRequest : expenseController.body :=
  expenseController.mkBody "taxi" 300 (Some "g") None None None [] None [] [].

(** Two databases that differ at most in the expense stored under [id]. *)
Definition sameOtherExpenses (id : string) (db db' : DB) : Prop :=
  (forall id', id <> id' ->
     findById (expenses db') id' = findById (expenses db) id') /\
  groups db' = groups db /\ settlements db' = settlements db.

(** An edit of the stored expense of scenario 1 into an equal split of
    120, by its payer. *)
Definition editRequest : expenseHandlers.body :=
  expenseHandlers.mkBody "dinner" 120 (Some "food") 4 None (Some "equal")
    [] [] [].

(** The rows of page [p] of [getGroupExpenses], for a page number and
    a limit written as decimal numerals. *)
Definition pageData (db : DB) (reqUser groupId : string)
  (category : option string) (startDate endDate : option Z)
  (limit p : nat) : list Expense.t :=
  match payload (expenseHandlers.getGroupExpenses db reqUser groupId category
                   startDate endDate (expenseHandlers.decimal p)
                   (expenseHandlers.decimal limit)) with
  | Some pg => expenseHandlers.data pg
  | None => []
  end.

(** The expenses the query of [getGroupExpenses] selects. *)
Definition selectedExpenses (db : DB) (groupId : string)
  (category : option string) (startDate endDate : option Z)
  : list Expense.t :=
  filter (expenseHandlers.inQuery groupId category startDate endDate)
    (map snd (expenses db)).

(** The same, latest first. *)
Definition pagedExpenses (db : DB) (groupId : string)
  (category : option string) (startDate endDate : option Z)
  : list Expense.t :=
  sortBy expenseHandlers.laterFirst
    (selectedExpenses db groupId category startDate endDate).

(** A request for an expense outside any group, shared with B. *)
Definition privateRequest : expenseController.body :=
  expenseController.mkBody "gift" 80 None None None None [] None [] ["B"].

(** A group whose only admin is A. *)
Definition dbTeam : DB :=
  mkDB [] [("g", Group.mk "team"
                   [Group.mkMember "A" "admin"; Group.mkMember "B" "member"]
                   "LKR")] [].


(** * Proofs *)

(** ** Sums *)

Lemma fold_sum_shift {A : Type} (f : A -> Q) (xs : list A) (a : Q) :
  fold_left (fun sum x => sum + f x) xs a
  == a + fold_left (fun sum x => sum + f x) xs 0.
Proof.
  revert a. induction xs as [|x xs IH]; intro a; simpl.
  - ring.
  - rewrite (IH (a + f x)), (IH (0 + f x)). ring.
Qed.

Lemma reduce_sum_nil {A : Type} (f : A -> Q) : JS.reduce_sum f [] == 0.
Proof. reflexivity. Qed.

Lemma reduce_sum_cons {A : Type} (f : A -> Q) (x : A) (xs : list A) :
  JS.reduce_sum f (x :: xs) == f x + JS.reduce_sum f xs.
Proof.
  unfold JS.reduce_sum. simpl. rewrite fold_sum_shift. ring.
Qed.


Lemma reduce_sum_ext {A : Type} (f g : A -> Q) (xs : list A) :
  (forall x, In x xs -> f x == g x) ->
  JS.reduce_sum f xs == JS.reduce_sum g xs.
Proof.
  induction xs as [|x xs IH]; intro H.
  - reflexivity.
  - rewrite !reduce_sum_cons, IH, (H x).
    + reflexivity.
    + now left.
    + intros y Hy. apply H. now right.
Qed.

Lemma reduce_sum_zero {A : Type} (f : A -> Q) (xs : list A) :
  (forall x, In x xs -> f x == 0) -> JS.reduce_sum f xs == 0.
Proof.
  induction xs as [|x xs IH]; intro H.
  - reflexivity.
  - rewrite reduce_sum_cons, IH, (H x).
    + ring.
    + now left.
    + intros y Hy. apply H. now right.
Qed.

Lemma reduce_sum_map {A B : Type} (f : B -> Q) (g : A -> B) (xs : list A) :
  JS.reduce_sum f (map g xs) == JS.reduce_sum (fun x => f (g x)) xs.
Proof.
  induction xs as [|x xs IH]; simpl.
  - reflexivity.
  - rewrite !reduce_sum_cons, IH. reflexivity.
Qed.

(** ** Comparisons *)

Lemma gt_true (x y : Q) : JS.gt x y = true <-> y < x.
Proof.
  unfold JS.gt. rewrite negb_true_iff. split; intro H.
  - apply Qnot_le_lt. intro Hle. apply Qle_bool_iff in Hle. congruence.
  - destruct (Qle_bool x y) eqn:E; [|reflexivity].
    apply Qle_bool_iff in E. exfalso. apply (Qlt_not_le _ _ H E).
Qed.

Lemma gt_false (x y : Q) : JS.gt x y = false <-> x <= y.
Proof.
  unfold JS.gt. rewrite negb_false_iff. apply Qle_bool_iff.
Qed.

Lemma lt_true (x y : Q) : JS.lt x y = true <-> x < y.
Proof. apply gt_true. Qed.

Lemma lt_false (x y : Q) : JS.lt x y = false <-> y <= x.
Proof. apply gt_false. Qed.

(** ** The pairing loops *)











Lemma In_keys_set (o : JS.object) (k x : string) (v : Q) :
  In x (JS.keys (JS.set o k v)) -> In x (JS.keys o) \/ x = k.
Proof.
  induction o as [|[k' v'] o IH]; simpl.
  - intros [<-|[]]. now right.
  - destruct (String.eqb k' k); simpl.
    + intros [H|H]; left; [now left | now right].
    + intros [H|H]; [left; now left|].
      destruct (IH H) as [H'|H']; [left; now right | now right].
Qed.

Lemma NoDup_keys_set (o : JS.object) (k : string) (v : Q) :
  NoDup (JS.keys o) -> NoDup (JS.keys (JS.set o k v)).
Proof.
  induction o as [|[k' v'] o IH]; simpl; intro H.
  - constructor; [intros [] | constructor].
  - inversion H as [|? ? Hk Ho]; subst.
    destruct (String.eqb k' k) eqn:E; simpl.
    + now constructor.
    + apply String.eqb_neq in E. constructor; [|now apply IH].
      intro Hin. apply In_keys_set in Hin as [Hin|Hin]; [contradiction|].
      congruence.
Qed.

(** The balance objects the code builds have distinct keys. *)
Lemma NoDup_keys_netAmounts (expenses : list Expense.t) :
  NoDup (JS.keys (Settlement.netAmounts expenses)).
Proof.
  unfold Settlement.netAmounts.
  assert (H : forall es o, NoDup (JS.keys o) ->
                NoDup (JS.keys (fold_left Settlement.addExpense es o))).
  { induction es as [|e es IH]; intros o Ho; simpl; [exact Ho|].
    apply IH. unfold Settlement.addExpense.
    assert (Hs : forall ss o', NoDup (JS.keys o') ->
                   NoDup (JS.keys (fold_left Settlement.subOwed ss o'))).
    { induction ss as [|x ss IHs]; intros o' Ho'; simpl; [exact Ho'|].
      apply IHs. unfold Settlement.subOwed. now apply NoDup_keys_set. }
    apply Hs. unfold Settlement.addPaid. now apply NoDup_keys_set. }
  apply H. constructor.
Qed.


Ltac distinct_keys := repeat constructor; simpl; intuition congruence.



Lemma get_In (o : JS.object) (k : string) (v : Q) :
  JS.get o k = Some v -> In (k, v) o.
Proof.
  induction o as [|[k' v'] o IH]; simpl; intro H.
  - discriminate.
  - destruct (String.eqb k' k) eqn:E.
    + apply String.eqb_eq in E. left. congruence.
    + right. now apply IH.
Qed.

Lemma In_pair (o : JS.object) (g u v : string) (s : Settlement.plain) :
  In s (Settlement.pair o g u v) ->
  exists b c,
    JS.get o (Settlement.p_fromUser s) = Some b /\
    JS.get o (Settlement.p_toUser s) = Some c /\
    0 < b /\ c < 0 /\
    Settlement.p_amount s == Qmin (Qabs b) (Qabs c).
Proof.
  unfold Settlement.pair.
  destruct (JS.get o u) as [b|] eqn:Eu; [|intros []].
  destruct (JS.get o v) as [c|] eqn:Ev; [|intros []].
  destruct (JS.gt b 0 && JS.lt c 0) eqn:E1.
  - apply andb_true_iff in E1 as [Gb Lc].
    apply gt_true in Gb. apply lt_true in Lc.
    intros [<-|[]]. exists b, c. simpl.
    rewrite (Qabs_pos b) by lra. repeat split; auto; try reflexivity.
  - destruct (JS.lt b 0 && JS.gt c 0) eqn:E2; [|intros []].
    apply andb_true_iff in E2 as [Lb Gc].
    apply lt_true in Lb. apply gt_true in Gc.
    intros [<-|[]]. exists c, b. simpl.
    rewrite (Qabs_pos c) by lra. repeat split; auto; try apply Q.min_comm.
Qed.

(** The direction of every emitted settlement: [fromUser] is a
    participant with a positive balance (one who paid more than their
    share) and [toUser] one with a negative balance. *)
Lemma generate_direction (o : JS.object) (g : string) (s : Settlement.plain) :
  In s (Settlement.generate o g) ->
  exists b c,
    JS.get o (Settlement.p_fromUser s) = Some b /\
    JS.get o (Settlement.p_toUser s) = Some c /\
    0 < b /\ c < 0 /\
    Settlement.p_amount s == Qmin (Qabs b) (Qabs c).
Proof.
  unfold Settlement.generate. generalize (JS.keys o) as users.
  induction users as [|u users IH]; simpl; [intros []|].
  intro H. apply in_app_or in H as [H|H]; [|now apply IH].
  clear IH. induction users as [|v users IH]; simpl in H; [destruct H|].
  apply in_app_or in H as [H|H]; [|now apply IH].
  now apply In_pair in H.
Qed.

(** C2. On scenario 1 (A paid 300, split equally among A, B and C) the
    balances are A = +200, B = -100, C = -100 and the emitted settlements
    are A to B 100 and A to C 100: [fromUser] is the creditor A. *)
Theorem scenario1_settlements :
  Settlement.netAmounts [scenario1] = [("A", 200); ("B", -(100)); ("C", -(100))] /\
  Settlement.calculateGroupSettlements [("e1", scenario1)] "g"
  = [Settlement.mkPlain "A" "B" "g" 100 "LKR";
     Settlement.mkPlain "A" "C" "g" 100 "LKR"].
Proof. split; reflexivity. Qed.

(** C8 (as stated) fails. Balances of +1/256 and -1/256 are both zero
    within the tolerance, and one settlement of 1/256 is emitted. *)
Lemma near_zero_counterexample :
  allWithinEpsilon nearlySettled /\
  Settlement.generate nearlySettled "g"
  = [Settlement.mkPlain "A" "B" "g" (1 # 256) "LKR"].
Proof.
  split; [|reflexivity].
  intros k v [H|[H|[]]]; inversion H; subst; unfold epsilon;
    apply Qle_bool_iff; vm_compute; reflexivity.
Qed.

(** C8 (amended). When every balance is exactly zero, no settlement is
    emitted; the pairing compares each balance with 0 strictly and uses
    no tolerance. *)
Theorem all_zero_no_settlements (userBalances : JS.object) (groupId : string) :
  (forall k v, In (k, v) userBalances -> v == 0) ->
  Settlement.generate userBalances groupId = [].
Proof.
  intro Hz. destruct (Settlement.generate userBalances groupId) as [|s ss] eqn:E.
  - reflexivity.
  - exfalso.
    destruct (generate_direction userBalances groupId s) as (b & c & Hb & _ & Hpos & _).
    + rewrite E. now left.
    + apply get_In in Hb. apply Hz in Hb. lra.
Qed.

Lemma all_zero_no_settlements_witness :
  Settlement.generate [("A", 0); ("B", 0 # 5); ("C", 0)] "g" = [].
Proof.
  apply (all_zero_no_settlements [("A", 0); ("B", 0 # 5); ("C", 0)] "g").
  intros k v [H|[H|[H|[]]]]; inversion H; subst; reflexivity.
Defined.

(** ** The net amounts *)

Lemma totalBalance_set (o : JS.object) (k : string) (v : Q) :
  totalBalance (JS.set o k v) == totalBalance o - JS.orZero (JS.get o k) + v.
Proof.
  unfold totalBalance. induction o as [|[k' v'] o IH]; simpl.
  - rewrite reduce_sum_cons, reduce_sum_nil. simpl. ring.
  - destruct (String.eqb k' k).
    + rewrite !reduce_sum_cons. simpl. ring.
    + rewrite !reduce_sum_cons, IH. simpl. ring.
Qed.

Lemma totalBalance_addPaid (o : JS.object) (e : Expense.t) :
  totalBalance (Settlement.addPaid o e) == totalBalance o + Expense.amount e.
Proof.
  unfold Settlement.addPaid. rewrite totalBalance_set. ring.
Qed.

Lemma totalBalance_subOwed (o : JS.object) (s : Split.t) :
  totalBalance (Settlement.subOwed o s) == totalBalance o - Split.amount s.
Proof.
  unfold Settlement.subOwed. rewrite totalBalance_set. ring.
Qed.

Lemma totalBalance_splits (ss : list Split.t) (o : JS.object) :
  totalBalance (fold_left Settlement.subOwed ss o)
  == totalBalance o - owedTotal ss.
Proof.
  unfold owedTotal. revert o. induction ss as [|s ss IH]; intro o; simpl.
  - rewrite reduce_sum_nil. ring.
  - rewrite IH, totalBalance_subOwed, reduce_sum_cons. ring.
Qed.

Lemma totalBalance_addExpense (o : JS.object) (e : Expense.t) :
  totalBalance (Settlement.addExpense o e) == totalBalance o + imbalance e.
Proof.
  unfold Settlement.addExpense, imbalance.
  rewrite totalBalance_splits, totalBalance_addPaid. ring.
Qed.

Lemma totalBalance_expenses (es : list Expense.t) (o : JS.object) :
  totalBalance (fold_left Settlement.addExpense es o)
  == totalBalance o + JS.reduce_sum imbalance es.
Proof.
  revert o. induction es as [|e es IH]; intro o; simpl.
  - rewrite reduce_sum_nil. ring.
  - rewrite IH, totalBalance_addExpense, reduce_sum_cons. ring.
Qed.

Lemma imbalance_bound (es : list Expense.t) :
  (forall e, In e es -> validExpense e) ->
  Qabs (JS.reduce_sum imbalance es)
    <= epsilon * inject_Z (Z.of_nat (List.length es)).
Proof.
  induction es as [|e es IH]; intro Hv.
  - rewrite reduce_sum_nil. simpl. apply Qle_bool_iff. reflexivity.
  - assert (He : validExpense e) by (apply Hv; now left).
    assert (Hes : forall e', In e' es -> validExpense e')
      by (intros e' H'; apply Hv; now right).
    specialize (IH Hes). unfold validExpense in He.
    apply Qabs_Qle_condition in He. apply Qabs_Qle_condition in IH.
    rewrite reduce_sum_cons. simpl List.length.
    rewrite Nat2Z.inj_succ. unfold Z.succ. rewrite inject_Z_plus.
    apply Qabs_Qle_condition. unfold imbalance in *.
    change (inject_Z 1) with 1. split; lra.
Qed.

(** C6 (as stated) fails. Each of two expenses is valid (its splits sum
    to its amount minus 1/128), and the balances sum to 1/64, which is
    more than the tolerance. *)
Lemma zero_sum_counterexample :
  validExpense drifting /\
  totalBalance (Settlement.netAmounts [drifting; drifting]) == 1 # 64 /\
  ~ zeroSum [drifting; drifting].
Proof.
  split; [|split].
  - apply Qle_bool_iff. reflexivity.
  - reflexivity.
  - intro H. apply Qle_bool_iff in H. vm_compute in H. discriminate.
Qed.

(** C6 (amended). The balances sum to the sum over the expenses of
    (amount minus owed total); so for a list of valid expenses the sum of
    the balances is zero within 0.01 times the number of expenses, and
    it is exactly zero when every expense's splits sum exactly to its
    amount. *)
Theorem balances_sum (expenses : list Expense.t) :
  (forall e, In e expenses -> validExpense e) ->
  totalBalance (Settlement.netAmounts expenses)
    == JS.reduce_sum imbalance expenses /\
  Qabs (totalBalance (Settlement.netAmounts expenses))
    <= epsilon * inject_Z (Z.of_nat (List.length expenses)) /\
  ((forall e, In e expenses -> imbalance e == 0) ->
   totalBalance (Settlement.netAmounts expenses) == 0).
Proof.
  intro Hv.
  assert (E : totalBalance (Settlement.netAmounts expenses)
              == JS.reduce_sum imbalance expenses).
  { unfold Settlement.netAmounts. rewrite totalBalance_expenses.
    unfold totalBalance at 1. rewrite reduce_sum_nil. ring. }
  split; [exact E|]. split.
  - rewrite E. now apply imbalance_bound.
  - intro Hz. rewrite E. now apply reduce_sum_zero.
Qed.

Lemma balances_sum_witness :
  Qabs (totalBalance (Settlement.netAmounts [drifting; drifting]))
    <= epsilon * inject_Z (Z.of_nat 2).
Proof.
  apply (balances_sum [drifting; drifting]).
  intros e [<-|[<-|[]]]; apply Qle_bool_iff; reflexivity.
Defined.

(** The net amounts never read [paidByMultiple]. *)
Lemma addExpense_ignores_payers (o : JS.object) (e : Expense.t)
  (pbm : list Payer.t) :
  Settlement.addExpense o
    (Expense.mk (Expense.description e) (Expense.amount e)
       (Expense.currency e) (Expense.paidBy e) pbm (Expense.group e)
       (Expense.category e) (Expense.date e) (Expense.splits e)
       (Expense.splitType e) (Expense.notes e) (Expense.receipt e)
       (Expense.createdAt e) (Expense.updatedAt e))
  = Settlement.addExpense o e.
Proof. reflexivity. Qed.

(** C4. The request for an expense of 100 to which A contributed 60 and
    B 40, split 50/50, is stored with both payers. The computed balances
    are A = +50 and B = -50: the whole amount is credited to [paidBy] and
    B's 40 to nobody. Crediting each payer with their own amount gives
    A = +10 and B = -10. *)
Theorem multi_payer_balances :
  exists e,
    expenseController.createExpense dbTrip 0 "e2" "A" multiPayerRequest
    = (mkResponse 201 "Expense created successfully" (Some e),
       withExpenses [("e2", e)] dbTrip) /\
    Expense.paidBy e = "A" /\
    Expense.paidByMultiple e = [Payer.mk "A" 60; Payer.mk "B" 40] /\
    Settlement.netAmounts [e] = [("A", 50); ("B", -(50))] /\
    fold_left Settlement.subOwed (Expense.splits e) (creditEachPayer [] e)
    = [("A", 10); ("B", -(10))].
Proof.
  eexists. split; [vm_compute; reflexivity|]. repeat split; reflexivity.
Qed.

(** ** Collections *)

Lemma findById_write_same {A : Type} (c : list (string * A)) (id : string) (d : A) :
  findById (write c id d) id = Some d.
Proof.
  induction c as [|[id' d'] c IH]; simpl.
  - now rewrite String.eqb_refl.
  - destruct (String.eqb id' id) eqn:E; simpl; now rewrite E.
Qed.

(** ** Status updates *)

Create HintDb parties.

Lemma sameParties_refl (s : Settlement.t) : sameParties s s.
Proof. repeat split. Qed.

Lemma sameParties_setStatus (s x : Settlement.t) (v : string) :
  sameParties s x -> sameParties s (Settlement.setStatus v x).
Proof. intro H. exact H. Qed.

Lemma sameParties_setMethod (s x : Settlement.t) (v : string) :
  sameParties s x -> sameParties s (Settlement.setMethod v x).
Proof. intro H. exact H. Qed.

Lemma sameParties_setNotes (s x : Settlement.t) (v : option string) :
  sameParties s x -> sameParties s (Settlement.setNotes v x).
Proof. intro H. exact H. Qed.

Lemma sameParties_setCompletedAt (s x : Settlement.t) (v : option Z) :
  sameParties s x -> sameParties s (Settlement.setCompletedAt v x).
Proof. intro H. exact H. Qed.

Lemma sameParties_preSave (s x : Settlement.t) (now : Z) :
  sameParties s x -> sameParties s (Settlement.preSave now x).
Proof. intro H. exact H. Qed.

Lemma sameParties_saveDropped (s x : Settlement.t) (now : Z) (id : string)
  (db : DB) :
  sameParties s x -> sameParties s (fst (SettlementDoc.saveDropped now id x db)).
Proof.
  intro H. unfold SettlementDoc.saveDropped, SettlementDoc.save.
  destruct (Settlement.validate x); simpl; auto using sameParties_preSave.
Qed.

#[local] Hint Resolve sameParties_refl sameParties_setStatus
  sameParties_setMethod sameParties_setNotes sameParties_setCompletedAt
  sameParties_preSave sameParties_saveDropped : parties.

Lemma sameParties_assignFields (s : Settlement.t)
  (b : settlementController.body) :
  sameParties s (settlementController.assignFields b s).
Proof.
  unfold settlementController.assignFields.
  destruct (settlementController.status b), (settlementController.method b),
           (settlementController.notes b);
    repeat match goal with
           | |- context [if ?c then _ else _] => destruct c
           end;
    auto 10 with parties.
Qed.

Lemma sameParties_statusMethods (s x : Settlement.t) (now : Z) (id : string)
  (status : option string) (db : DB) :
  sameParties s x ->
  sameParties s (fst (snd (settlementController.statusMethods now id status x db))).
Proof.
  intro H. unfold settlementController.statusMethods,
    SettlementDoc.markCompleted, SettlementDoc.cancel.
  destruct (JS.strictEq status "completed");
    [|destruct (JS.strictEq status "cancelled")];
    cbn [fst snd]; auto 10 with parties.
Qed.

Lemma save_stores (now : Z) (id : string) (s s' : Settlement.t) (db db' : DB) :
  SettlementDoc.save now id s db = Some (s', db') ->
  s' = Settlement.preSave now s /\
  findById (settlements db') id = Some s'.
Proof.
  unfold SettlementDoc.save. destruct (Settlement.validate s); [|discriminate].
  intro H. inversion H; subst. split; [reflexivity|].
  simpl. apply findById_write_same.
Qed.

(** C9. A successful [updateSettlementStatus] leaves [fromUser],
    [toUser], [amount] and [group] of the settlement as they were, in the
    collection and in the document it sends back. *)
Theorem update_keeps_parties (parallelSaveError : bool) (db : DB) (now : Z)
  (reqUser id : string) (b : settlementController.body) (s : Settlement.t) :
  findById (settlements db) id = Some s ->
  code (fst (settlementController.updateSettlementStatus parallelSaveError
               db now reqUser id b)) = 200%nat ->
  exists s',
    findById
      (settlements
         (snd (settlementController.updateSettlementStatus parallelSaveError
                 db now reqUser id b)))
      id = Some s' /\
    payload (fst (settlementController.updateSettlementStatus parallelSaveError
                    db now reqUser id b))
    = Some s' /\
    sameParties s s'.
Proof.
  intro Hfind. unfold settlementController.updateSettlementStatus.
  rewrite Hfind.
  destruct (negb (String.eqb (Settlement.fromUser s) reqUser)
            && negb (String.eqb (Settlement.toUser s) reqUser));
    [simpl; discriminate|].
  cbv zeta.
  pose proof (sameParties_statusMethods s
                (settlementController.assignFields b s) now id
                (settlementController.status b) db
                (sameParties_assignFields s b)) as Hr.
  set (r := settlementController.statusMethods now id
              (settlementController.status b)
              (settlementController.assignFields b s) db) in *.
  unfold settlementController.awaitSave.
  destruct (fst r && parallelSaveError); [simpl; discriminate|].
  destruct (SettlementDoc.save now id (fst (snd r)) (snd (snd r)))
    as [[s5 db2]|] eqn:Es; [|simpl; discriminate].
  intros _. simpl. apply save_stores in Es as [-> Hstored].
  exists (Settlement.preSave now (fst (snd r))). repeat split; auto; apply Hr.
Qed.

Lemma update_keeps_parties_witness :
  exists s',
    findById
      (settlements
         (snd (settlementController.updateSettlementStatus true
                 dbPending 7 "A" "s1" methodRequest)))
      "s1" = Some s' /\
    payload (fst (settlementController.updateSettlementStatus true
                    dbPending 7 "A" "s1" methodRequest))
    = Some s' /\
    sameParties pendingOne s'.
Proof.
  apply (update_keeps_parties true dbPending 7 "A" "s1" methodRequest
           pendingOne);
    reflexivity.
Defined.

(** A request that changes the method and the notes is answered 200,
    also when an overlapping save would be refused; the notes are stored
    trimmed. *)
Lemma update_method_example :
  option_map
    (fun s => (Settlement.status s, Settlement.method s, Settlement.notes s))
    (payload (fst (settlementController.updateSettlementStatus true dbPending 7
                     "A" "s1" methodRequest)))
  = Some ("pending", "cash", Some "paid in cash").
Proof. reflexivity. Qed.

(** C3 (as stated) fails. B cancels the completed settlement s1: the
    stored status becomes cancelled, whether or not Mongoose refuses the
    controller's second save; when it does not, the answer is 200. *)
Lemma terminal_state_counterexample :
  option_map Settlement.status (findById (settlements dbCompleted) "s1")
  = Some "completed" /\
  storedStatus
    (settlementController.updateSettlementStatus false dbCompleted 7 "B" "s1"
       cancelRequest) "s1" = Some "cancelled" /\
  storedStatus
    (settlementController.updateSettlementStatus true dbCompleted 7 "B" "s1"
       cancelRequest) "s1" = Some "cancelled" /\
  code (fst (settlementController.updateSettlementStatus false dbCompleted 7
               "B" "s1" cancelRequest)) = 200%nat /\
  ~ rejectsTransition false dbCompleted 7 "B" "s1" cancelRequest /\
  ~ rejectsTransition true dbCompleted 7 "B" "s1" cancelRequest.
Proof.
  repeat split; try reflexivity.
  - intros [H _]. apply H. reflexivity.
  - intros [_ H]. discriminate H.
Qed.

(** A pending settlement takes a completion and then a cancellation,
    whether or not the overlapping save is refused. *)
Lemma pending_accepts_both (parallelSaveError : bool) :
  let r1 := settlementController.updateSettlementStatus parallelSaveError
              dbPending 7 "A" "s1" completeRequest in
  let r2 := settlementController.updateSettlementStatus parallelSaveError
              (snd r1) 8 "A" "s1" cancelRequest in
  storedStatus r1 "s1" = Some "completed" /\
  storedStatus r2 "s1" = Some "cancelled".
Proof. destruct parallelSaveError; split; reflexivity. Qed.

Lemma validate_fields (s : Settlement.t) :
  Settlement.validate s = true <->
  Qle_bool 0 (Settlement.amount s) = true /\
  JS.includes Settlement.statuses (Settlement.status s) = true /\
  JS.includes Settlement.methods (Settlement.method s) = true.
Proof.
  unfold Settlement.validate. rewrite !andb_true_iff. tauto.
Qed.

Lemma includes_In (xs : list string) (s : string) :
  In s xs -> JS.includes xs s = true.
Proof.
  intro H. unfold JS.includes. apply existsb_exists. exists s.
  split; [exact H | apply String.eqb_refl].
Qed.

Lemma truthy_status (v : string) :
  In v Settlement.statuses -> JS.truthy (Some v) = true.
Proof.
  simpl. intros [<-|[<-|[<-|[]]]]; reflexivity.
Qed.

Lemma truthy_method (v : string) :
  In v Settlement.methods -> JS.truthy (Some v) = true.
Proof.
  simpl. intros [<-|[<-|[<-|[<-|[]]]]]; reflexivity.
Qed.

(** A valid document is saved, and what is stored has its fields. *)
Lemma save_valid (now : Z) (id : string) (s : Settlement.t) (db : DB) :
  Settlement.validate s = true ->
  SettlementDoc.save now id s db
  = Some (Settlement.preSave now s,
          withSettlements (write (settlements db) id (Settlement.preSave now s)) db).
Proof.
  intro H. unfold SettlementDoc.save. now rewrite H.
Qed.

(** What [assignFields] leaves in a valid document when the request
    carries a valid status and no or a valid method. *)
Lemma assignFields_valid (s : Settlement.t) (v : string) (m n : option string) :
  Settlement.validate s = true ->
  In v Settlement.statuses ->
  (forall x, m = Some x -> In x Settlement.methods) ->
  let s3 := settlementController.assignFields
              (settlementController.mkBody (Some v) m n) s in
  Settlement.status s3 = v /\ Settlement.validate s3 = true.
Proof.
  intros Hvalid Hv Hm. apply validate_fields in Hvalid as (Ha & _ & Hmeth).
  unfold settlementController.assignFields.
  cbn [settlementController.status settlementController.method
       settlementController.notes].
  rewrite (truthy_status v Hv).
  destruct n, m as [x|];
    try (rewrite (truthy_method x (Hm x eq_refl)));
    (split; [reflexivity|]); apply validate_fields;
    (split; [exact Ha|]); (split; [exact (includes_In _ _ Hv)|]);
    first [ exact Hmeth | exact (includes_In _ _ (Hm x eq_refl)) ].
Qed.

(** Whether the request makes the controller call [markCompleted] or
    [cancel]. *)
Lemma statusMethods_inFlight (now : Z) (id : string) (v : string)
  (s : Settlement.t) (db : DB) :
  fst (settlementController.statusMethods now id (Some v) s db)
  = String.eqb v "completed" || String.eqb v "cancelled".
Proof.
  unfold settlementController.statusMethods, JS.strictEq.
  destruct (String.eqb v "completed"); [reflexivity|].
  destruct (String.eqb v "cancelled"); reflexivity.
Qed.

(** After the status methods the document is valid and has the status;
    when one of them ran, that document is stored. *)
Lemma statusMethods_valid (now : Z) (id : string) (v : string)
  (s : Settlement.t) (db : DB) :
  Settlement.validate s = true ->
  Settlement.status s = v ->
  let r := settlementController.statusMethods now id (Some v) s db in
  Settlement.validate (fst (snd r)) = true /\
  Settlement.status (fst (snd r)) = v /\
  (fst r = true -> findById (settlements (snd (snd r))) id = Some (fst (snd r))).
Proof.
  intros Hvalid Hs. apply validate_fields in Hvalid as (Ha & Hst & Hmeth).
  unfold settlementController.statusMethods, JS.strictEq,
    SettlementDoc.markCompleted, SettlementDoc.cancel,
    SettlementDoc.saveDropped.
  destruct (String.eqb v "completed") eqn:Ec.
  - apply String.eqb_eq in Ec. rewrite save_valid.
    + cbn [fst snd settlements withSettlements].
      rewrite findById_write_same. repeat split; auto.
      apply validate_fields. repeat split; auto.
    + apply validate_fields. repeat split; auto.
  - destruct (String.eqb v "cancelled") eqn:Ex.
    + apply String.eqb_eq in Ex. rewrite save_valid.
      * cbn [fst snd settlements withSettlements].
        rewrite findById_write_same. repeat split; auto.
        apply validate_fields. repeat split; auto.
      * apply validate_fields. repeat split; auto.
    + cbn [fst snd]. repeat split; auto.
      * apply validate_fields. repeat split; auto.
      * discriminate.
Qed.

(** C3 (amended). [updateSettlementStatus] does not look at the current
    status. For a stored settlement in any status, a request by its
    [fromUser] or [toUser] that carries one of the three statuses (and no
    method, or one of the four methods) stores the requested status. The
    answer is 200, except that a request for completed or cancelled is
    answered 500 when Mongoose refuses the controller's second save of
    the document; the status is stored all the same. *)
Theorem status_set_from_any_state (parallelSaveError : bool) (db : DB)
  (now : Z) (reqUser id : string) (s : Settlement.t) (v : string)
  (m n : option string) :
  findById (settlements db) id = Some s ->
  reqUser = Settlement.fromUser s \/ reqUser = Settlement.toUser s ->
  Settlement.validate s = true ->
  In v Settlement.statuses ->
  (forall x, m = Some x -> In x Settlement.methods) ->
  storedStatus
    (settlementController.updateSettlementStatus parallelSaveError db now
       reqUser id (settlementController.mkBody (Some v) m n)) id
  = Some v /\
  code (fst (settlementController.updateSettlementStatus parallelSaveError db
               now reqUser id (settlementController.mkBody (Some v) m n)))
  = if (String.eqb v "completed" || String.eqb v "cancelled")
       && parallelSaveError
    then 500%nat else 200%nat.
Proof.
  intros Hfind Hparty Hvalid Hv Hm.
  unfold storedStatus, settlementController.updateSettlementStatus.
  rewrite Hfind.
  assert (Hacc : negb (String.eqb (Settlement.fromUser s) reqUser)
                 && negb (String.eqb (Settlement.toUser s) reqUser) = false).
  { destruct Hparty as [-> | ->]; rewrite String.eqb_refl; simpl;
      [reflexivity | apply andb_false_r]. }
  rewrite Hacc. cbv zeta.
  destruct (assignFields_valid s v m n Hvalid Hv Hm) as [S3 V3].
  cbn [settlementController.status].
  set (s3 := settlementController.assignFields
               (settlementController.mkBody (Some v) m n) s) in *.
  destruct (statusMethods_valid now id v s3 db V3 S3) as (V4 & S4 & Hst).
  pose proof (statusMethods_inFlight now id v s3 db) as Hfl.
  set (r := settlementController.statusMethods now id (Some v) s3 db) in *.
  unfold settlementController.awaitSave. rewrite Hfl.
  destruct ((String.eqb v "completed" || String.eqb v "cancelled")
            && parallelSaveError) eqn:E.
  - cbn [fst snd code]. apply andb_true_iff in E as [E _].
    rewrite Hfl in Hst. rewrite (Hst E). simpl. now rewrite S4.
  - rewrite (save_valid _ _ _ _ V4). cbn [fst snd code settlements withSettlements].
    rewrite findById_write_same. simpl. now rewrite S4.
Qed.

Lemma status_set_from_any_state_witness :
  storedStatus
    (settlementController.updateSettlementStatus true dbCompleted 7 "B" "s1"
       (settlementController.mkBody (Some "cancelled") None None)) "s1"
  = Some "cancelled" /\
  code (fst (settlementController.updateSettlementStatus true dbCompleted 7
               "B" "s1"
               (settlementController.mkBody (Some "cancelled") None None)))
  = 500%nat.
Proof.
  apply (status_set_from_any_state true dbCompleted 7 "B" "s1" completedOne
           "cancelled" None None).
  - reflexivity.
  - left. reflexivity.
  - reflexivity.
  - simpl. tauto.
  - intros x H. discriminate H.
Defined.

(** ** Splits *)

Lemma reduce_sum_const {A : Type} (c : Q) (xs : list A) :
  JS.reduce_sum (fun _ => c) xs == inject_Z (Z.of_nat (List.length xs)) * c.
Proof.
  induction xs as [|x xs IH].
  - rewrite reduce_sum_nil. simpl. ring.
  - rewrite reduce_sum_cons, IH. simpl List.length.
    rewrite Nat2Z.inj_succ. unfold Z.succ. rewrite inject_Z_plus.
    change (inject_Z 1) with 1. ring.
Qed.

Lemma reduce_sum_scale {A : Type} (f : A -> Q) (a : Q) (xs : list A) :
  JS.reduce_sum (fun x => a * f x / 100) xs == a * JS.reduce_sum f xs / 100.
Proof.
  induction xs as [|x xs IH].
  - rewrite !reduce_sum_nil. field.
  - rewrite !reduce_sum_cons, IH. field.
Qed.

Lemma pushIfMissing_nonempty (eps : list expenseController.ref) (user : string) :
  expenseController.pushIfMissing eps user <> [].
Proof.
  unfold expenseController.pushIfMissing.
  destruct (expenseController.includes eps user) eqn:E.
  - destruct eps; [discriminate E | discriminate].
  - destruct eps; discriminate.
Qed.

Lemma fold_push_nonempty (pbm : list Payer.t) (eps : list expenseController.ref) :
  eps <> [] ->
  fold_left (fun acc payer => expenseController.pushIfMissing acc (Payer.user payer))
    pbm eps <> [].
Proof.
  revert eps. induction pbm as [|p pbm IH]; intros eps H; simpl.
  - exact H.
  - apply IH, pushIfMissing_nonempty.
Qed.

Lemma withPayers_nonempty (eps : list expenseController.ref)
  (pbm : list Payer.t) (reqUser : string) :
  expenseController.withPayers eps pbm reqUser <> [].
Proof.
  unfold expenseController.withPayers. destruct pbm as [|p pbm].
  - apply pushIfMissing_nonempty.
  - simpl. apply fold_push_nonempty, pushIfMissing_nonempty.
Qed.

Lemma percentage_bound (a t : Q) :
  Qabs (t - 100) <= epsilon ->
  Qabs (a * t / 100 - a) <= Qabs a * (1 # 10000).
Proof.
  unfold epsilon. intro H.
  assert (E : a * t / 100 - a == a * ((t - 100) * (1 # 100))) by field.
  rewrite E, Qabs_Qmult.
  assert (Ht : Qabs ((t - 100) * (1 # 100)) <= 1 # 10000).
  { apply Qabs_Qle_condition in H. apply Qabs_Qle_condition. split; lra. }
  pose proof (Qabs_nonneg a). nra.
Qed.

(** The three split rules. *)
Lemma calculateSplits_total (splitType : string) (amount : Q)
  (eps : list expenseController.ref) (cs : list CustomSplit.t)
  (ss : list Split.t) :
  eps <> [] ->
  expenseController.calculateSplits splitType amount eps cs = inr (Some ss) ->
  (splitType = "equal" -> owedTotal ss == amount) /\
  (splitType = "custom" -> Qabs (owedTotal ss - amount) <= epsilon) /\
  (splitType = "percentage" ->
   Qabs (owedTotal ss - amount) <= Qabs amount * (1 # 10000)).
Proof.
  intros Hne H. unfold expenseController.calculateSplits in H.
  destruct (String.eqb splitType "equal") eqn:E1.
  - apply String.eqb_eq in E1. subst splitType.
    inversion H; subst ss; clear H.
    repeat split; try discriminate. intros _.
    unfold owedTotal. rewrite reduce_sum_map. cbn [Split.amount].
    rewrite reduce_sum_const.
    assert (Hn : ~ inject_Z (Z.of_nat (List.length eps)) == 0).
    { destruct eps; [congruence|]. simpl List.length.
      rewrite Nat2Z.inj_succ. unfold Z.succ. rewrite inject_Z_plus.
      pose proof (Nat2Z.is_nonneg (List.length eps)) as Hp.
      rewrite Zle_Qle in Hp. change (inject_Z 0) with 0 in Hp.
      change (inject_Z 1) with 1. lra. }
    field. exact Hn.
  - destruct (String.eqb splitType "percentage") eqn:E2.
    + apply String.eqb_eq in E2. subst splitType.
      destruct (JS.gt (Qabs (JS.reduce_sum CustomSplit.percentage cs - 100))
                  epsilon) eqn:G; [discriminate|].
      apply gt_false in G. inversion H; subst ss; clear H.
      repeat split; try discriminate. intros _.
      unfold owedTotal. rewrite reduce_sum_map. cbn [Split.amount].
      rewrite reduce_sum_scale. now apply percentage_bound.
    + destruct (String.eqb splitType "custom") eqn:E3; [|discriminate].
      apply String.eqb_eq in E3. subst splitType.
      destruct (JS.gt (Qabs (JS.reduce_sum CustomSplit.amount cs - amount))
                  epsilon) eqn:G; [discriminate|].
      apply gt_false in G. inversion H; subst ss; clear H.
      repeat split; try discriminate. intros _.
      unfold owedTotal. rewrite reduce_sum_map. cbn [Split.amount]. exact G.
Qed.

(** What a created expense is made of. *)
Lemma createWith_created (db : DB) (now : Z) (newId reqUser : string)
  (b : expenseController.body) (g : option string)
  (eps0 : list expenseController.ref) (e : Expense.t) :
  payload (fst (expenseController.createWith db now newId reqUser b g eps0))
  = Some e ->
  let splitType :=
    expenseController.orDefault "equal" (expenseController.splitType b) in
  exists ss,
    expenseController.calculateSplits splitType (expenseController.amount b)
      (expenseController.withPayers eps0 (expenseController.paidByMultiple b)
         reqUser)
      (expenseController.customSplits b) = inr ss /\
    Expense.amount e = expenseController.amount b /\
    Expense.splitType e = splitType /\
    Expense.splits e = match ss with Some l => l | None => [] end /\
    Expense.validate e = true /\
    code (fst (expenseController.createWith db now newId reqUser b g eps0))
    = 201%nat /\
    snd (expenseController.createWith db now newId reqUser b g eps0)
    = withExpenses (expenses db ++ [(newId, e)]) db.
Proof.
  unfold expenseController.createWith.
  destruct (expenseController.calculateSplits _ _ _ _) as [msg|ss] eqn:Ec;
    [simpl; discriminate|].
  match goal with
  | |- context [if Expense.validate ?d then _ else _] =>
      destruct (Expense.validate d) eqn:Ev
  end; [|simpl; discriminate].
  simpl fst. simpl snd. simpl payload. intro H. inversion H; subst e; clear H.
  exists ss. destruct ss as [l|]; repeat split; auto.
Qed.

(** C5 (as stated) fails. The percentages 50 and 50 + 1/128 pass the
    check (their sum is within 0.01 of 100); on an amount of 12800 the
    created splits are 6400 and 6401, which sum to 12801. *)
Lemma split_total_counterexample :
  exists e,
    expenseController.createExpense dbTrip 5 "e9" "A" largeRequest
    = (mkResponse 201 "Expense created successfully" (Some e),
       withExpenses [("e9", e)] dbTrip) /\
    owedTotal (Expense.splits e) == 12801 /\
    ~ validExpense e.
Proof.
  eexists. split; [vm_compute; reflexivity|]. split; [reflexivity|].
  intro H. apply Qle_bool_iff in H. vm_compute in H. discriminate.
Qed.

(** C5 (amended). For every expense [createExpense] creates, the owed
    amounts sum to the amount exactly when the split is equal, within
    0.01 when it is custom, and within [|amount| / 10000] when it is a
    percentage split (the tolerance of 0.01 is on the sum of the
    percentages, so the bound on the amounts grows with the amount and is
    0.01 at an amount of 100). *)
Theorem created_splits_total (db : DB) (now : Z) (newId reqUser : string)
  (b : expenseController.body) (e : Expense.t) :
  payload (fst (expenseController.createExpense db now newId reqUser b))
  = Some e ->
  (Expense.splitType e = "equal" ->
   owedTotal (Expense.splits e) == Expense.amount e) /\
  (Expense.splitType e = "custom" ->
   Qabs (owedTotal (Expense.splits e) - Expense.amount e) <= epsilon) /\
  (Expense.splitType e = "percentage" ->
   Qabs (owedTotal (Expense.splits e) - Expense.amount e)
     <= Qabs (Expense.amount e) * (1 # 10000)).
Proof.
  unfold expenseController.createExpense.
  destruct (expenseController.resolveParticipants db reqUser b)
    as [early|[g eps0]] eqn:Er.
  - unfold expenseController.resolveParticipants in Er.
    destruct (JS.truthy (expenseController.groupId b)).
    + destruct (findById (groups db) _) as [grp|].
      * destruct (negb (Group.isMember grp reqUser)); inversion Er; subst;
          simpl; discriminate.
      * inversion Er; subst; simpl; discriminate.
    + destruct (expenseController.participants b); inversion Er; subst;
        simpl; discriminate.
  - intro H. apply createWith_created in H.
    destruct H as (ss & Hc & Ha & Ht & Hs & _).
    rewrite Ha, Ht, Hs. destruct ss as [l|].
    + eapply calculateSplits_total; [|exact Hc]. apply withPayers_nonempty.
    + unfold expenseController.calculateSplits in Hc.
      repeat split; intro E; rewrite E in Hc; simpl in Hc;
        try discriminate;
        match type of Hc with
        | context [if ?c then _ else _] => destruct c; discriminate
        end.
Qed.

Lemma created_splits_total_witness :
  exists e,
    payload (fst (expenseController.createExpense dbTrip 5 "e9" "A" largeRequest))
    = Some e /\
    Qabs (owedTotal (Expense.splits e) - Expense.amount e)
      <= Qabs (Expense.amount e) * (1 # 10000).
Proof.
  eexists. split; [vm_compute; reflexivity|].
  eapply (created_splits_total dbTrip 5 "e9" "A" largeRequest);
    vm_compute; reflexivity.
Defined.

(** ** The percentage check *)

Lemma In_includes (xs : list string) (s : string) :
  JS.includes xs s = true -> In s xs.
Proof.
  unfold JS.includes. intro H. apply existsb_exists in H as (x & Hx & E).
  apply String.eqb_eq in E. now subst.
Qed.






(** Percentages summing to 99.5 and to 100.5 are refused and nothing is
    written; 50 + 30 + 20 on an amount of 100 creates the splits of
    scenario 2. *)
Lemma percentage_examples :
  expenseController.createExpense dbTrip 5 "e9" "A" shortRequest
  = (percentageError, dbTrip) /\
  expenseController.createExpense dbTrip 5 "e9" "A" longRequest
  = (percentageError, dbTrip) /\
  exists e,
    expenseController.createExpense dbTrip 5 "e9" "A" exactRequest
    = (mkResponse 201 "Expense created successfully" (Some e),
       withExpenses [("e9", e)] dbTrip) /\
    Forall2 Qeq (map Split.amount (Expense.splits e)) [50; 30; 20].
Proof.
  split; [reflexivity|]. split; [reflexivity|].
  eexists. split; [vm_compute; reflexivity|].
  repeat constructor.
Qed.

(** ** Marking a split as paid *)

Lemma setPaidOfFirst_persist (userId : string) (ss : list Split.t)
  (objects : list ExpenseDoc.splitObject) :
  ExpenseDoc.setPaidOfFirst userId (map ExpenseDoc.hydrate ss) = Some objects ->
  map ExpenseDoc.persist objects = ss.
Proof.
  revert objects. induction ss as [|s ss IH]; intros objects H; simpl in H.
  - discriminate.
  - destruct (String.eqb (Split.user s) userId).
    + inversion H; subst. simpl. f_equal.
      clear. induction ss as [|x xs IH]; simpl; [reflexivity | now rewrite IH].
    + destruct (ExpenseDoc.setPaidOfFirst userId (map ExpenseDoc.hydrate ss))
        as [os|]; [|discriminate].
      inversion H; subst. simpl. f_equal. now apply IH.
Qed.

Lemma setSplits_same (e : Expense.t) : Expense.setSplits (Expense.splits e) e = e.
Proof. destruct e. reflexivity. Qed.

(** C10. A [markSplitAsPaid] that is answered 200 leaves every split of
    the expense as it was, [isPaid] included, in the collection and in
    the document it sends back: what it sets is the property [paid],
    which is not a path of the schema. *)
Theorem markSplitAsPaid_keeps_isPaid (db : DB) (now : Z)
  (reqUser expenseId userId : string) (e : Expense.t) :
  findById (expenses db) expenseId = Some e ->
  code (fst (expenseController.markSplitAsPaid db now reqUser expenseId userId))
  = 200%nat ->
  exists e',
    findById
      (expenses
         (snd (expenseController.markSplitAsPaid db now reqUser expenseId userId)))
      expenseId = Some e' /\
    payload (fst (expenseController.markSplitAsPaid db now reqUser expenseId userId))
    = Some e' /\
    Expense.splits e' = Expense.splits e /\
    map Split.isPaid (Expense.splits e') = map Split.isPaid (Expense.splits e) /\
    existsb (fun s => String.eqb (Split.user s) userId) (Expense.splits e) = true.
Proof.
  intro Hfind. unfold expenseController.markSplitAsPaid. rewrite Hfind.
  destruct (match Expense.group e with
            | Some gid => findById (groups db) gid
            | None => None
            end) as [grp|]; [|simpl; discriminate].
  destruct (negb (Group.isMember grp reqUser)); [simpl; discriminate|].
  destruct (ExpenseDoc.setPaidOfFirst userId
              (map ExpenseDoc.hydrate (Expense.splits e))) as [objects|] eqn:Ef;
    [|simpl; discriminate].
  assert (Hfound : existsb (fun s => String.eqb (Split.user s) userId)
                     (Expense.splits e) = true).
  { clear -Ef. revert objects Ef.
    induction (Expense.splits e) as [|s ss IH]; intros objects Ef; simpl in *.
    - discriminate.
    - destruct (String.eqb (Split.user s) userId); [reflexivity|]. simpl.
      destruct (ExpenseDoc.setPaidOfFirst userId (map ExpenseDoc.hydrate ss))
        as [os|]; [|discriminate].
      now apply (IH os). }
  apply setPaidOfFirst_persist in Ef. rewrite Ef, setSplits_same.
  unfold ExpenseDoc.save.
  destruct (Expense.validate e); [|simpl; discriminate].
  intros _. cbn [fst snd payload expenses withExpenses].
  exists (Expense.preSave now e).
  rewrite findById_write_same. repeat split; auto.
Qed.

Lemma markSplitAsPaid_keeps_isPaid_witness :
  exists e',
    findById
      (expenses (snd (expenseController.markSplitAsPaid dbLedger 9 "A" "e1" "B")))
      "e1" = Some e' /\
    payload (fst (expenseController.markSplitAsPaid dbLedger 9 "A" "e1" "B"))
    = Some e' /\
    Expense.splits e' = Expense.splits scenario1 /\
    map Split.isPaid (Expense.splits e')
    = map Split.isPaid (Expense.splits scenario1) /\
    existsb (fun s => String.eqb (Split.user s) "B") (Expense.splits scenario1)
    = true.
Proof.
  apply (markSplitAsPaid_keeps_isPaid dbLedger 9 "A" "e1" "B" scenario1);
    reflexivity.
Defined.

(** The method of the model does set [isPaid]. *)
Lemma model_method_sets_isPaid :
  option_map (fun r => map Split.isPaid (Expense.splits (fst r)))
    (ExpenseDoc.markSplitAsPaid 9 "e1" "B" scenario1 dbLedger)
  = Some [false; true; false].
Proof. reflexivity. Qed.

(** On the stored expense of scenario 1, marking B's split as paid is
    answered 200 and B's split is still unpaid. *)
Lemma markSplitAsPaid_example :
  code (fst (expenseController.markSplitAsPaid dbLedger 9 "A" "e1" "B")) = 200%nat /\
  option_map (fun e => map Split.isPaid (Expense.splits e))
    (findById
       (expenses (snd (expenseController.markSplitAsPaid dbLedger 9 "A" "e1" "B")))
       "e1")
  = Some [false; false; false].
Proof. split; reflexivity. Qed.

(** * The rest of the backend: proofs *)

(** ** The pairing, again *)

Lemma In_pair_fields (o : JS.object) (g u v : string) (s : Settlement.plain) :
  In s (Settlement.pair o g u v) ->
  Settlement.p_group s = g /\ Settlement.p_currency s = "LKR".
Proof.
  unfold Settlement.pair.
  destruct (JS.get o u) as [b|]; [|intros []].
  destruct (JS.get o v) as [c|]; [|intros []].
  destruct (JS.gt b 0 && JS.lt c 0).
  - intros [<-|[]]. split; reflexivity.
  - destruct (JS.lt b 0 && JS.gt c 0); [|intros []].
    intros [<-|[]]. split; reflexivity.
Qed.

Lemma In_generate_fields (o : JS.object) (g : string) (s : Settlement.plain) :
  In s (Settlement.generate o g) ->
  Settlement.p_group s = g /\ Settlement.p_currency s = "LKR".
Proof.
  unfold Settlement.generate. generalize (JS.keys o) as users.
  induction users as [|u users IH]; simpl; [intros []|].
  intro H. apply in_app_or in H as [H|H]; [|now apply IH].
  clear IH. induction users as [|v users IH]; simpl in H; [destruct H|].
  apply in_app_or in H as [H|H]; [|now apply IH].
  now apply In_pair_fields in H.
Qed.

(** X1. Every settlement the pairing emits is for a strictly positive
    amount, between two different users, in the given group and in LKR,
    and its amount exceeds neither the balance of its [fromUser] nor the
    absolute balance of its [toUser]. *)
Theorem emitted_settlement_shape (userBalances : JS.object) (groupId : string)
  (s : Settlement.plain) :
  In s (Settlement.generate userBalances groupId) ->
  0 < Settlement.p_amount s /\
  Settlement.p_fromUser s <> Settlement.p_toUser s /\
  Settlement.p_group s = groupId /\
  Settlement.p_currency s = "LKR" /\
  Settlement.p_amount s
    <= JS.orZero (JS.get userBalances (Settlement.p_fromUser s)) /\
  Settlement.p_amount s
    <= - JS.orZero (JS.get userBalances (Settlement.p_toUser s)).
Proof.
  intro H.
  destruct (In_generate_fields _ _ _ H) as [Hg Hc].
  destruct (generate_direction _ _ _ H) as (b & c & Hb & Hc' & Pb & Nc & Ha).
  rewrite Hb, Hc'. simpl JS.orZero.
  rewrite (Qabs_pos b) in Ha by lra. rewrite (Qabs_neg c) in Ha by lra.
  pose proof (Q.le_min_l b (- c)). pose proof (Q.le_min_r b (- c)).
  assert (0 < Qmin b (- c)) by (apply Q.min_glb_lt; lra).
  repeat split; auto; try lra.
  intro E. rewrite E in Hb. rewrite Hb in Hc'. inversion Hc'. subst. lra.
Qed.

Lemma emitted_settlement_shape_witness :
  0 < 100 /\ "A" <> "C" /\ "g" = "g" /\ "LKR" = "LKR" /\
  100 <= JS.orZero (JS.get twoByTwo "A") /\
  100 <= - JS.orZero (JS.get twoByTwo "C").
Proof.
  apply (emitted_settlement_shape twoByTwo "g"
           (Settlement.mkPlain "A" "C" "g" 100 "LKR")).
  left. reflexivity.
Defined.

Lemma sign_exclusive (o : JS.object) (k : string) :
  positiveKey o k = true -> negativeKey o k = false.
Proof.
  unfold positiveKey, negativeKey. destruct (JS.get o k) as [b|]; [|reflexivity].
  intro G. apply gt_true in G. apply lt_false. lra.
Qed.

Lemma length_pair (o : JS.object) (g u v : string) :
  List.length (Settlement.pair o g u v)
  = if (positiveKey o u && negativeKey o v) || (negativeKey o u && positiveKey o v)
    then 1%nat else 0%nat.
Proof.
  unfold Settlement.pair, positiveKey, negativeKey.
  destruct (JS.get o u) as [b|], (JS.get o v) as [c|]; try reflexivity.
  - destruct (JS.gt b 0 && JS.lt c 0); [reflexivity|].
    destruct (JS.lt b 0 && JS.gt c 0); reflexivity.
  - now rewrite !andb_false_r.
Qed.

Lemma length_inner (o : JS.object) (g u : string) (rest : list string) :
  List.length (Settlement.inner o g u rest)
  = if positiveKey o u then List.length (filter (negativeKey o) rest)
    else if negativeKey o u then List.length (filter (positiveKey o) rest)
    else 0%nat.
Proof.
  induction rest as [|v rest IH]; simpl.
  - destruct (positiveKey o u), (negativeKey o u); reflexivity.
  - rewrite length_app, length_pair, IH.
    destruct (positiveKey o u) eqn:Pu.
    + rewrite (sign_exclusive o u Pu). simpl.
      rewrite orb_false_r. destruct (negativeKey o v); reflexivity.
    + simpl. destruct (negativeKey o u); simpl.
      * destruct (positiveKey o v); reflexivity.
      * reflexivity.
Qed.

Lemma length_outer (o : JS.object) (g : string) (users : list string) :
  List.length (Settlement.outer o g users)
  = (List.length (filter (positiveKey o) users)
     * List.length (filter (negativeKey o) users))%nat.
Proof.
  induction users as [|u users IH]; simpl.
  - reflexivity.
  - rewrite length_app, length_inner, IH.
    destruct (positiveKey o u) eqn:Pu.
    + rewrite (sign_exclusive o u Pu). simpl. lia.
    + destruct (negativeKey o u); simpl; lia.
Qed.

Lemma get_of_entry (o : JS.object) (k : string) (v : Q) :
  NoDup (JS.keys o) -> In (k, v) o -> JS.get o k = Some v.
Proof.
  induction o as [|[k' v'] o IH]; simpl; intros Hnd Hin; [destruct Hin|].
  inversion Hnd as [|? ? Hk Ho]; subst.
  destruct Hin as [E|Hin].
  - inversion E; subst. now rewrite String.eqb_refl.
  - destruct (String.eqb k' k) eqn:E.
    + apply String.eqb_eq in E. subst k'. exfalso. apply Hk.
      apply in_map_iff. exists (k, v). split; [reflexivity | exact Hin].
    + now apply IH.
Qed.

Lemma filter_keys_length (o : JS.object) (test : Q -> bool)
  (byKey : string -> bool) (l : list (string * Q)) :
  (forall k v, In (k, v) l -> byKey k = test v) ->
  List.length (filter byKey (map fst l))
  = List.length (filter (fun kv => test (snd kv)) l).
Proof.
  induction l as [|[k v] l IH]; intro H; simpl.
  - reflexivity.
  - rewrite (H k v) by now left.
    destruct (test v); simpl; rewrite IH; auto;
      intros k' v' Hin; apply H; now right.
Qed.

(** X2. The number of settlements emitted is the number of participants
    with a positive balance times the number of participants with a
    negative balance: one settlement for every creditor-debtor pair. *)
Theorem settlement_count (userBalances : JS.object) (groupId : string) :
  NoDup (JS.keys userBalances) ->
  List.length (Settlement.generate userBalances groupId)
  = (List.length (creditors userBalances)
     * List.length (debtors userBalances))%nat.
Proof.
  intro Hnd. unfold Settlement.generate, JS.keys, creditors, debtors.
  rewrite length_outer.
  rewrite (filter_keys_length userBalances (fun b => JS.gt b 0)).
  - rewrite (filter_keys_length userBalances (fun b => JS.lt b 0)).
    + reflexivity.
    + intros k v Hin. unfold negativeKey.
      now rewrite (get_of_entry _ _ _ Hnd Hin).
  - intros k v Hin. unfold positiveKey.
    now rewrite (get_of_entry _ _ _ Hnd Hin).
Qed.

Lemma settlement_count_witness :
  List.length (Settlement.generate twoByTwo "g") = (2 * 2)%nat.
Proof.
  apply (settlement_count twoByTwo "g"). distinct_keys.
Defined.

(** ** The net amounts, by user *)

Lemma get_set_same (o : JS.object) (k : string) (v : Q) :
  JS.get (JS.set o k v) k = Some v.
Proof.
  induction o as [|[k' v'] o IH]; simpl.
  - now rewrite String.eqb_refl.
  - destruct (String.eqb k' k) eqn:E; simpl; now rewrite E.
Qed.

Lemma get_set_other (o : JS.object) (k u : string) (v : Q) :
  k <> u -> JS.get (JS.set o k v) u = JS.get o u.
Proof.
  intro Hne. induction o as [|[k' v'] o IH]; simpl.
  - apply String.eqb_neq in Hne. now rewrite Hne.
  - destruct (String.eqb k' k) eqn:E; simpl.
    + apply String.eqb_eq in E. subst k'. apply String.eqb_neq in Hne.
      now rewrite Hne.
    + destruct (String.eqb k' u); auto.
Qed.

(** The balance of [u] after one more addition under key [k]. *)
Lemma balance_after_add (o : JS.object) (k u : string) (d : Q) :
  JS.orZero (JS.get (JS.set o k (JS.orZero (JS.get o k) + d)) u)
  == JS.orZero (JS.get o u) + (if String.eqb k u then d else 0).
Proof.
  destruct (String.eqb k u) eqn:E.
  - apply String.eqb_eq in E. subst u. rewrite get_set_same. simpl. ring.
  - apply String.eqb_neq in E. rewrite get_set_other by exact E. ring.
Qed.

Lemma balance_splits (u : string) (ss : list Split.t) (o : JS.object) :
  JS.orZero (JS.get (fold_left Settlement.subOwed ss o) u)
  == JS.orZero (JS.get o u)
     - JS.reduce_sum Split.amount
         (filter (fun s => String.eqb (Split.user s) u) ss).
Proof.
  revert o. induction ss as [|s ss IH]; intro o; simpl.
  - rewrite reduce_sum_nil. ring.
  - rewrite IH. unfold Settlement.subOwed.
    change (JS.orZero (JS.get o (Split.user s)) - Split.amount s)
      with (JS.orZero (JS.get o (Split.user s)) + - Split.amount s).
    rewrite balance_after_add.
    destruct (String.eqb (Split.user s) u).
    + rewrite reduce_sum_cons. ring.
    + ring.
Qed.

Lemma balance_expenses (u : string) (es : list Expense.t) (o : JS.object) :
  JS.orZero (JS.get (fold_left Settlement.addExpense es o) u)
  == JS.orZero (JS.get o u) + paidTotal u es - owedBy u es.
Proof.
  unfold paidTotal, owedBy. revert o.
  induction es as [|e es IH]; intro o; simpl.
  - rewrite !reduce_sum_nil. ring.
  - rewrite IH. unfold Settlement.addExpense. rewrite balance_splits.
    unfold Settlement.addPaid. rewrite balance_after_add.
    rewrite (reduce_sum_cons _ e es).
    destruct (String.eqb (Expense.paidBy e) u).
    + rewrite reduce_sum_cons. ring.
    + ring.
Qed.

Lemma keys_after_set (o : JS.object) (k u : string) (v : Q) :
  In u (JS.keys (JS.set o k v)) <-> In u (JS.keys o) \/ u = k.
Proof.
  split.
  - apply In_keys_set.
  - induction o as [|[k' v'] o IH]; simpl.
    + intros [ [] | -> ]. now left.
    + destruct (String.eqb k' k) eqn:E; simpl.
      * apply String.eqb_eq in E. subst k'.
        intros [ [H|H] | -> ]; auto.
      * intros [ [H|H] | -> ]; auto.
Qed.

Lemma keys_splits (u : string) (ss : list Split.t) (o : JS.object) :
  In u (JS.keys (fold_left Settlement.subOwed ss o))
  <-> In u (JS.keys o) \/ In u (map Split.user ss).
Proof.
  revert o. induction ss as [|s ss IH]; intro o; simpl.
  - tauto.
  - rewrite IH. unfold Settlement.subOwed. rewrite keys_after_set.
    split; intros H; intuition auto.
Qed.

Lemma keys_expenses (u : string) (es : list Expense.t) (o : JS.object) :
  In u (JS.keys (fold_left Settlement.addExpense es o))
  <-> In u (JS.keys o) \/ exists e, In e es /\ namedIn u e.
Proof.
  revert o. induction es as [|e es IH]; intro o; simpl.
  - split; [tauto | intros [H|(e & [] & _)]; exact H].
  - rewrite IH. unfold Settlement.addExpense, Settlement.addPaid.
    rewrite keys_splits, keys_after_set. unfold namedIn. split.
    + intros [[[H|H]|H]|(e' & He' & Hn)].
      * now left.
      * right. exists e. split; [now left | left; now symmetry].
      * right. exists e. split; [now left | now right].
      * right. exists e'. split; [now right | exact Hn].
    + intros [H|(e' & [<-|He'] & Hn)].
      * left. left. now left.
      * destruct Hn as [Hn|Hn]; [left; left; right; now symmetry | left; now right].
      * right. exists e'. split; assumption.
Qed.

(** X3. In exact arithmetic, the balance computed for a user is what
    the user paid (the amounts of the expenses whose [paidBy] is the
    user) minus the amounts of the user's splits. The users that get a
    balance are those an expense names as payer or in a split, each of
    them once. *)
Theorem balance_of_user (expenses : list Expense.t) (u : string) :
  JS.orZero (JS.get (Settlement.netAmounts expenses) u)
  == paidTotal u expenses - owedBy u expenses /\
  (In u (JS.keys (Settlement.netAmounts expenses))
   <-> exists e, In e expenses /\ namedIn u e) /\
  NoDup (JS.keys (Settlement.netAmounts expenses)).
Proof.
  unfold Settlement.netAmounts. split; [|split].
  - rewrite balance_expenses. simpl. ring.
  - rewrite keys_expenses. simpl. tauto.
  - apply NoDup_keys_netAmounts.
Qed.

(** ** Sorting and removing *)

Section SortByKey.
Context {A : Type} (key : A -> Z).

Let before (a b : A) : bool := (key b <=? key a)%Z.

Lemma insertSorted_perm (x : A) (l : list A) :
  Permutation (insertSorted before x l) (x :: l).
Proof.
  induction l as [|y l IH]; simpl.
  - apply Permutation_refl.
  - destruct (before x y).
    + apply Permutation_refl.
    + apply perm_trans with (y :: x :: l).
      * now apply perm_skip.
      * apply perm_swap.
Qed.

Lemma sortBy_perm (l : list A) : Permutation (sortBy before l) l.
Proof.
  induction l as [|x l IH]; simpl.
  - apply perm_nil.
  - apply perm_trans with (x :: sortBy before l).
    + apply insertSorted_perm.
    + now apply perm_skip.
Qed.

Lemma insertSorted_sorted (x : A) (l : list A) :
  Sorted (fun a b => (key b <= key a)%Z) l ->
  Sorted (fun a b => (key b <= key a)%Z) (insertSorted before x l).
Proof.
  induction l as [|y l IH]; simpl; intro H.
  - repeat constructor.
  - unfold before at 1. destruct (key y <=? key x)%Z eqn:E.
    + apply Z.leb_le in E. constructor; [exact H | now constructor].
    + apply Z.leb_gt in E. inversion H as [|? ? Hs Hh]; subst.
      constructor; [now apply IH|].
      destruct l as [|z l]; simpl.
      * constructor. lia.
      * unfold before. destruct (key z <=? key x)%Z; constructor.
        -- lia.
        -- now inversion Hh.
Qed.

Lemma sortBy_sorted (l : list A) :
  StronglySorted (fun a b => (key b <= key a)%Z) (sortBy before l).
Proof.
  apply Sorted_StronglySorted.
  - intros a b c Hab Hbc. lia.
  - induction l as [|x l IH]; simpl.
    + constructor.
    + now apply insertSorted_sorted.
Qed.

End SortByKey.

Lemma findById_removeById_other {A : Type} (c : list (string * A))
  (id id' : string) :
  id <> id' -> findById (removeById c id) id' = findById c id'.
Proof.
  intro Hne. induction c as [|[k d] c IH]; simpl.
  - reflexivity.
  - destruct (String.eqb k id) eqn:E; simpl.
    + apply String.eqb_eq in E. subst k. apply String.eqb_neq in Hne.
      now rewrite Hne.
    + now rewrite IH.
Qed.

Lemma findById_not_key {A : Type} (c : list (string * A)) (id : string) :
  ~ In id (map fst c) -> findById c id = None.
Proof.
  induction c as [|[k d] c IH]; simpl; intro H.
  - reflexivity.
  - destruct (String.eqb k id) eqn:E.
    + apply String.eqb_eq in E. exfalso. apply H. now left.
    + apply IH. intro Hin. apply H. now right.
Qed.

Lemma findById_removeById_same {A : Type} (c : list (string * A)) (id : string) :
  NoDup (map fst c) -> findById (removeById c id) id = None.
Proof.
  induction c as [|[k d] c IH]; simpl; intro Hnd.
  - reflexivity.
  - inversion Hnd as [|? ? Hk Hc]; subst.
    destruct (String.eqb k id) eqn:E; simpl.
    + apply String.eqb_eq in E. subst k. now apply findById_not_key.
    + rewrite E. now apply IH.
Qed.

Lemma findById_write_other {A : Type} (c : list (string * A)) (id id' : string)
  (d : A) :
  id <> id' -> findById (write c id d) id' = findById c id'.
Proof.
  intro Hne. induction c as [|[k d'] c IH]; simpl.
  - apply String.eqb_neq in Hne. now rewrite Hne.
  - destruct (String.eqb k id) eqn:E; simpl.
    + apply String.eqb_eq in E. subst k. apply String.eqb_neq in Hne.
      now rewrite Hne.
    + destruct (String.eqb k id'); auto.
Qed.

Lemma findById_app {A : Type} (c c' : list (string * A)) (id : string) :
  findById (c ++ c')%list id
  = match findById c id with Some d => Some d | None => findById c' id end.
Proof.
  induction c as [|[k d] c IH]; simpl.
  - reflexivity.
  - destruct (String.eqb k id); auto.
Qed.

(** ** The settlement handlers *)

Lemma generated_basic (o : JS.object) (g : string) (s : Settlement.plain) :
  In s (Settlement.generate o g) ->
  0 < Settlement.p_amount s /\
  Settlement.p_fromUser s <> Settlement.p_toUser s /\
  Settlement.p_group s = g.
Proof.
  intro H.
  destruct (In_generate_fields _ _ _ H) as [Hg _].
  destruct (generate_direction _ _ _ H) as (b & c & Hb & Hc & Pb & Nc & Ha).
  rewrite (Qabs_pos b) in Ha by lra. rewrite (Qabs_neg c) in Ha by lra.
  assert (0 < Qmin b (- c)) by (apply Q.min_glb_lt; lra).
  repeat split; auto; try lra.
  intro E. rewrite E in Hb. rewrite Hb in Hc. inversion Hc. subst. lra.
Qed.

Lemma computed_docs_valid (now : Z) (o : JS.object) (g : string) :
  forallb Settlement.validate
    (map (settlementHandlers.ofPlain now) (Settlement.generate o g)) = true.
Proof.
  apply forallb_forall. intros d Hd. apply in_map_iff in Hd as (p & <- & Hp).
  apply generated_basic in Hp as (Ha & _).
  unfold Settlement.validate, settlementHandlers.ofPlain. simpl.
  rewrite andb_true_r. apply andb_true_iff. split; [|reflexivity].
  apply Qle_bool_iff. lra.
Qed.

Lemma usersExist_populated (userExists : string -> bool) (db : DB)
  (groupId : string) :
  forallb (settlementHandlers.populated userExists)
    (settlementHandlers.expensesOf db groupId) = true
  <-> usersExist userExists db groupId.
Proof.
  unfold usersExist, settlementHandlers.populated.
  rewrite forallb_forall. split; intros H e He.
  - specialize (H e He). apply andb_true_iff in H as [Hp Hs].
    split; [exact Hp|]. now apply forallb_forall.
  - destruct (H e He) as [Hp Hs]. apply andb_true_iff.
    split; [exact Hp|]. now apply forallb_forall.
Qed.

(** X4. For a member of the group, when every user the expenses of the
    group name exists, the calculation handler answers 200: it appends
    one document per computed settlement to the collection, each
    pending, with method "other", in the group, for a positive amount
    and between two different users, and it leaves the settlements
    already stored, the expenses and the groups as they were. When an
    expense of the group names a user who does not exist, the handler
    answers 500 and writes nothing. *)
Theorem calculate_appends_pending (userExists : string -> bool) (db : DB)
  (now : Z) (ids : nat -> string) (reqUser groupId : string)
  (group : Group.t) :
  findById (groups db) groupId = Some group ->
  Group.isMember group reqUser = true ->
  let docs :=
    map (settlementHandlers.ofPlain now)
      (Settlement.calculateGroupSettlements (expenses db) groupId) in
  let r := settlementHandlers.calculateGroupSettlements userExists db now ids
             reqUser groupId in
  (usersExist userExists db groupId ->
   r = (mkResponse 200 "Settlements calculated successfully" (Some docs),
        mkDB (expenses db) (groups db)
          (settlements db ++ settlementHandlers.withIds ids 0 docs)) /\
   Forall (fun d =>
             Settlement.status d = "pending" /\
             Settlement.method d = "other" /\
             Settlement.completedAt d = None /\
             Settlement.group d = groupId /\
             0 < Settlement.amount d /\
             Settlement.fromUser d <> Settlement.toUser d) docs) /\
  (~ usersExist userExists db groupId ->
   r = (mkResponse 500 "Server error." None, db)).
Proof.
  intros Hg Hm docs r. unfold r, settlementHandlers.calculateGroupSettlements.
  rewrite Hg, Hm. cbn [negb]. cbv iota.
  destruct (forallb (settlementHandlers.populated userExists)
              (settlementHandlers.expensesOf db groupId)) eqn:P.
  - apply usersExist_populated in P. cbn [negb]. cbv iota.
    split; [|intro N; contradiction]. intros _. split.
    + unfold Settlement.calculateGroupSettlements at 1.
      rewrite computed_docs_valid. reflexivity.
    + apply Forall_forall. intros d Hd. unfold docs in Hd.
      apply in_map_iff in Hd as (p & <- & Hp).
      unfold Settlement.calculateGroupSettlements in Hp.
      apply generated_basic in Hp as (Ha & Hne & Hgr).
      simpl. repeat split; auto.
  - cbn [negb]. cbv iota. split; [|reflexivity].
    intro U. apply usersExist_populated in U. congruence.
Qed.

Lemma knownUsers_ledger : usersExist knownUsers dbLedger "g".
Proof.
  intros e [<-|[]]. split; [reflexivity|].
  intros split [<-|[<-|[<-|[]]]]; reflexivity.
Defined.

Lemma calculate_appends_pending_witness :
  settlementHandlers.calculateGroupSettlements knownUsers dbLedger 9
    (fun _ => "n") "B" "g"
  = (mkResponse 200 "Settlements calculated successfully"
       (Some (map (settlementHandlers.ofPlain 9)
                (Settlement.calculateGroupSettlements (expenses dbLedger) "g"))),
     mkDB (expenses dbLedger) (groups dbLedger)
       (settlements dbLedger
        ++ settlementHandlers.withIds (fun _ => "n") 0
             (map (settlementHandlers.ofPlain 9)
                (Settlement.calculateGroupSettlements (expenses dbLedger) "g")))).
Proof.
  apply (calculate_appends_pending knownUsers dbLedger 9 (fun _ => "n") "B" "g"
           trip eq_refl eq_refl).
  exact knownUsers_ledger.
Defined.

(** X5. The calculation handler replaces nothing: when every user the
    expenses of the group name exists, a second run on the database the
    first run left computes the same settlements from the same expenses
    and appends them again, after the first batch. *)
Theorem calculate_twice_appends_twice (userExists : string -> bool) (db : DB)
  (now1 now2 : Z) (ids1 ids2 : nat -> string) (reqUser groupId : string)
  (group : Group.t) :
  findById (groups db) groupId = Some group ->
  Group.isMember group reqUser = true ->
  usersExist userExists db groupId ->
  let computed := Settlement.calculateGroupSettlements (expenses db) groupId in
  let db1 := snd (settlementHandlers.calculateGroupSettlements userExists
                    db now1 ids1 reqUser groupId) in
  settlements
    (snd (settlementHandlers.calculateGroupSettlements userExists
            db1 now2 ids2 reqUser groupId))
  = (settlements db
     ++ settlementHandlers.withIds ids1 0
          (map (settlementHandlers.ofPlain now1) computed)
     ++ settlementHandlers.withIds ids2 0
          (map (settlementHandlers.ofPlain now2) computed))%list.
Proof.
  intros Hg Hm Hu computed db1. apply usersExist_populated in Hu.
  assert (E1 : db1 = mkDB (expenses db) (groups db)
                       (settlements db
                        ++ settlementHandlers.withIds ids1 0
                             (map (settlementHandlers.ofPlain now1) computed))).
  { unfold db1, settlementHandlers.calculateGroupSettlements.
    rewrite Hg, Hm, Hu. cbn [negb]. cbv iota.
    unfold Settlement.calculateGroupSettlements at 1.
    rewrite computed_docs_valid. reflexivity. }
  rewrite E1. unfold settlementHandlers.calculateGroupSettlements.
  cbn [groups expenses settlements]. rewrite Hg, Hm. cbn [negb]. cbv iota.
  unfold settlementHandlers.expensesOf in *. cbn [expenses]. rewrite Hu.
  cbn [negb]. cbv iota.
  unfold Settlement.calculateGroupSettlements at 1.
  rewrite computed_docs_valid. cbn [snd settlements withSettlements].
  now rewrite <- app_assoc.
Qed.

Lemma calculate_twice_appends_twice_witness :
  List.length
    (settlements
       (snd (settlementHandlers.calculateGroupSettlements knownUsers
               (snd (settlementHandlers.calculateGroupSettlements knownUsers
                       dbLedger 9 (fun _ => "n") "B" "g"))
               10 (fun _ => "m") "B" "g")))
  = 4%nat.
Proof.
  rewrite (calculate_twice_appends_twice knownUsers dbLedger 9 10
             (fun _ => "n") (fun _ => "m") "B" "g" trip eq_refl eq_refl
             knownUsers_ledger).
  reflexivity.
Defined.

(** X6. A manual settlement is created (201) exactly when the group
    exists, the requester and the receiver are both members of it, the
    amount is not negative and the method is absent or one of the four
    methods. The stored settlement is from the requester, pending, and
    goes last in the collection; every other answer leaves the database
    as it was. *)
Theorem createSettlement_outcome (db : DB) (now : Z) (newId reqUser : string)
  (b : settlementHandlers.body) :
  let r := settlementHandlers.createSettlement db now newId reqUser b in
  (code (fst r) = 201%nat <->
   exists group,
     findById (groups db) (settlementHandlers.groupId b) = Some group /\
     Group.isMember group reqUser = true /\
     Group.isMember group (settlementHandlers.toUserId b) = true /\
     0 <= settlementHandlers.amount b /\
     match settlementHandlers.method b with
     | Some m => In m Settlement.methods
     | None => True
     end) /\
  (code (fst r) = 201%nat ->
   exists s,
     payload (fst r) = Some s /\
     snd r = withSettlements (settlements db ++ [(newId, s)]) db /\
     Settlement.fromUser s = reqUser /\
     Settlement.toUser s = settlementHandlers.toUserId b /\
     Settlement.amount s = settlementHandlers.amount b /\
     Settlement.status s = "pending") /\
  (code (fst r) <> 201%nat -> snd r = db).
Proof.
  unfold settlementHandlers.createSettlement.
  destruct (findById (groups db) (settlementHandlers.groupId b)) as [group|].
  2:{ cbn. repeat split; try discriminate; auto.
      intros (g & H & _). discriminate. }
  destruct (Group.isMember group reqUser) eqn:M1.
  2:{ cbn. repeat split; try discriminate; auto.
      intros (g & H & H1 & _). inversion H; subst. congruence. }
  destruct (Group.isMember group (settlementHandlers.toUserId b)) eqn:M2.
  2:{ cbn. repeat split; try discriminate; auto.
      intros (g & H & _ & H2 & _). inversion H; subst. congruence. }
  cbn [negb orb].
  unfold Settlement.validate, settlementHandlers.construct.
  cbn [Settlement.amount Settlement.status Settlement.method].
  change (JS.includes Settlement.statuses "pending") with true.
  rewrite andb_true_r.
  destruct (Qle_bool 0 (settlementHandlers.amount b)) eqn:A.
  2:{ cbn. repeat split; try discriminate; auto.
      intros (g & _ & _ & _ & Ha & _). apply Qle_bool_iff in Ha. congruence. }
  apply Qle_bool_iff in A. cbn [andb].
  destruct (JS.includes Settlement.methods
              match settlementHandlers.method b with
              | Some m => m
              | None => "other"
              end) eqn:Mt.
  - cbn [fst snd code payload]. repeat split; auto.
    + intros _. exists group. repeat split; auto.
      destruct (settlementHandlers.method b) as [m|]; [|exact I].
      unfold JS.includes in Mt. apply existsb_exists in Mt as (x & Hx & E).
      apply String.eqb_eq in E. now subst.
    + intros _. eexists. repeat split.
    + intro H. now contradiction H.
  - cbn [fst snd code payload]. repeat split; try discriminate; auto.
    intros (g & _ & _ & _ & _ & Hm).
    destruct (settlementHandlers.method b) as [m|].
    + rewrite (includes_In _ _ Hm) in Mt. discriminate.
    + discriminate Mt.
Qed.

(** X7. Only a party deletes a settlement: the handler answers 200
    exactly when the settlement exists and the requester is its
    [fromUser] or [toUser]; then, in a collection with distinct ids, the
    settlement is gone and every other one is as before; any other
    answer leaves the database as it was. *)
Theorem deleteSettlement_outcome (db : DB) (reqUser id : string) :
  NoDup (map fst (settlements db)) ->
  let r := settlementHandlers.deleteSettlement db reqUser id in
  (code (fst r) = 200%nat <->
   exists s, findById (settlements db) id = Some s /\
             (Settlement.fromUser s = reqUser \/ Settlement.toUser s = reqUser)) /\
  (code (fst r) = 200%nat ->
   findById (settlements (snd r)) id = None /\
   (forall id', id <> id' ->
      findById (settlements (snd r)) id' = findById (settlements db) id') /\
   expenses (snd r) = expenses db /\ groups (snd r) = groups db) /\
  (code (fst r) <> 200%nat -> snd r = db).
Proof.
  intro Hnd. unfold settlementHandlers.deleteSettlement.
  destruct (findById (settlements db) id) as [s|] eqn:F.
  2:{ cbn. repeat split; try discriminate; auto. intros (s & H & _). discriminate. }
  assert (Hdone :
            (True <->
             exists s0, Some s = Some s0 /\
                        (Settlement.fromUser s0 = reqUser \/
                         Settlement.toUser s0 = reqUser)) ->
            (200%nat = 200%nat <->
             exists s0, Some s = Some s0 /\
                        (Settlement.fromUser s0 = reqUser \/
                         Settlement.toUser s0 = reqUser)) /\
            (200%nat = 200%nat ->
             findById (removeById (settlements db) id) id = None /\
             (forall id', id <> id' ->
                findById (removeById (settlements db) id) id'
                = findById (settlements db) id') /\
             expenses db = expenses db /\ groups db = groups db) /\
            (200%nat <> 200%nat ->
             withSettlements (removeById (settlements db) id) db = db)).
  { intro H. split; [tauto|]. split.
    - intros _. split; [now apply findById_removeById_same|].
      split; [|split; reflexivity].
      intros id' Hne. now apply findById_removeById_other.
    - intro N. now contradiction N. }
  destruct (String.eqb (Settlement.fromUser s) reqUser) eqn:E1.
  - apply String.eqb_eq in E1.
    cbn [negb andb fst snd code settlements expenses groups withSettlements].
    apply Hdone. split; [|tauto]. intros _. exists s. split; [reflexivity | tauto].
  - destruct (String.eqb (Settlement.toUser s) reqUser) eqn:E2.
    + apply String.eqb_eq in E2.
      cbn [negb andb fst snd code settlements expenses groups withSettlements].
      apply Hdone. split; [|tauto]. intros _. exists s.
      split; [reflexivity | tauto].
    + apply String.eqb_neq in E1. apply String.eqb_neq in E2.
      cbn [negb andb fst snd code].
      split; [split; [discriminate|] | split; [discriminate | reflexivity]].
      intros (s' & H & [H'|H']); inversion H; subst; contradiction.
Qed.

Lemma deleteSettlement_outcome_witness :
  findById
    (settlements (snd (settlementHandlers.deleteSettlement dbPending "A" "s1")))
    "s1" = None.
Proof.
  apply (deleteSettlement_outcome dbPending "A" "s1").
  - distinct_keys.
  - reflexivity.
Defined.

Lemma valid_status (s : Settlement.t) :
  Settlement.validate s = true ->
  (Settlement.status s = "pending" \/ Settlement.status s = "completed"
   \/ Settlement.status s = "cancelled") /\ 0 <= Settlement.amount s.
Proof.
  intro H. apply validate_fields in H as (Ha & Hs & _).
  apply Qle_bool_iff in Ha. split; [|exact Ha].
  unfold JS.includes in Hs. apply existsb_exists in Hs as (x & Hx & E).
  apply String.eqb_eq in E. subst x. simpl in Hx.
  destruct Hx as [<-|[<-|[<-|[]]]]; auto.
Qed.

Lemma by_status (l : list Settlement.t) :
  (forall s, In s l -> Settlement.validate s = true) ->
  List.length l
  = (List.length (filter (settlementHandlers.hasStatus "pending") l)
     + List.length (filter (settlementHandlers.hasStatus "completed") l)
     + List.length (filter (settlementHandlers.hasStatus "cancelled") l))%nat /\
  JS.reduce_sum Settlement.amount
    (filter (settlementHandlers.hasStatus "pending") l)
  + JS.reduce_sum Settlement.amount
      (filter (settlementHandlers.hasStatus "completed") l)
  <= JS.reduce_sum Settlement.amount l.
Proof.
  induction l as [|s l IH]; intro Hv.
  - split; [reflexivity|]. simpl. rewrite !reduce_sum_nil. lra.
  - destruct IH as [IHn IHa]; [intros x Hx; apply Hv; now right|].
    destruct (valid_status s) as [Hs Ha]; [apply Hv; now left|].
    rewrite (reduce_sum_cons _ s l).
    assert (P : forall v, settlementHandlers.hasStatus v s
                          = String.eqb (Settlement.status s) v) by reflexivity.
    cbn [filter]. rewrite !P.
    destruct Hs as [E|[E|E]]; rewrite E;
      cbv beta iota delta [String.eqb Ascii.eqb Bool.eqb];
      cbn [List.length]; rewrite ?reduce_sum_cons; (split; [lia | lra]).
Qed.

(** X8. When every stored settlement satisfies the schema, the statistics
    of a user add up: [total] is [pending + completed + cancelled], and,
    in exact arithmetic, [pendingAmount + completedAmount] does not
    exceed [totalAmount]. *)
Theorem stats_add_up (db : DB) (reqUser : string) (groupId : option string) :
  settlementsValid db ->
  let st := settlementHandlers.getSettlementStats db reqUser groupId in
  settlementHandlers.total st
  = (settlementHandlers.pending st + settlementHandlers.completed st
     + settlementHandlers.cancelled st)%nat /\
  settlementHandlers.pendingAmount st + settlementHandlers.completedAmount st
  <= settlementHandlers.totalAmount st.
Proof.
  intros Hv st. unfold st, settlementHandlers.getSettlementStats.
  cbn [settlementHandlers.total settlementHandlers.pending
       settlementHandlers.completed settlementHandlers.cancelled
       settlementHandlers.pendingAmount settlementHandlers.completedAmount
       settlementHandlers.totalAmount].
  apply by_status. intros s Hs. apply filter_In in Hs as [Hs _].
  apply in_map_iff in Hs as ([id s'] & E & Hin). simpl in E. subst s'.
  exact (Hv id s Hin).
Qed.

Lemma stats_add_up_witness :
  settlementHandlers.total (settlementHandlers.getSettlementStats dbCompleted "A" None)
  = (settlementHandlers.pending
       (settlementHandlers.getSettlementStats dbCompleted "A" None)
     + settlementHandlers.completed
         (settlementHandlers.getSettlementStats dbCompleted "A" None)
     + settlementHandlers.cancelled
         (settlementHandlers.getSettlementStats dbCompleted "A" None))%nat.
Proof.
  apply (stats_add_up dbCompleted "A" None).
  intros id s [H|[]]. inversion H; subst. reflexivity.
Defined.


(** ** Status updates: who and what *)

Lemma sameElsewhere_refl (id : string) (db : DB) : sameElsewhere id db db.
Proof. repeat split. Qed.

Lemma sameElsewhere_trans (id : string) (db1 db2 db3 : DB) :
  sameElsewhere id db1 db2 -> sameElsewhere id db2 db3 ->
  sameElsewhere id db1 db3.
Proof.
  intros (H1 & E1 & G1) (H2 & E2 & G2). repeat split.
  - intros id' Hne. rewrite (H2 id' Hne). now apply H1.
  - congruence.
  - congruence.
Qed.

Lemma sameElsewhere_save (now : Z) (id : string) (s s' : Settlement.t)
  (db db' : DB) :
  SettlementDoc.save now id s db = Some (s', db') -> sameElsewhere id db db'.
Proof.
  unfold SettlementDoc.save. destruct (Settlement.validate s); [|discriminate].
  intro H. inversion H; subst. repeat split.
  intros id' Hne. simpl. now apply findById_write_other.
Qed.

Lemma sameElsewhere_saveDropped (now : Z) (id : string) (s : Settlement.t)
  (db : DB) :
  sameElsewhere id db (snd (SettlementDoc.saveDropped now id s db)).
Proof.
  unfold SettlementDoc.saveDropped.
  destruct (SettlementDoc.save now id s db) as [[s' db']|] eqn:E; simpl.
  - now apply sameElsewhere_save in E.
  - apply sameElsewhere_refl.
Qed.

Lemma update_paths (parallelSaveError : bool) (db : DB) (now : Z)
  (reqUser id : string) (b : settlementController.body) :
  let r := settlementController.updateSettlementStatus parallelSaveError
             db now reqUser id b in
  (findById (settlements db) id = None ->
   r = (mkResponse 404 "Settlement not found." None, db)) /\
  (forall s, findById (settlements db) id = Some s ->
     Settlement.fromUser s <> reqUser -> Settlement.toUser s <> reqUser ->
     r = (mkResponse 403 "Access denied." None, db)) /\
  sameElsewhere id db (snd r).
Proof.
  unfold settlementController.updateSettlementStatus.
  destruct (findById (settlements db) id) as [s|] eqn:F.
  2:{ cbn. repeat split; try discriminate; auto. }
  split; [discriminate|].
  destruct (negb (String.eqb (Settlement.fromUser s) reqUser)
            && negb (String.eqb (Settlement.toUser s) reqUser)) eqn:G.
  - split; [reflexivity | apply sameElsewhere_refl].
  - split.
    + intros s' E N1 N2. inversion E; subst s'.
      apply String.eqb_neq in N1. apply String.eqb_neq in N2.
      rewrite N1, N2 in G. discriminate G.
    + cbv zeta.
      set (s3 := settlementController.assignFields b s).
      assert (H1 : sameElsewhere id db
                     (snd (snd (settlementController.statusMethods now id
                                  (settlementController.status b) s3 db)))).
      { unfold settlementController.statusMethods,
          SettlementDoc.markCompleted, SettlementDoc.cancel.
        destruct (JS.strictEq (settlementController.status b) "completed");
          [|destruct (JS.strictEq (settlementController.status b) "cancelled")];
          cbn [fst snd];
          first [apply sameElsewhere_saveDropped | apply sameElsewhere_refl]. }
      set (r := settlementController.statusMethods now id
                  (settlementController.status b) s3 db) in *.
      unfold settlementController.awaitSave.
      destruct (fst r && parallelSaveError); [exact H1|].
      destruct (SettlementDoc.save now id (fst (snd r)) (snd (snd r)))
        as [[s5 db2]|] eqn:Es; cbn [snd]; [|exact H1].
      apply sameElsewhere_save in Es.
      exact (sameElsewhere_trans _ _ _ _ H1 Es).
Qed.

(** X10. [updateSettlementStatus] answers 500 for an id that is not an
    [ObjectId], 404 for an [ObjectId] that names no stored settlement
    and 403 for a requester who is neither [fromUser] nor [toUser] of
    the settlement, in each case without writing; and whatever the
    request, it touches no settlement other than the one named, no
    expense and no group. *)
Theorem update_only_by_party (isObjectId : string -> bool)
  (parallelSaveError : bool) (db : DB) (now : Z) (reqUser id : string)
  (b : settlementController.body) :
  let r := settlementHandlers.updateSettlementStatus isObjectId
             parallelSaveError db now reqUser id b in
  (isObjectId id = false -> r = (mkResponse 500 "Server error." None, db)) /\
  (isObjectId id = true ->
   findById (settlements db) id = None ->
   r = (mkResponse 404 "Settlement not found." None, db)) /\
  (isObjectId id = true ->
   forall s, findById (settlements db) id = Some s ->
     Settlement.fromUser s <> reqUser -> Settlement.toUser s <> reqUser ->
     r = (mkResponse 403 "Access denied." None, db)) /\
  sameElsewhere id db (snd r).
Proof.
  unfold settlementHandlers.updateSettlementStatus.
  destruct (update_paths parallelSaveError db now reqUser id b)
    as (H404 & H403 & Hsame).
  destruct (isObjectId id).
  - split; [discriminate|]. split; [intros _; exact H404|].
    split; [intros _; exact H403 | exact Hsame].
  - split; [reflexivity|]. split; [discriminate|]. split; [discriminate|].
    apply sameElsewhere_refl.
Qed.

(** ** The methods of the Expense model *)

(** X11. What is paid and what is unpaid make up the whole:
    [getTotalPaid() + getTotalUnpaid()] is the sum of the amounts of all
    the splits of the expense. *)
Theorem paid_plus_unpaid (e : Expense.t) :
  ExpenseMethods.getTotalPaid e + ExpenseMethods.getTotalUnpaid e
  == owedTotal (Expense.splits e).
Proof.
  unfold ExpenseMethods.getTotalPaid, ExpenseMethods.getTotalUnpaid, owedTotal.
  induction (Expense.splits e) as [|s ss IH]; simpl.
  - rewrite !reduce_sum_nil. ring.
  - rewrite (reduce_sum_cons _ s ss).
    destruct (Split.isPaid s); simpl; rewrite reduce_sum_cons, <- IH; ring.
Qed.

Lemma setIsPaidOfFirst_shape (u : string) (ss ss' : list Split.t) :
  ExpenseDoc.setIsPaidOfFirst u ss = Some ss' ->
  exists before s after,
    ss = (before ++ s :: after)%list /\
    Split.user s = u /\
    (forall x, In x before -> Split.user x <> u) /\
    ss' = (before ++ ExpenseDoc.withIsPaid true s :: after)%list.
Proof.
  revert ss'. induction ss as [|s ss IH]; intros ss' H; simpl in H.
  - discriminate.
  - destruct (String.eqb (Split.user s) u) eqn:E.
    + apply String.eqb_eq in E. inversion H; subst.
      exists [], s, ss. repeat split. intros x [].
    + destruct (ExpenseDoc.setIsPaidOfFirst u ss) as [r|]; [|discriminate].
      inversion H; subst.
      destruct (IH r eq_refl) as (before & x & after & -> & Hu & Hb & ->).
      exists (s :: before), x, after. repeat split; auto.
      intros y [<-|Hy]; [now apply String.eqb_neq | now apply Hb].
Qed.

Lemma setIsPaidOfFirst_none (u : string) (ss : list Split.t) :
  ExpenseDoc.setIsPaidOfFirst u ss = None
  <-> forall x, In x ss -> Split.user x <> u.
Proof.
  induction ss as [|s ss IH]; simpl.
  - split; [intros _ x [] | reflexivity].
  - destruct (String.eqb (Split.user s) u) eqn:E.
    + apply String.eqb_eq in E. split; [discriminate|].
      intro H. exfalso. apply (H s); [now left | exact E].
    + apply String.eqb_neq in E.
      destruct (ExpenseDoc.setIsPaidOfFirst u ss) as [r|]; simpl.
      * split; [discriminate|]. intro H.
        assert (N : Some r = None)
          by (apply IH; intros x Hx; apply H; now right).
        discriminate N.
      * split; [|reflexivity]. intros _ x [<-|Hx]; [exact E|].
        apply IH; [reflexivity | exact Hx].
Qed.

Lemma setIsPaidOfFirst_again (u : string) (ss ss' : list Split.t) :
  ExpenseDoc.setIsPaidOfFirst u ss = Some ss' ->
  ExpenseDoc.setIsPaidOfFirst u ss' = Some ss'.
Proof.
  revert ss'. induction ss as [|s ss IH]; intros ss' H; simpl in H.
  - discriminate.
  - destruct (String.eqb (Split.user s) u) eqn:E.
    + inversion H; subst. simpl. now rewrite E.
    + destruct (ExpenseDoc.setIsPaidOfFirst u ss) as [r|]; [|discriminate].
      inversion H; subst. simpl. rewrite E. now rewrite (IH r eq_refl).
Qed.

Lemma validate_setSplits_paid (e : Expense.t) (ss : list Split.t) :
  map Split.amount ss = map Split.amount (Expense.splits e) ->
  map Split.percentage ss = map Split.percentage (Expense.splits e) ->
  Expense.validate (Expense.setSplits ss e) = Expense.validate e.
Proof.
  intros Ha Hp. unfold Expense.validate. simpl.
  assert (E : forallb Expense.validSplit ss
              = forallb Expense.validSplit (Expense.splits e)).
  { revert Ha Hp. generalize (Expense.splits e) as ts.
    induction ss as [|s ss IH]; intros [|t ts] Ha Hp; try discriminate.
    - reflexivity.
    - simpl in Ha, Hp. injection Ha as Ha1 Ha2. injection Hp as Hp1 Hp2.
      simpl. rewrite (IH ts Ha2 Hp2). unfold Expense.validSplit.
      now rewrite Ha1, Hp1. }
  now rewrite E.
Qed.

(** X12. The model's [markSplitAsPaid] marks the first split of the user
    and nothing else: when it succeeds the stored splits are the old
    ones with that split paid, and marking again changes nothing more.
    It throws exactly when no split names the user or the document
    fails validation. *)
Theorem model_markSplitAsPaid (now : Z) (id u : string) (e : Expense.t)
  (db : DB) :
  (ExpenseDoc.markSplitAsPaid now id u e db = None <->
   (forall x, In x (Expense.splits e) -> Split.user x <> u)
   \/ Expense.validate e = false) /\
  (forall e' db',
     ExpenseDoc.markSplitAsPaid now id u e db = Some (e', db') ->
     findById (expenses db') id = Some e' /\
     (exists before s after,
        Expense.splits e = (before ++ s :: after)%list /\
        Split.user s = u /\
        (forall x, In x before -> Split.user x <> u) /\
        Expense.splits e'
        = (before ++ ExpenseDoc.withIsPaid true s :: after)%list) /\
     ExpenseDoc.setIsPaidOfFirst u (Expense.splits e')
     = Some (Expense.splits e')).
Proof.
  unfold ExpenseDoc.markSplitAsPaid.
  destruct (ExpenseDoc.setIsPaidOfFirst u (Expense.splits e)) as [ss|] eqn:F.
  - destruct (setIsPaidOfFirst_shape _ _ _ F) as (before & s & after & Hs & Hu & Hb & Hss).
    assert (V : Expense.validate (Expense.setSplits ss e) = Expense.validate e).
    { apply validate_setSplits_paid; rewrite Hs, Hss, !map_app; reflexivity. }
    unfold ExpenseDoc.save. rewrite V.
    destruct (Expense.validate e) eqn:Ve.
    + split.
      * split; [discriminate|]. intros [H|H]; [|discriminate].
        exfalso. apply (H s); [|exact Hu].
        rewrite Hs. apply in_or_app. right. now left.
      * intros e' db' H. inversion H; subst e' db'. simpl.
        rewrite findById_write_same. repeat split.
        -- exists before, s, after. repeat split; auto.
        -- now apply setIsPaidOfFirst_again in F.
    + split; [split; auto | discriminate].
  - split; [|discriminate]. split; [|reflexivity].
    intros _. left. now apply setIsPaidOfFirst_none.
Qed.

Lemma sum_of_shares {A : Type} (c : Q) (xs : list A) (f : A -> Split.t) :
  (forall x, Split.amount (f x) = c) ->
  xs <> [] ->
  owedTotal (map f xs) == inject_Z (Z.of_nat (List.length xs)) * c.
Proof.
  intros Hf _. unfold owedTotal. rewrite reduce_sum_map.
  rewrite (reduce_sum_ext _ (fun _ => c)).
  - apply reduce_sum_const.
  - intros x _. now rewrite Hf.
Qed.

Lemma length_positive {A : Type} (xs : list A) :
  xs <> [] -> ~ inject_Z (Z.of_nat (List.length xs)) == 0.
Proof.
  destruct xs as [|x xs]; [congruence|]. intros _. simpl List.length.
  rewrite Nat2Z.inj_succ. unfold Z.succ. rewrite inject_Z_plus.
  pose proof (Nat2Z.is_nonneg (List.length xs)) as Hp.
  rewrite Zle_Qle in Hp. change (inject_Z 0) with 0 in Hp.
  change (inject_Z 1) with 1. lra.
Qed.

(** X13. [calculateEqualSplits] on a non-empty list of members stores one
    unpaid split per member, in order; the amounts sum to the amount of
    the expense and the percentages to 100 (in exact arithmetic). *)
Theorem calculateEqualSplits_result (now : Z) (id : string)
  (memberIds : list string) (e e' : Expense.t) (db db' : DB) :
  memberIds <> [] ->
  ExpenseMethods.calculateEqualSplits now id memberIds e db = Some (e', db') ->
  findById (expenses db') id = Some e' /\
  Expense.splitType e' = "equal" /\
  map Split.user (Expense.splits e') = memberIds /\
  Forall (fun s => Split.isPaid s = false) (Expense.splits e') /\
  owedTotal (Expense.splits e') == Expense.amount e /\
  percentageTotalOf (Expense.splits e') == 100.
Proof.
  intros Hne H. unfold ExpenseMethods.calculateEqualSplits, ExpenseDoc.save in H.
  match type of H with
  | context [if ?c then _ else _] => destruct c; [|discriminate]
  end.
  inversion H; subst e' db'; clear H. simpl.
  rewrite findById_write_same. pose proof (length_positive memberIds Hne) as Hn.
  repeat split.
  - rewrite map_map. simpl. apply map_id.
  - apply Forall_forall. intros s Hs. apply in_map_iff in Hs as (x & <- & _).
    reflexivity.
  - rewrite sum_of_shares with (c := Expense.amount e
                                      / inject_Z (Z.of_nat (List.length memberIds)));
      auto. now field.
  - unfold percentageTotalOf. rewrite reduce_sum_map. simpl.
    rewrite reduce_sum_const. now field.
Qed.

Lemma calculateEqualSplits_result_witness :
  match ExpenseMethods.calculateEqualSplits 9 "e1" ["A"; "B"; "C"; "D"]
          scenario1 dbLedger with
  | Some (e', _) => owedTotal (Expense.splits e') == Expense.amount scenario1
  | None => False
  end.
Proof.
  destruct (ExpenseMethods.calculateEqualSplits 9 "e1" ["A"; "B"; "C"; "D"]
              scenario1 dbLedger) as [[e' db']|] eqn:E.
  - apply (calculateEqualSplits_result 9 "e1" ["A"; "B"; "C"; "D"] scenario1
             e' dbLedger db'); [discriminate | exact E].
  - vm_compute in E. discriminate E.
Defined.

(** X14. The model's [calculatePercentageSplits] and [setCustomSplits]
    compute what [createExpense] computes for the same directive: they
    throw where the handler answers 400, and otherwise store the very
    splits the handler would store. [updateExpense] computes the same
    users and amounts for a custom split, without the percentages. *)
Theorem model_methods_agree (now : Z) (id : string) (e : Expense.t) (db : DB)
  (eps : list expenseController.ref) (eps' : list string)
  (shares : list Share.t) (portions : list Portion.t) :
  match expenseController.calculateSplits "percentage" (Expense.amount e) eps
          (map ofShare shares) with
  | inl _ => ExpenseMethods.calculatePercentageSplits now id shares e db = None
  | inr ss =>
      forall e' db',
        ExpenseMethods.calculatePercentageSplits now id shares e db
        = Some (e', db') ->
        ss = Some (Expense.splits e')
  end /\
  match expenseController.calculateSplits "custom" (Expense.amount e) eps
          (map ofPortion portions) with
  | inl _ => ExpenseMethods.setCustomSplits now id portions e db = None
  | inr ss =>
      forall e' db',
        ExpenseMethods.setCustomSplits now id portions e db = Some (e', db') ->
        ss = Some (Expense.splits e') /\
        option_map (map (fun s => (Split.user s, Split.amount s)))
          match expenseHandlers.recalculateSplits "custom" (Expense.amount e)
                  eps' (map ofPortion portions) with
          | inl _ => None
          | inr r => r
          end
        = Some (map (fun s => (Split.user s, Split.amount s)) (Expense.splits e'))
  end.
Proof.
  assert (Hsum1 : JS.reduce_sum CustomSplit.percentage (map ofShare shares)
                  = JS.reduce_sum Share.percentage shares).
  { unfold JS.reduce_sum. generalize 0.
    induction shares as [|s ss IH]; intro a; simpl; auto. }
  assert (Hsum2 : JS.reduce_sum CustomSplit.amount (map ofPortion portions)
                  = JS.reduce_sum Portion.amount portions).
  { unfold JS.reduce_sum. generalize 0.
    induction portions as [|s ss IH]; intro a; simpl; auto. }
  split.
  - unfold expenseController.calculateSplits,
      ExpenseMethods.calculatePercentageSplits.
    change (String.eqb "percentage" "equal") with false.
    change (String.eqb "percentage" "percentage") with true. cbv iota.
    rewrite Hsum1.
    destruct (JS.gt (Qabs (JS.reduce_sum Share.percentage shares - 100)) epsilon);
      [reflexivity|].
    intros e' db' H. unfold ExpenseDoc.save in H.
    match type of H with
    | context [if ?c then _ else _] => destruct c; [|discriminate]
    end.
    inversion H; subst. simpl. now rewrite map_map.
  - unfold expenseController.calculateSplits, ExpenseMethods.setCustomSplits,
      expenseHandlers.recalculateSplits.
    change (String.eqb "custom" "equal") with false.
    change (String.eqb "custom" "percentage") with false.
    change (String.eqb "custom" "custom") with true. cbv iota.
    rewrite Hsum2.
    destruct (JS.gt (Qabs (JS.reduce_sum Portion.amount portions
                           - Expense.amount e)) epsilon);
      [reflexivity|].
    intros e' db' H. unfold ExpenseDoc.save in H.
    match type of H with
    | context [if ?c then _ else _] => destruct c; [|discriminate]
    end.
    inversion H; subst. simpl. rewrite !map_map. split; reflexivity.
Qed.

(** ** Creating an expense *)

Lemma calculateSplits_unpaid (st : string) (a : Q)
  (eps : list expenseController.ref) (cs : list CustomSplit.t)
  (ss : list Split.t) :
  expenseController.calculateSplits st a eps cs = inr (Some ss) ->
  Forall (fun s => Split.isPaid s = false) ss.
Proof.
  unfold expenseController.calculateSplits. intro H.
  apply Forall_forall. intros s Hs.
  destruct (String.eqb st "equal").
  - inversion H; subst. apply in_map_iff in Hs as (x & <- & _). reflexivity.
  - destruct (String.eqb st "percentage").
    + destruct (JS.gt _ _); [discriminate|]. inversion H; subst.
      apply in_map_iff in Hs as (x & <- & _). reflexivity.
    + destruct (String.eqb st "custom"); [|discriminate].
      destruct (JS.gt _ _); [discriminate|]. inversion H; subst.
      apply in_map_iff in Hs as (x & <- & _). reflexivity.
Qed.

Lemma resolve_refusal (db : DB) (reqUser : string) (b : expenseController.body)
  (early : response Expense.t) :
  expenseController.resolveParticipants db reqUser b = inl early ->
  code early <> 201%nat /\ payload early = None.
Proof.
  unfold expenseController.resolveParticipants.
  destruct (JS.truthy (expenseController.groupId b)).
  - destruct (findById (groups db) _) as [grp|].
    + destruct (negb (Group.isMember grp reqUser)); intro H; inversion H.
      split; [discriminate | reflexivity].
    + intro H; inversion H. split; [discriminate | reflexivity].
  - destruct (expenseController.participants b); intro H; inversion H.
    split; [discriminate | reflexivity].
Qed.

Lemma createWith_refusal (db : DB) (now : Z) (newId reqUser : string)
  (b : expenseController.body) (g : option string)
  (eps0 : list expenseController.ref) :
  code (fst (expenseController.createWith db now newId reqUser b g eps0))
  <> 201%nat ->
  snd (expenseController.createWith db now newId reqUser b g eps0) = db.
Proof.
  unfold expenseController.createWith.
  destruct (expenseController.calculateSplits _ _ _ _) as [msg|ss];
    [reflexivity|].
  match goal with
  | |- context [if Expense.validate ?d then _ else _] =>
      destruct (Expense.validate d)
  end; [|reflexivity].
  simpl. intro H. now contradiction H.
Qed.

(** X15. [createExpense] writes all or nothing. An answer other than 201
    leaves the database as it was. On a 201 the new expense goes last in
    the collection under the new id and nothing else changes; it
    satisfies the schema, is in LKR, was created at the time of the
    request, and every one of its splits is unpaid. *)
Theorem createExpense_outcome (db : DB) (now : Z) (newId reqUser : string)
  (b : expenseController.body) :
  let r := expenseController.createExpense db now newId reqUser b in
  (code (fst r) <> 201%nat -> snd r = db) /\
  (forall e, payload (fst r) = Some e ->
     code (fst r) = 201%nat /\
     snd r = mkDB (expenses db ++ [(newId, e)]) (groups db) (settlements db) /\
     Expense.validate e = true /\
     Expense.currency e = "LKR" /\
     Expense.createdAt e = now /\
     Expense.amount e = expenseController.amount b /\
     Forall (fun s => Split.isPaid s = false) (Expense.splits e)).
Proof.
  unfold expenseController.createExpense.
  destruct (expenseController.resolveParticipants db reqUser b)
    as [early|[g eps0]] eqn:Er.
  - apply resolve_refusal in Er as [_ Hp]. cbn [fst snd]. split; [reflexivity|].
    intros e He. congruence.
  - split; [apply createWith_refusal|].
    intros e He. pose proof He as He'.
    apply createWith_created in He.
    destruct He as (ss & Hc & Ha & _ & Hs & Hv & Hcode & Hdb).
    repeat split; auto.
    + unfold expenseController.createWith in He'.
      rewrite Hc in He'.
      destruct (Expense.validate _) in He'; [|discriminate].
      simpl in He'. injection He' as <-. destruct ss; reflexivity.
    + unfold expenseController.createWith in He'.
      rewrite Hc in He'.
      destruct (Expense.validate _) in He'; [|discriminate].
      simpl in He'. injection He' as <-. destruct ss; reflexivity.
    + rewrite Hs. destruct ss as [l|]; [|constructor].
      now apply calculateSplits_unpaid in Hc.
Qed.

Lemma includes_In_toString (eps : list expenseController.ref) (u : string) :
  expenseController.includes eps u = true ->
  In u (map expenseController.toString eps).
Proof.
  unfold expenseController.includes. intro H.
  apply existsb_exists in H as (r & Hr & E). destruct r as [h|t]; [discriminate|].
  apply String.eqb_eq in E. subst t.
  apply in_map_iff. exists (expenseController.Str u). split; [reflexivity | exact Hr].
Qed.

Lemma pushIfMissing_has (eps : list expenseController.ref) (u : string) :
  In u (map expenseController.toString (expenseController.pushIfMissing eps u)).
Proof.
  unfold expenseController.pushIfMissing.
  destruct (expenseController.includes eps u) eqn:E.
  - now apply includes_In_toString.
  - rewrite map_app. apply in_or_app. right. now left.
Qed.

Lemma pushIfMissing_keeps (eps : list expenseController.ref) (u v : string) :
  In v (map expenseController.toString eps) ->
  In v (map expenseController.toString (expenseController.pushIfMissing eps u)).
Proof.
  unfold expenseController.pushIfMissing. intro H.
  destruct (expenseController.includes eps u); [exact H|].
  rewrite map_app. apply in_or_app. now left.
Qed.

Lemma fold_push_keeps (pbm : list Payer.t) (eps : list expenseController.ref)
  (v : string) :
  In v (map expenseController.toString eps) ->
  In v (map expenseController.toString
          (fold_left (fun acc payer =>
                        expenseController.pushIfMissing acc (Payer.user payer))
             pbm eps)).
Proof.
  revert eps. induction pbm as [|p pbm IH]; intros eps H; simpl; [exact H|].
  apply IH. now apply pushIfMissing_keeps.
Qed.

Lemma fold_push_has (pbm : list Payer.t) (eps : list expenseController.ref)
  (p : Payer.t) :
  In p pbm ->
  In (Payer.user p)
    (map expenseController.toString
       (fold_left (fun acc payer =>
                     expenseController.pushIfMissing acc (Payer.user payer))
          pbm eps)).
Proof.
  revert eps. induction pbm as [|q pbm IH]; intros eps H; [destruct H|].
  simpl. destruct H as [->|H].
  - apply fold_push_keeps, pushIfMissing_has.
  - now apply IH.
Qed.

(** X16. In an equal split [createExpense] gives every listed payer a
    split, and the requester one when no payer is listed ("Ensure the
    person(s) who paid are always included in the split"). *)
Theorem payers_are_in_equal_split (db : DB) (now : Z) (newId reqUser : string)
  (b : expenseController.body) (e : Expense.t) :
  payload (fst (expenseController.createExpense db now newId reqUser b))
  = Some e ->
  Expense.splitType e = "equal" ->
  (forall p, In p (expenseController.paidByMultiple b) ->
     In (Payer.user p) (map Split.user (Expense.splits e))) /\
  (expenseController.paidByMultiple b = [] ->
   In reqUser (map Split.user (Expense.splits e))).
Proof.
  unfold expenseController.createExpense.
  destruct (expenseController.resolveParticipants db reqUser b)
    as [early|[g eps0]] eqn:Er.
  - apply resolve_refusal in Er as [_ Hp]. cbn [fst]. congruence.
  - intros He Ht. apply createWith_created in He.
    destruct He as (ss & Hc & _ & Hst & Hs & _).
    rewrite Hst in Ht. rewrite Ht in Hc.
    unfold expenseController.calculateSplits in Hc. simpl String.eqb in Hc.
    cbv iota in Hc. inversion Hc; subst ss; clear Hc. rewrite Hs, map_map.
    simpl. unfold expenseController.withPayers. split.
    + intros p Hp. destruct (expenseController.paidByMultiple b) as [|q pbm] eqn:Eq;
        [destruct Hp|].
      now apply fold_push_has.
    + intros ->. apply pushIfMissing_has.
Qed.

Lemma payers_are_in_equal_split_witness :
  exists e,
    payload (fst (expenseController.createExpense dbTrip 5 "e9" "A" equalRequest))
    = Some e /\
    In "A" (map Split.user (Expense.splits e)).
Proof.
  eexists. split; [vm_compute; reflexivity|].
  apply (payers_are_in_equal_split dbTrip 5 "e9" "A" equalRequest);
    vm_compute; reflexivity.
Defined.

Lemma includes_objectIds (ms : list Group.member) (u : string) :
  expenseController.includes
    (map (fun member => expenseController.ObjectId (Group.user member)) ms) u
  = false.
Proof.
  unfold expenseController.includes. induction ms as [|m ms IH]; simpl; auto.
Qed.

(** X17. On a group expense without listed payers, the equal split of
    [createExpense] has one split per member of the group and one more
    for the requester, member or not: [includes] looks for the
    requester's id as a string among the members' [ObjectId]s and never
    finds it. A requester who is a member gets two splits. *)
Theorem group_equal_split_adds_requester (db : DB) (now : Z)
  (newId reqUser gid : string) (b : expenseController.body)
  (group : Group.t) (e : Expense.t) :
  expenseController.groupId b = Some gid ->
  gid <> "" ->
  findById (groups db) gid = Some group ->
  expenseController.paidByMultiple b = [] ->
  expenseController.splitType b = None
  \/ expenseController.splitType b = Some "equal" ->
  payload (fst (expenseController.createExpense db now newId reqUser b))
  = Some e ->
  map Split.user (Expense.splits e)
  = (map Group.user (Group.members group) ++ [reqUser])%list /\
  Forall (fun s =>
            Split.amount s
            == expenseController.amount b
               / inject_Z (Z.of_nat (S (List.length (Group.members group)))))
    (Expense.splits e).
Proof.
  intros Hg Hne Hf Hp Hst.
  unfold expenseController.createExpense, expenseController.resolveParticipants.
  rewrite Hg. cbn [expenseController.orDefault].
  assert (T : JS.truthy (Some gid) = true).
  { destruct gid; [congruence | reflexivity]. }
  rewrite T, Hf.
  destruct (negb (Group.isMember group reqUser)); [cbn; discriminate|].
  intro He. apply createWith_created in He.
  destruct He as (ss & Hc & _ & _ & Hs & _).
  assert (E : expenseController.orDefault "equal" (expenseController.splitType b)
              = "equal") by (destruct Hst as [-> | ->]; reflexivity).
  rewrite E, Hp in Hc. unfold expenseController.calculateSplits in Hc.
  simpl String.eqb in Hc. cbv iota in Hc.
  unfold expenseController.withPayers, expenseController.pushIfMissing in Hc.
  rewrite includes_objectIds in Hc. inversion Hc; subst ss; clear Hc.
  rewrite Hs. split.
  - rewrite map_map, map_app, map_map. reflexivity.
  - apply Forall_forall. intros s Hin. apply in_map_iff in Hin as (x & <- & _).
    simpl. rewrite length_app, length_map. simpl.
    replace (List.length (Group.members group) + 1)%nat
      with (S (List.length (Group.members group))) by lia.
    reflexivity.
Qed.

Lemma group_equal_split_adds_requester_witness :
  exists e,
    payload (fst (expenseController.createExpense dbTrip 5 "e9" "A" equalRequest))
    = Some e /\
    map Split.user (Expense.splits e) = ["A"; "B"; "C"; "A"].
Proof.
  eexists. split; [vm_compute; reflexivity|].
  apply (group_equal_split_adds_requester dbTrip 5 "e9" "A" "g" equalRequest trip);
    try reflexivity.
  - discriminate.
  - now left.
Defined.

(** ** Editing and deleting an expense *)

Lemma recalculated (st : string) (a : Q) (eps : list string)
  (cs : list CustomSplit.t) (ss : option (list Split.t)) :
  JS.includes Expense.splitTypes st = true ->
  expenseHandlers.recalculateSplits st a eps cs = inr ss ->
  exists l, ss = Some l /\ Forall (fun s => Split.isPaid s = false) l.
Proof.
  unfold expenseHandlers.recalculateSplits. intros Hin H.
  destruct (String.eqb st "equal") eqn:E1.
  - inversion H; subst. eexists. split; [reflexivity|].
    apply Forall_forall. intros s Hs. apply in_map_iff in Hs as (x & <- & _).
    reflexivity.
  - destruct (String.eqb st "percentage") eqn:E2.
    + destruct (JS.gt _ _); [discriminate|]. inversion H; subst.
      eexists. split; [reflexivity|].
      apply Forall_forall. intros s Hs. apply in_map_iff in Hs as (x & <- & _).
      reflexivity.
    + destruct (String.eqb st "custom") eqn:E3.
      * destruct (JS.gt _ _); [discriminate|]. inversion H; subst.
        eexists. split; [reflexivity|].
        apply Forall_forall. intros s Hs. apply in_map_iff in Hs as (x & <- & _).
        reflexivity.
      * exfalso. unfold JS.includes in Hin. simpl in Hin.
        rewrite (String.eqb_sym st "equal"), (String.eqb_sym st "percentage"),
          (String.eqb_sym st "custom") in *.
        rewrite E1, E2, E3 in Hin. discriminate Hin.
Qed.

Lemma validate_splitType (e : Expense.t) :
  Expense.validate e = true ->
  JS.includes Expense.splitTypes (Expense.splitType e) = true.
Proof.
  unfold Expense.validate. rewrite !andb_true_iff. tauto.
Qed.

(** X18. [updateExpense] writes all or nothing, and only for the payer of
    the expense or an admin of its group. An answer other than 200
    leaves the database as it was. On a 200 the expense is stored with
    the new amount; its group, currency, receipt and creation time are
    kept, and no other document changes. When the request carries a
    [splitType] it is one of the three and every split is unpaid,
    whatever was marked paid before; when it carries none, the splits
    are the old ones, paid flags included, under the new amount. *)
Theorem updateExpense_outcome (userExists : string -> bool) (db : DB)
  (now : Z) (reqUser id : string) (b : expenseHandlers.body) :
  let r := expenseHandlers.updateExpense userExists db now reqUser id b in
  (code (fst r) <> 200%nat -> snd r = db) /\
  (forall e', payload (fst r) = Some e' ->
     exists e,
       findById (expenses db) id = Some e /\
       userExists (Expense.paidBy e) = true /\
       expenseHandlers.mayEdit db reqUser e = true /\
       findById (expenses (snd r)) id = Some e' /\
       sameOtherExpenses id db (snd r) /\
       Expense.amount e' = expenseHandlers.amount b /\
       (forall t, expenseHandlers.splitType b = Some t ->
          In t Expense.splitTypes /\
          Forall (fun s => Split.isPaid s = false) (Expense.splits e')) /\
       (expenseHandlers.splitType b = None ->
        Expense.splits e' = Expense.splits e) /\
       Expense.group e' = Expense.group e /\
       Expense.currency e' = Expense.currency e /\
       Expense.receipt e' = Expense.receipt e /\
       Expense.createdAt e' = Expense.createdAt e /\
       Expense.updatedAt e' = now).
Proof.
  unfold expenseHandlers.updateExpense.
  destruct (findById (expenses db) id) as [e|] eqn:F;
    [|cbn; split; [reflexivity | discriminate]].
  destruct (userExists (Expense.paidBy e)) eqn:U;
    [|cbn; split; [reflexivity | discriminate]].
  destruct (expenseHandlers.mayEdit db reqUser e) eqn:M;
    [|cbn; split; [reflexivity | discriminate]].
  cbn [negb]. cbv iota zeta.
  match goal with
  | |- context [match ?i with Some _ => _ | None => (mkResponse 400 _ _, _) end] =>
      destruct i as [eps0|]
  end; [|cbn; split; [reflexivity | discriminate]].
  destruct (expenseHandlers.splitType b) as [t|] eqn:St.
  - destruct (expenseHandlers.recalculateSplits _ _ _ _) as [msg|ss] eqn:R;
      [cbn; split; [reflexivity | discriminate]|].
    unfold ExpenseDoc.save.
    match goal with
    | |- context [if Expense.validate ?d then _ else _] =>
        destruct (Expense.validate d) eqn:V
    end; [|cbn; split; [reflexivity | discriminate]].
    cbn [fst snd code payload expenses withExpenses].
    split; [intro H; now contradiction H|].
    intros e' He'. injection He' as <-. exists e.
    assert (Hin : JS.includes Expense.splitTypes t = true).
    { pose proof (validate_splitType _ V) as Hin.
      unfold expenseHandlers.assignFields in Hin. rewrite St in Hin.
      destruct ss; exact Hin. }
    apply (recalculated _ _ _ _ _ Hin) in R as (l & -> & Hl).
    split; [reflexivity|]. split; [exact U|]. split; [exact M|].
    split; [apply findById_write_same|].
    split; [split; [intros id' Hne; now apply findById_write_other
                   | split; reflexivity]|].
    split; [reflexivity|].
    split; [intros t' Ht'; injection Ht' as <-;
            split; [now apply In_includes | exact Hl]|].
    split; [discriminate|]. repeat split; reflexivity.
  - unfold ExpenseDoc.save.
    match goal with
    | |- context [if Expense.validate ?d then _ else _] =>
        destruct (Expense.validate d) eqn:V
    end; [|cbn; split; [reflexivity | discriminate]].
    cbn [fst snd code payload expenses withExpenses].
    split; [intro H; now contradiction H|].
    intros e' He'. injection He' as <-. exists e.
    split; [reflexivity|]. split; [exact U|]. split; [exact M|].
    split; [apply findById_write_same|].
    split; [split; [intros id' Hne; now apply findById_write_other
                   | split; reflexivity]|].
    split; [reflexivity|].
    split; [discriminate|]. repeat split; reflexivity.
Qed.

Lemma includes_false_In (xs : list string) (s : string) :
  JS.includes xs s = false -> ~ In s xs.
Proof.
  unfold JS.includes. intros H Hin.
  assert (T : existsb (String.eqb s) xs = true).
  { apply existsb_exists. exists s. split; [exact Hin | apply String.eqb_refl]. }
  congruence.
Qed.

Lemma pushIfMissing_NoDup (eps : list string) (u : string) :
  NoDup eps -> NoDup (expenseHandlers.pushIfMissing eps u).
Proof.
  intro H. unfold expenseHandlers.pushIfMissing.
  destruct (JS.includes eps u) eqn:E; [exact H|].
  apply includes_false_In in E. apply NoDup_app; repeat split; auto.
  - constructor; [intros [] | constructor].
  - intros x Hx [<-|[]]. contradiction.
Qed.

Lemma pushIfMissing_incl (eps : list string) (u v : string) :
  In v eps -> In v (expenseHandlers.pushIfMissing eps u).
Proof.
  intro H. unfold expenseHandlers.pushIfMissing.
  destruct (JS.includes eps u); [exact H | apply in_or_app; now left].
Qed.

Lemma withPayers_NoDup (eps : list string) (pbm : list Payer.t) (u : string) :
  NoDup eps ->
  NoDup (expenseHandlers.withPayers eps pbm u) /\
  (forall v, In v eps -> In v (expenseHandlers.withPayers eps pbm u)).
Proof.
  intro H. unfold expenseHandlers.withPayers. destruct pbm as [|p pbm].
  - split; [now apply pushIfMissing_NoDup | intros v; apply pushIfMissing_incl].
  - generalize (p :: pbm) as l. clear p pbm. intro l. revert eps H.
    induction l as [|q l IH]; intros eps H; simpl; [split; auto|].
    destruct (IH (expenseHandlers.pushIfMissing eps (Payer.user q))
                (pushIfMissing_NoDup _ _ H)) as [Hn Hi].
    split; [exact Hn|]. intros v Hv. apply Hi. now apply pushIfMissing_incl.
Qed.

(** X19. On an expense of a group whose members are distinct, the equal
    split of [updateExpense] has one split per participant: every member
    has a split and no user has two (the members' ids are compared as
    strings here). *)
Theorem update_equal_split_distinct (userExists : string -> bool) (db : DB)
  (now : Z) (reqUser id : string) (b : expenseHandlers.body)
  (e e' : Expense.t) (group : Group.t) :
  findById (expenses db) id = Some e ->
  expenseHandlers.populatedGroup db e = Some group ->
  NoDup (map Group.user (Group.members group)) ->
  expenseHandlers.splitType b = Some "equal" ->
  payload (fst (expenseHandlers.updateExpense userExists db now reqUser id b))
  = Some e' ->
  NoDup (map Split.user (Expense.splits e')) /\
  (forall m, In m (Group.members group) ->
     In (Group.user m) (map Split.user (Expense.splits e'))).
Proof.
  intros F G Hnd Hst. unfold expenseHandlers.updateExpense. rewrite F.
  destruct (negb (userExists (Expense.paidBy e))); [cbn; discriminate|].
  destruct (negb (expenseHandlers.mayEdit db reqUser e)); [cbn; discriminate|].
  cbv zeta. rewrite G, Hst.
  unfold expenseHandlers.recalculateSplits. simpl String.eqb. cbv iota.
  unfold ExpenseDoc.save.
  match goal with
  | |- context [if Expense.validate ?d then _ else _] =>
      destruct (Expense.validate d)
  end; [|cbn; discriminate].
  cbn [fst payload]. intro H. injection H as <-. simpl.
  rewrite map_map. simpl. rewrite map_id.
  destruct (withPayers_NoDup _ (expenseHandlers.paidByMultiple b) reqUser Hnd)
    as [Hn Hi].
  split; [exact Hn|]. intros m Hm. apply Hi. now apply in_map.
Qed.

Lemma update_equal_split_distinct_witness :
  match payload (fst (expenseHandlers.updateExpense knownUsers dbLedger 9
                        "A" "e1" editRequest)) with
  | Some e' => NoDup (map Split.user (Expense.splits e'))
  | None => False
  end.
Proof.
  destruct (payload (fst (expenseHandlers.updateExpense knownUsers dbLedger 9
                            "A" "e1" editRequest))) as [e'|] eqn:E.
  - apply (update_equal_split_distinct knownUsers dbLedger 9 "A" "e1"
             editRequest scenario1 e' trip);
      try reflexivity; [distinct_keys | exact E].
  - vm_compute in E. discriminate E.
Defined.

(** X20. [deleteExpense] answers 200 exactly when the expense exists,
    its payer exists, and the requester is its payer or an admin of its
    group; then, in a collection with distinct ids, the expense is gone
    and every other document is as before. Any other answer leaves the
    database as it was; an expense whose payer does not exist is
    answered 500, also to an admin of its group. *)
Theorem deleteExpense_outcome (userExists : string -> bool) (db : DB)
  (reqUser id : string) :
  NoDup (map fst (expenses db)) ->
  let r := expenseHandlers.deleteExpense userExists db reqUser id in
  (code (fst r) = 200%nat <->
   exists e, findById (expenses db) id = Some e /\
             userExists (Expense.paidBy e) = true /\
             expenseHandlers.mayEdit db reqUser e = true) /\
  (code (fst r) = 200%nat ->
   findById (expenses (snd r)) id = None /\ sameOtherExpenses id db (snd r)) /\
  (code (fst r) <> 200%nat -> snd r = db) /\
  (forall e, findById (expenses db) id = Some e ->
     userExists (Expense.paidBy e) = false ->
     r = (mkResponse 500 "Server error." None, db)).
Proof.
  intro Hnd. unfold expenseHandlers.deleteExpense.
  destruct (findById (expenses db) id) as [e|] eqn:F.
  2:{ cbn. repeat split; try discriminate; auto.
      intros (x & H & _). discriminate. }
  destruct (userExists (Expense.paidBy e)) eqn:U; cbn [negb].
  2:{ cbn [fst snd code].
      split; [split; [discriminate|]|].
      - intros (x & H & Hx & _). inversion H; subst. congruence.
      - split; [discriminate|]. split; reflexivity. }
  destruct (expenseHandlers.mayEdit db reqUser e) eqn:M;
    cbn [negb fst snd code expenses groups settlements withExpenses].
  - split; [split; [intros _; now exists e | reflexivity]|].
    split; [|split; [intro H; now contradiction H|]].
    + intros _. split; [now apply findById_removeById_same|].
      repeat split. intros id' Hne. now apply findById_removeById_other.
    + intros x H Hx. inversion H; subst. congruence.
  - split; [split; [discriminate|]|].
    + intros (x & H & _ & Hx). inversion H; subst. congruence.
    + split; [discriminate|]. split; [reflexivity|].
      intros x H Hx. inversion H; subst. congruence.
Qed.

Lemma deleteExpense_outcome_witness :
  findById
    (expenses (snd (expenseHandlers.deleteExpense knownUsers dbLedger "A" "e1")))
    "e1"
  = None.
Proof.
  apply (deleteExpense_outcome knownUsers dbLedger "A" "e1").
  - distinct_keys.
  - reflexivity.
Defined.

(** ** Expenses without a reachable group *)

Lemma no_group_500 (db : DB) (now : Z) (reqUser id userId : string)
  (e : Expense.t) :
  findById (expenses db) id = Some e ->
  expenseHandlers.populatedGroup db e = None ->
  expenseHandlers.getExpense db reqUser id = mkResponse 500 "Server error." None /\
  expenseController.markSplitAsPaid db now reqUser id userId
  = (mkResponse 500 "Server error." None, db).
Proof.
  intros F G. unfold expenseHandlers.getExpense, expenseController.markSplitAsPaid.
  rewrite F, G. unfold expenseHandlers.populatedGroup in G. rewrite G.
  split; reflexivity.
Qed.

Lemma createWith_group (db : DB) (now : Z) (newId reqUser : string)
  (b : expenseController.body) (g : option string)
  (eps0 : list expenseController.ref) (e : Expense.t) :
  payload (fst (expenseController.createWith db now newId reqUser b g eps0))
  = Some e ->
  Expense.group e = g.
Proof.
  unfold expenseController.createWith.
  destruct (expenseController.calculateSplits _ _ _ _) as [msg|ss];
    [cbn; discriminate|].
  match goal with
  | |- context [if Expense.validate ?d then _ else _] =>
      destruct (Expense.validate d)
  end; [|cbn; discriminate].
  cbn [fst payload]. intro H. injection H as <-. destruct ss; reflexivity.
Qed.

(** X21. An expense created outside a group cannot be read back or
    settled split by split: when [createExpense] answers 201 to a
    request without [groupId] and the new id is not in use, [getExpense]
    and [markSplitAsPaid] on the new expense answer 500 to every user,
    its payer included, and write nothing. *)
Theorem private_expense_unreachable (db : DB) (now now' : Z)
  (newId reqUser anyUser userId : string) (b : expenseController.body) :
  JS.truthy (expenseController.groupId b) = false ->
  ~ In newId (map fst (expenses db)) ->
  code (fst (expenseController.createExpense db now newId reqUser b)) = 201%nat ->
  let db' := snd (expenseController.createExpense db now newId reqUser b) in
  (exists e, findById (expenses db') newId = Some e /\ Expense.group e = None) /\
  expenseHandlers.getExpense db' anyUser newId
  = mkResponse 500 "Server error." None /\
  expenseController.markSplitAsPaid db' now' anyUser newId userId
  = (mkResponse 500 "Server error." None, db').
Proof.
  intros Hg Hfresh. unfold expenseController.createExpense.
  unfold expenseController.resolveParticipants. rewrite Hg.
  destruct (expenseController.participants b) as [|p ps] eqn:P;
    [cbn; discriminate|].
  intro Hc.
  destruct (payload (fst (expenseController.createWith db now newId reqUser b
                            None (map expenseController.Str (p :: ps)))))
    as [e|] eqn:Pe.
  - pose proof (createWith_group _ _ _ _ _ _ _ _ Pe) as Hgr.
    apply createWith_created in Pe.
    destruct Pe as (ss & _ & _ & _ & _ & _ & _ & Hdb).
    cbv zeta. rewrite Hdb.
    assert (F : findById (expenses (withExpenses (expenses db ++ [(newId, e)]) db))
                  newId = Some e).
    { simpl. rewrite findById_app, (findById_not_key _ _ Hfresh). simpl.
      now rewrite String.eqb_refl. }
    split; [now exists e|].
    apply (no_group_500 _ now' anyUser newId userId e F).
    unfold expenseHandlers.populatedGroup. now rewrite Hgr.
  - exfalso. revert Hc Pe. unfold expenseController.createWith.
    destruct (expenseController.calculateSplits _ _ _ _); [cbn; discriminate|].
    destruct (Expense.validate _); cbn; discriminate.
Qed.

Lemma private_expense_unreachable_witness :
  expenseHandlers.getExpense
    (snd (expenseController.createExpense dbTrip 5 "e9" "A" privateRequest))
    "A" "e9"
  = mkResponse 500 "Server error." None.
Proof.
  apply (private_expense_unreachable dbTrip 5 6 "e9" "A" "A" "B" privateRequest).
  - reflexivity.
  - intros [].
  - reflexivity.
Defined.

(** X22. [deleteGroup] deletes the group document only. When an admin
    deletes a group (ids distinct), its expenses and settlements stay in
    their collections; from then on [getExpense] and [markSplitAsPaid]
    answer 500 on every expense of the group. *)
Theorem deleteGroup_orphans (db : DB) (reqUser groupId : string) :
  NoDup (map fst (groups db)) ->
  code (fst (groupRoutes.deleteGroup db reqUser groupId)) = 200%nat ->
  let db' := snd (groupRoutes.deleteGroup db reqUser groupId) in
  findById (groups db') groupId = None /\
  expenses db' = expenses db /\
  settlements db' = settlements db /\
  (forall id e now anyUser userId,
     findById (expenses db) id = Some e ->
     Expense.group e = Some groupId ->
     expenseHandlers.getExpense db' anyUser id
     = mkResponse 500 "Server error." None /\
     expenseController.markSplitAsPaid db' now anyUser id userId
     = (mkResponse 500 "Server error." None, db')).
Proof.
  intro Hnd. unfold groupRoutes.deleteGroup, groupRoutes.guarded.
  destruct (groupAccess.requireGroupAdmin db reqUser (Some groupId))
    as [refused|group] eqn:R.
  - unfold groupAccess.requireGroupAdmin in R.
    destruct (JS.truthy (Some groupId)); [|inversion R; cbn; discriminate].
    destruct (findById (groups db) groupId) as [g|];
      [|inversion R; cbn; discriminate].
    destruct (negb (GroupDoc.isAdmin g reqUser)); inversion R; cbn; discriminate.
  - intros _. cbn [snd groupController.deleteGroup].
    cbn [groups expenses settlements withGroups].
    assert (G : findById (removeById (groups db) groupId) groupId = None)
      by now apply findById_removeById_same.
    repeat split; auto.
    + apply (no_group_500 _ now anyUser id userId e); [exact H|].
      unfold expenseHandlers.populatedGroup. rewrite H0. exact G.
    + apply (no_group_500 _ now anyUser id userId e); [exact H|].
      unfold expenseHandlers.populatedGroup. rewrite H0. exact G.
Qed.

Lemma deleteGroup_orphans_witness :
  expenseHandlers.getExpense (snd (groupRoutes.deleteGroup dbLedger "A" "g"))
    "B" "e1"
  = mkResponse 500 "Server error." None.
Proof.
  apply (deleteGroup_orphans dbLedger "A" "g") with (e := scenario1) (now := 0%Z)
    (userId := "B"); try reflexivity.
  distinct_keys.
Defined.

(** ** The summary of a group *)

Lemma totalBalance_fold (f : JS.object -> Expense.t -> JS.object)
  (es : list Expense.t) (o : JS.object) :
  (forall o' e, totalBalance (f o' e) == totalBalance o' + Expense.amount e) ->
  totalBalance (fold_left f es o)
  == totalBalance o + JS.reduce_sum Expense.amount es.
Proof.
  intro Hf. revert o. induction es as [|e es IH]; intro o; simpl.
  - rewrite reduce_sum_nil. ring.
  - rewrite IH, Hf, reduce_sum_cons. ring.
Qed.

Lemma NoDup_keys_fold (f : JS.object -> Expense.t -> JS.object)
  (es : list Expense.t) (o : JS.object) :
  (forall o' e, NoDup (JS.keys o') -> NoDup (JS.keys (f o' e))) ->
  NoDup (JS.keys o) -> NoDup (JS.keys (fold_left f es o)).
Proof.
  intro Hf. revert o. induction es as [|e es IH]; intros o H; simpl; auto.
Qed.

(** X23. In the summary of a group the two breakdowns account for all
    that was spent, in exact arithmetic: the amounts by category sum to
    [totalSpent], and so do the [totalPaid] by payer; each category and
    each payer appears once, and [totalExpenses] counts the expenses of
    the group. A summary is sent only when the payer of every expense
    of the group exists. *)
Theorem summary_breakdowns (nameOf : string -> option string) (db : DB)
  (reqUser groupId : string) (s : expenseHandlers.summary) :
  payload (expenseHandlers.getExpenseSummary nameOf db reqUser groupId) = Some s ->
  expenseHandlers.totalExpenses s
  = List.length (expenseHandlers.ofGroup db groupId) /\
  expenseHandlers.totalSpent s
  == JS.reduce_sum Expense.amount (expenseHandlers.ofGroup db groupId) /\
  totalBalance (expenseHandlers.categoryBreakdown s)
  == expenseHandlers.totalSpent s /\
  JS.reduce_sum (fun entry => snd (snd entry)) (expenseHandlers.userBreakdown s)
  == expenseHandlers.totalSpent s /\
  NoDup (JS.keys (expenseHandlers.categoryBreakdown s)) /\
  NoDup (map fst (expenseHandlers.userBreakdown s)) /\
  (forall e, In e (expenseHandlers.ofGroup db groupId) ->
     nameOf (Expense.paidBy e) <> None).
Proof.
  unfold expenseHandlers.getExpenseSummary.
  destruct (findById (groups db) groupId) as [group|]; [|cbn; discriminate].
  destruct (negb (Group.isMember group reqUser)); [cbn; discriminate|].
  destruct (forallb _ (expenseHandlers.ofGroup db groupId)) eqn:P;
    [|cbn; discriminate].
  cbn [payload]. intro H. injection H as <-.
  cbn [expenseHandlers.totalExpenses expenseHandlers.totalSpent
       expenseHandlers.categoryBreakdown expenseHandlers.userBreakdown].
  split; [reflexivity|]. split; [reflexivity|].
  split; [|split; [|split; [|split]]].
  - rewrite totalBalance_fold.
    + unfold totalBalance at 1. rewrite reduce_sum_nil. ring.
    + intros o' e. unfold expenseHandlers.addCategory.
      rewrite totalBalance_set. ring.
  - rewrite reduce_sum_map. simpl.
    change (JS.reduce_sum (fun x => snd x)
              (fold_left expenseHandlers.addPayer
                 (expenseHandlers.ofGroup db groupId) []))
      with (totalBalance (fold_left expenseHandlers.addPayer
                            (expenseHandlers.ofGroup db groupId) [])).
    rewrite totalBalance_fold.
    + unfold totalBalance at 1. rewrite reduce_sum_nil. ring.
    + intros o' e. unfold expenseHandlers.addPayer.
      rewrite totalBalance_set. ring.
  - apply NoDup_keys_fold; [|constructor].
    intros o' e Ho. now apply NoDup_keys_set.
  - rewrite map_map. simpl.
    change (map (fun x => fst x)
              (fold_left expenseHandlers.addPayer
                 (expenseHandlers.ofGroup db groupId) []))
      with (JS.keys (fold_left expenseHandlers.addPayer
                       (expenseHandlers.ofGroup db groupId) [])).
    apply NoDup_keys_fold; [|constructor].
    intros o' e Ho. now apply NoDup_keys_set.
  - intros e He N. rewrite forallb_forall in P. specialize (P e He).
    rewrite N in P. discriminate P.
Qed.

Lemma summary_breakdowns_witness :
  match payload (expenseHandlers.getExpenseSummary (fun u => Some u) dbLedger
                   "B" "g")
  with
  | Some s => totalBalance (expenseHandlers.categoryBreakdown s)
              == expenseHandlers.totalSpent s
  | None => False
  end.
Proof.
  destruct (payload (expenseHandlers.getExpenseSummary (fun u => Some u)
                       dbLedger "B" "g")) as [s|] eqn:E.
  - apply (summary_breakdowns (fun u => Some u) dbLedger "B" "g" s E).
  - vm_compute in E. discriminate E.
Defined.

(** ** Pages *)

Lemma pages_cover {A : Type} (limit : nat) (n : nat) (l : list A) :
  (List.length l <= n * limit)%nat ->
  List.concat (map (fun p => firstn limit (skipn ((p - 1) * limit) l)) (seq 1 n)) = l.
Proof.
  revert l. induction n as [|n IH]; intros l H.
  - simpl in *. destruct l; [reflexivity | simpl in H; lia].
  - simpl seq. simpl map. simpl List.concat.
    rewrite <- seq_shift, map_map.
    rewrite (map_ext_in _ (fun p => firstn limit
                                      (skipn ((p - 1) * limit) (skipn limit l)))).
    + rewrite IH.
      * apply firstn_skipn.
      * rewrite length_skipn. simpl in H. lia.
    + intros p Hp. apply in_seq in Hp. rewrite skipn_skipn. f_equal. f_equal.
      destruct p as [|q]; [lia|]. simpl. rewrite Nat.sub_0_r. lia.
Qed.

Lemma ceilDiv_covers (total limit : nat) :
  (1 <= limit)%nat ->
  (total <= expenseHandlers.ceilDiv total limit * limit)%nat.
Proof.
  intro H. unfold expenseHandlers.ceilDiv.
  pose proof (Nat.div_mod_eq (total + limit - 1) limit) as E.
  pose proof (Nat.mod_upper_bound (total + limit - 1) limit) as B.
  assert (limit <> 0)%nat by lia. specialize (B H0). nia.
Qed.

Lemma sorted_strict (l : list Expense.t) :
  NoDup (map Expense.date l) ->
  StronglySorted (fun a b => (Expense.date b <= Expense.date a)%Z) l ->
  StronglySorted (fun a b => (Expense.date b < Expense.date a)%Z) l.
Proof.
  intros Hnd Hs. induction Hs as [|a l Hs IH Ha]; constructor.
  - apply IH. now inversion Hnd.
  - inversion Hnd as [|x xs Hin Hrest]; subst.
    rewrite Forall_forall in *. intros b Hb. specialize (Ha b Hb).
    assert (Expense.date b <> Expense.date a).
    { intro E. apply Hin. rewrite <- E. now apply in_map. }
    lia.
Qed.

(** X24. For a member of the group, a limit and page numbers written
    as decimal numerals, the limit at least 1, and expenses of the query
    with distinct dates, the pages of [getGroupExpenses] lose and repeat
    nothing: pages 1 to [totalPages], one after the other, are the
    expenses of the query, latest first; no page has more than [limit]
    rows, and [total] is their number. *)
Theorem pages_partition (db : DB) (reqUser groupId : string)
  (category : option string) (startDate endDate : option Z)
  (limit : nat) (group : Group.t) :
  findById (groups db) groupId = Some group ->
  Group.isMember group reqUser = true ->
  (1 <= limit)%nat ->
  NoDup (map Expense.date
           (selectedExpenses db groupId category startDate endDate)) ->
  let all := pagedExpenses db groupId category startDate endDate in
  let pages := expenseHandlers.ceilDiv (List.length all) limit in
  List.concat (map (pageData db reqUser groupId category startDate endDate limit)
            (seq 1 pages)) = all /\
  (forall p, (List.length
                (pageData db reqUser groupId category startDate endDate limit p)
              <= limit)%nat) /\
  (forall p pg,
     payload (expenseHandlers.getGroupExpenses db reqUser groupId category
                startDate endDate (expenseHandlers.decimal p)
                (expenseHandlers.decimal limit)) = Some pg ->
     expenseHandlers.totalPages pg = Some pages /\
     expenseHandlers.pageTotal pg = List.length all /\
     expenseHandlers.currentPage pg = p) /\
  Permutation all (selectedExpenses db groupId category startDate endDate) /\
  StronglySorted (fun a b => (Expense.date b < Expense.date a)%Z) all.
Proof.
  intros Hg Hm Hl Hnd all pages.
  assert (L : (limit =? 0)%nat = false) by (apply Nat.eqb_neq; lia).
  assert (E : forall p, (1 <= p)%nat ->
             pageData db reqUser groupId category startDate endDate limit p
             = firstn limit (skipn ((p - 1) * limit) all)).
  { intros p Hp. unfold pageData, expenseHandlers.getGroupExpenses.
    rewrite Hg, Hm. cbn [negb expenseHandlers.decimal expenseHandlers.num
                         expenseHandlers.int].
    assert (P : (p =? 0)%nat = false) by (apply Nat.eqb_neq; lia).
    rewrite P, L. reflexivity. }
  split; [|split; [|split; [|split]]].
  - rewrite (map_ext_in _ (fun p => firstn limit (skipn ((p - 1) * limit) all))).
    + apply pages_cover. now apply ceilDiv_covers.
    + intros p Hp. apply in_seq in Hp. apply E. lia.
  - intro p. destruct p as [|p].
    + unfold pageData, expenseHandlers.getGroupExpenses.
      rewrite Hg, Hm. cbn [negb expenseHandlers.decimal expenseHandlers.num
                           expenseHandlers.int Nat.eqb andb].
      rewrite L. cbn. lia.
    + rewrite E by lia. rewrite length_firstn. lia.
  - intros p pg. unfold expenseHandlers.getGroupExpenses. rewrite Hg, Hm.
    cbn [negb expenseHandlers.decimal expenseHandlers.num expenseHandlers.int].
    rewrite L. destruct (p =? 0)%nat; cbn [negb andb payload]; [discriminate|].
    intro H. injection H as <-. repeat split; reflexivity.
  - apply (sortBy_perm Expense.date).
  - apply sorted_strict.
    + apply (Permutation_NoDup (l := map Expense.date
                 (selectedExpenses db groupId category startDate endDate)));
        [|exact Hnd].
      apply Permutation_map, Permutation_sym, (sortBy_perm Expense.date).
    + apply (sortBy_sorted Expense.date).
Qed.

Lemma pages_partition_witness :
  List.concat (map (pageData dbLedger "B" "g" None None None 2)
            (seq 1 (expenseHandlers.ceilDiv
                      (List.length (pagedExpenses dbLedger "g" None None None)) 2)))
  = pagedExpenses dbLedger "g" None None None.
Proof.
  apply (pages_partition dbLedger "B" "g" None None None 2 trip);
    [reflexivity | reflexivity | lia | distinct_keys].
Defined.

(** ** Groups *)

Lemma isMember_app (ms ms' : list Group.member) (name cur : string) (v : string) :
  Group.isMember (Group.mk name (ms ++ ms') cur) v
  = Group.isMember (Group.mk name ms cur) v
    || Group.isMember (Group.mk name ms' cur) v.
Proof. unfold Group.isMember. simpl. apply existsb_app. Qed.

Lemma isMember_filter (ms : list Group.member) (u v : string) :
  existsb (fun m => String.eqb (Group.user m) v)
    (filter (fun m => negb (String.eqb (Group.user m) u)) ms)
  = existsb (fun m => String.eqb (Group.user m) v) ms && negb (String.eqb v u).
Proof.
  induction ms as [|m ms IH]; simpl.
  - reflexivity.
  - destruct (String.eqb (Group.user m) u) eqn:Eu; simpl.
    + rewrite IH. apply String.eqb_eq in Eu.
      destruct (String.eqb (Group.user m) v) eqn:Ev; simpl; [|reflexivity].
      apply String.eqb_eq in Ev. rewrite <- Ev, Eu, String.eqb_refl. simpl.
      now rewrite andb_false_r.
    + rewrite IH.
      destruct (String.eqb (Group.user m) v) eqn:Ev; simpl; [|reflexivity].
      apply String.eqb_eq in Ev. rewrite <- Ev, Eu. reflexivity.
Qed.

Lemma find_filter_other (ms : list Group.member) (u v : string) :
  v <> u ->
  find (fun m => String.eqb (Group.user m) v)
    (filter (fun m => negb (String.eqb (Group.user m) u)) ms)
  = find (fun m => String.eqb (Group.user m) v) ms.
Proof.
  intro Hne. induction ms as [|m ms IH]; simpl.
  - reflexivity.
  - destruct (String.eqb (Group.user m) u) eqn:Eu; simpl.
    + apply String.eqb_eq in Eu.
      destruct (String.eqb (Group.user m) v) eqn:Ev; [|exact IH].
      apply String.eqb_eq in Ev. congruence.
    + destruct (String.eqb (Group.user m) v); [reflexivity | exact IH].
Qed.

Lemma group_save_stores (id : string) (g g' : Group.t) (db db' : DB) :
  GroupDoc.save id g db = Some (g', db') ->
  g' = g /\ GroupDoc.validate g = true /\
  db' = withGroups (write (groups db) id g) db /\
  findById (groups db') id = Some g.
Proof.
  unfold GroupDoc.save. destruct (GroupDoc.validate g); [|discriminate].
  intro H. inversion H; subst. repeat split. simpl. apply findById_write_same.
Qed.

(** X25. Membership after the methods of the Group model. When
    [addMember] succeeds the user is a member of the stored group, the
    membership of every other user is as before, a user who was a member
    already is not entered again, and distinct members stay distinct.
    When [removeMember] succeeds the user is no member of the stored
    group, and the membership and admin rights of every other user are
    as before. An admin is always a member. *)
Theorem group_membership (id u role : string) (g : Group.t) (db : DB) :
  (forall g' db',
     GroupDoc.addMember id u role g db = Some (g', db') ->
     findById (groups db') id = Some g' /\
     Group.isMember g' u = true /\
     (forall v, v <> u -> Group.isMember g' v = Group.isMember g v) /\
     (Group.isMember g u = true -> Group.members g' = Group.members g) /\
     (NoDup (map Group.user (Group.members g)) ->
      NoDup (map Group.user (Group.members g')))) /\
  (forall g' db',
     GroupDoc.removeMember id u g db = Some (g', db') ->
     findById (groups db') id = Some g' /\
     Group.isMember g' u = false /\
     (forall v, v <> u ->
        Group.isMember g' v = Group.isMember g v /\
        GroupDoc.isAdmin g' v = GroupDoc.isAdmin g v)) /\
  (forall v, GroupDoc.isAdmin g v = true -> Group.isMember g v = true).
Proof.
  split; [|split].
  - intros g' db' H. unfold GroupDoc.addMember in H.
    apply group_save_stores in H as (-> & _ & _ & Hf).
    split; [exact Hf|]. unfold GroupDoc.membersWith, Group.isMember.
    cbn [Group.members GroupDoc.setMembers].
    destruct (existsb (fun m => String.eqb (Group.user m) u) (Group.members g))
      eqn:E.
    + repeat split; auto.
    + split; [|split; [|split]].
      * rewrite existsb_app. simpl. rewrite String.eqb_refl.
        now rewrite orb_true_r.
      * intros v Hv. rewrite existsb_app. simpl.
        apply String.eqb_neq in Hv. rewrite String.eqb_sym in Hv.
        rewrite Hv. now rewrite !orb_false_r.
      * discriminate.
      * intro Hnd. rewrite map_app. apply NoDup_app; repeat split; auto.
        -- simpl. constructor; [intros [] | constructor].
        -- intros x Hx [<-|[]]. apply in_map_iff in Hx as (m & Hm & Hin).
           assert (T : existsb (fun m => String.eqb (Group.user m) u)
                         (Group.members g) = true).
           { apply existsb_exists. exists m. split; [exact Hin|].
             now apply String.eqb_eq. }
           congruence.
  - intros g' db' H. unfold GroupDoc.removeMember in H.
    apply group_save_stores in H as (-> & _ & _ & Hf).
    split; [exact Hf|]. unfold GroupDoc.membersWithout, Group.isMember,
      GroupDoc.isAdmin.
    cbn [Group.members GroupDoc.setMembers]. split.
    + rewrite isMember_filter, String.eqb_refl. apply andb_false_r.
    + intros v Hv. split.
      * rewrite isMember_filter. apply String.eqb_neq in Hv. rewrite Hv.
        apply andb_true_r.
      * now rewrite find_filter_other.
  - intros v. unfold GroupDoc.isAdmin, Group.isMember.
    destruct (find (fun m => String.eqb (Group.user m) v) (Group.members g))
      as [m|] eqn:F; [|discriminate].
    intros _. apply find_some in F as [Hin Hm].
    apply existsb_exists. now exists m.
Qed.

Lemma guarded_refusal (db : DB) (reqUser groupId : string)
  (refused : response Group.t) :
  groupAccess.requireGroupAdmin db reqUser (Some groupId) = inl refused ->
  code refused <> 200%nat /\ code refused <> 201%nat.
Proof.
  unfold groupAccess.requireGroupAdmin.
  destruct (JS.truthy (Some groupId));
    [|intro H; inversion H; split; discriminate].
  destruct (findById (groups db) groupId) as [g|];
    [|intro H; inversion H; split; discriminate].
  destruct (negb (GroupDoc.isAdmin g reqUser)); intro H; inversion H.
  split; discriminate.
Qed.

Lemma guarded_admin (db : DB) (reqUser groupId : string) (group : Group.t) :
  groupAccess.requireGroupAdmin db reqUser (Some groupId) = inr group ->
  findById (groups db) groupId = Some group /\
  GroupDoc.isAdmin group reqUser = true.
Proof.
  unfold groupAccess.requireGroupAdmin.
  destruct (JS.truthy (Some groupId)); [|discriminate].
  destruct (findById (groups db) groupId) as [g|]; [|discriminate].
  destruct (GroupDoc.isAdmin g reqUser) eqn:E; simpl; [|discriminate].
  intro H. inversion H; subst. split; reflexivity || exact E.
Qed.

(** X26. Removing a member, behind [requireGroupAdmin]. A 200 means the
    requester was an admin of the group and the target another member;
    afterwards the target is no member, the requester is still an admin,
    every other membership is as before, and the expenses and
    settlements that name the removed user are still stored. An admin
    cannot remove themself, and any other answer leaves the database as
    it was. *)
Theorem removeMember_by_admin (db : DB) (reqUser groupId target : string) :
  let r := groupRoutes.removeMember db reqUser groupId target in
  (code (fst r) <> 200%nat -> snd r = db) /\
  (target = reqUser -> code (fst r) <> 200%nat) /\
  (code (fst r) = 200%nat ->
   exists g g',
     findById (groups db) groupId = Some g /\
     findById (groups (snd r)) groupId = Some g' /\
     GroupDoc.isAdmin g reqUser = true /\
     Group.isMember g target = true /\
     Group.isMember g' target = false /\
     GroupDoc.isAdmin g' reqUser = true /\
     (forall v, v <> target -> Group.isMember g' v = Group.isMember g v) /\
     expenses (snd r) = expenses db /\
     settlements (snd r) = settlements db).
Proof.
  unfold groupRoutes.removeMember, groupRoutes.guarded.
  destruct (groupAccess.requireGroupAdmin db reqUser (Some groupId))
    as [refused|g] eqn:R.
  - apply guarded_refusal in R as [R _]. cbn [fst snd].
    repeat split; auto. intro H. contradiction.
  - apply guarded_admin in R as [F A].
    unfold groupController.removeMember.
    destruct (String.eqb target reqUser) eqn:E.
    + cbn. repeat split; auto; discriminate.
    + apply String.eqb_neq in E.
      destruct (Group.isMember g target) eqn:M; cbn [negb].
      2:{ cbn. repeat split; auto; discriminate. }
      destruct (GroupDoc.removeMember groupId target g db) as [[g' db']|] eqn:S.
      2:{ cbn. repeat split; auto; discriminate. }
      cbn [fst snd code]. split; [intro H; now contradiction H|].
      split; [intros Ht; contradiction|]. intros _.
      destruct (group_save_stores _ _ _ _ _ S) as (-> & _ & -> & Hf).
      exists g, (GroupDoc.setMembers (GroupDoc.membersWithout target g) g).
      repeat split; auto.
      * unfold Group.isMember, GroupDoc.membersWithout. simpl.
        rewrite isMember_filter, String.eqb_refl. apply andb_false_r.
      * unfold GroupDoc.isAdmin, GroupDoc.membersWithout in *. simpl.
        rewrite find_filter_other; auto.
      * intros v Hv. unfold Group.isMember, GroupDoc.membersWithout. simpl.
        rewrite isMember_filter. apply String.eqb_neq in Hv. rewrite Hv.
        apply andb_true_r.
Qed.

Lemma find_setRoleOfFirst (u r v : string) (ms ms' : list Group.member) :
  groupController.setRoleOfFirst u r ms = Some ms' ->
  find (fun m => String.eqb (Group.user m) v) ms'
  = if String.eqb v u
    then option_map (fun m => Group.mkMember (Group.user m) r)
           (find (fun m => String.eqb (Group.user m) v) ms)
    else find (fun m => String.eqb (Group.user m) v) ms.
Proof.
  revert ms'. induction ms as [|m ms IH]; intros ms' H; simpl in H.
  - discriminate.
  - destruct (String.eqb (Group.user m) u) eqn:E.
    + apply String.eqb_eq in E. inversion H; subst. simpl.
      destruct (String.eqb v (Group.user m)) eqn:Ev.
      * rewrite (String.eqb_sym (Group.user m) v), Ev. reflexivity.
      * rewrite (String.eqb_sym (Group.user m) v), Ev. reflexivity.
    + destruct (groupController.setRoleOfFirst u r ms) as [rest|]; [|discriminate].
      inversion H; subst. simpl. rewrite (IH rest eq_refl).
      destruct (String.eqb (Group.user m) v) eqn:Ev; [|reflexivity].
      apply String.eqb_eq in Ev. rewrite <- Ev, E. reflexivity.
Qed.

Lemma setRoleOfFirst_roles (u r : string) (ms ms' : list Group.member) :
  groupController.setRoleOfFirst u r ms = Some ms' ->
  JS.includes GroupDoc.roles r = true ->
  forallb (fun m => JS.includes GroupDoc.roles (Group.role m)) ms = true ->
  forallb (fun m => JS.includes GroupDoc.roles (Group.role m)) ms' = true.
Proof.
  revert ms'. induction ms as [|m ms IH]; intros ms' H Hr Hv; simpl in H.
  - discriminate.
  - cbn [forallb] in Hv. apply andb_true_iff in Hv as [Hm Hms].
    destruct (String.eqb (Group.user m) u).
    + inversion H; subst. cbn [forallb Group.role]. now rewrite Hr, Hms.
    + destruct (groupController.setRoleOfFirst u r ms) as [rest|]; [|discriminate].
      inversion H; subst. cbn [forallb]. rewrite Hm. now apply IH.
Qed.

Lemma setRoleOfFirst_found (u r : string) (ms : list Group.member)
  (m : Group.member) :
  find (fun x => String.eqb (Group.user x) u) ms = Some m ->
  exists ms', groupController.setRoleOfFirst u r ms = Some ms'.
Proof.
  induction ms as [|x ms IH]; simpl; [discriminate|].
  destruct (String.eqb (Group.user x) u); [intros _; eauto|].
  intro H. destruct (IH H) as (ms' & ->). simpl. eauto.
Qed.

(** X27. A group can be left without an admin. When the only admin of a
    valid group sets their own role to "member", the request is answered
    200, and from then on [requireGroupAdmin] refuses every user with
    403: no member can be added or removed, no role changed, and the
    group can be neither updated nor deleted. *)
Theorem sole_admin_can_lock_group (db : DB) (reqUser groupId : string)
  (g : Group.t) :
  groupId <> "" ->
  findById (groups db) groupId = Some g ->
  GroupDoc.validate g = true ->
  GroupDoc.isAdmin g reqUser = true ->
  (forall v, v <> reqUser -> GroupDoc.isAdmin g v = false) ->
  let r := groupRoutes.changeMemberRole db reqUser groupId reqUser
             (Some "member") in
  code (fst r) = 200%nat /\
  forall v,
    groupAccess.requireGroupAdmin (snd r) v (Some groupId)
    = inl (mkResponse 403 "Access denied. Admin privileges required." None).
Proof.
  intros Hne F V A Only.
  assert (T : JS.truthy (Some groupId) = true)
    by (destruct groupId; [congruence | reflexivity]).
  unfold groupRoutes.changeMemberRole, groupRoutes.guarded,
    groupAccess.requireGroupAdmin.
  rewrite T, F, A. cbn [negb]. cbv iota.
  unfold groupController.changeMemberRole.
  change (JS.includes GroupDoc.roles "member") with true. cbv iota.
  pose proof A as A'. unfold GroupDoc.isAdmin in A'.
  destruct (find (fun m => String.eqb (Group.user m) reqUser) (Group.members g))
    as [m|] eqn:Fm; [|discriminate].
  destruct (setRoleOfFirst_found reqUser "member" _ _ Fm) as (ms' & S).
  rewrite S.
  apply andb_true_iff in V as [Vn Vr].
  assert (V' : GroupDoc.validate (GroupDoc.setMembers ms' g) = true).
  { unfold GroupDoc.validate. simpl. rewrite Vn. simpl.
    now apply (setRoleOfFirst_roles _ _ _ _ S). }
  unfold GroupDoc.save. rewrite V'. cbn [fst snd code groups withGroups].
  split; [reflexivity|]. intro v.
  cbv iota. rewrite findById_write_same.
  assert (N : GroupDoc.isAdmin (GroupDoc.setMembers ms' g) v = false).
  { unfold GroupDoc.isAdmin. simpl. rewrite (find_setRoleOfFirst _ _ v _ _ S).
    destruct (String.eqb v reqUser) eqn:E.
    - apply String.eqb_eq in E. subst v. rewrite Fm. reflexivity.
    - apply String.eqb_neq in E. apply (Only v E). }
  now rewrite N.
Qed.

Lemma sole_admin_can_lock_group_witness :
  groupAccess.requireGroupAdmin
    (snd (groupRoutes.changeMemberRole dbTeam "A" "g" "A" (Some "member")))
    "A" (Some "g")
  = inl (mkResponse 403 "Access denied. Admin privileges required." None).
Proof.
  apply (sole_admin_can_lock_group dbTeam "A" "g"
           (Group.mk "team"
              [Group.mkMember "A" "admin"; Group.mkMember "B" "member"] "LKR"));
    try reflexivity.
  - discriminate.
  - intros v Hv. unfold GroupDoc.isAdmin.
    cbn [Group.members find Group.user Group.role].
    destruct (String.eqb "A" v) eqn:E.
    + apply String.eqb_eq in E. congruence.
    + destruct (String.eqb "B" v); reflexivity.
Defined.

(** X28. Adding a member, behind [requireGroupAdmin]. A 200 means the
    requester is an admin, the email belongs to a user who was no member,
    and the role is absent or one of the two roles; afterwards that user
    is a member of the stored group, with the role asked for ("member"
    when absent), and every other membership is as before. Any other
    answer leaves the database as it was. *)
Theorem addMember_by_admin (userByEmail : string -> option string) (db : DB)
  (reqUser groupId email : string) (role : option string) :
  let r := groupRoutes.addMember userByEmail db reqUser groupId email role in
  (code (fst r) <> 200%nat -> snd r = db) /\
  (code (fst r) = 200%nat ->
   exists g g' newUser,
     findById (groups db) groupId = Some g /\
     GroupDoc.isAdmin g reqUser = true /\
     userByEmail email = Some newUser /\
     Group.isMember g newUser = false /\
     findById (groups (snd r)) groupId = Some g' /\
     payload (fst r) = Some g' /\
     Group.members g'
     = (Group.members g
        ++ [Group.mkMember newUser
              (match role with Some x => x | None => "member" end)])%list /\
     In (match role with Some x => x | None => "member" end) GroupDoc.roles /\
     Group.isMember g' newUser = true /\
     (forall v, v <> newUser -> Group.isMember g' v = Group.isMember g v)).
Proof.
  unfold groupRoutes.addMember, groupRoutes.guarded.
  destruct (groupAccess.requireGroupAdmin db reqUser (Some groupId))
    as [refused|g] eqn:R.
  - apply guarded_refusal in R as [R _]. cbn [fst snd].
    split; [reflexivity | intro H; contradiction].
  - apply guarded_admin in R as [F A]. unfold groupController.addMember.
    destruct (userByEmail email) as [newUser|] eqn:U;
      [|cbn; split; [reflexivity | discriminate]].
    destruct (Group.isMember g newUser) eqn:M;
      [cbn; split; [reflexivity | discriminate]|].
    destruct (GroupDoc.addMember groupId newUser _ g db) as [[g' db']|] eqn:S;
      [|cbn; split; [reflexivity | discriminate]].
    cbn [fst snd code payload]. split; [intro H; now contradiction H|].
    intros _. unfold GroupDoc.addMember in S.
    destruct (group_save_stores _ _ _ _ _ S) as (-> & V & -> & Hf).
    assert (Em : GroupDoc.membersWith newUser
                   (match role with Some x => x | None => "member" end) g
                 = (Group.members g
                    ++ [Group.mkMember newUser
                          (match role with Some x => x | None => "member" end)])%list).
    { unfold GroupDoc.membersWith. unfold Group.isMember in M. now rewrite M. }
    exists g, (GroupDoc.setMembers
                 (GroupDoc.membersWith newUser
                    (match role with Some x => x | None => "member" end) g) g),
      newUser.
    repeat split; auto.
    + unfold GroupDoc.validate in V. apply andb_true_iff in V as [_ V].
      simpl in V. rewrite Em, forallb_app in V.
      apply andb_true_iff in V as [_ V]. simpl in V. rewrite andb_true_r in V.
      apply orb_true_iff in V as [E|V].
      * left. apply String.eqb_eq in E. now symmetry.
      * rewrite orb_false_r in V. right. left. apply String.eqb_eq in V.
        now symmetry.
    + unfold Group.isMember. simpl. rewrite Em, existsb_app. simpl.
      rewrite String.eqb_refl. now rewrite orb_true_r.
    + intros v Hv. unfold Group.isMember. simpl. rewrite Em, existsb_app. simpl.
      apply String.eqb_neq in Hv. rewrite String.eqb_sym in Hv. rewrite Hv.
      now rewrite !orb_false_r.
Qed.

(** X29. Whoever creates a group is its admin: when [createGroup] answers
    201 the stored group has the requester as its only member, with role
    "admin", and [requireGroupAdmin] lets the requester through on the
    new group. A name that is empty after trimming is refused with 500
    and nothing is written. *)
Theorem creator_is_admin (db : DB) (newId reqUser name : string)
  (currency : option string) :
  newId <> "" ->
  let r := groupController.createGroup db newId reqUser name currency in
  (trim name = "" -> r = (mkResponse 500 "Server error." None, db)) /\
  (trim name <> "" ->
   exists g,
     r = (mkResponse 201 "Group created successfully" (Some g),
          withGroups (write (groups db) newId g) db) /\
     Group.members g = [Group.mkMember reqUser "admin"] /\
     groupAccess.requireGroupAdmin (snd r) reqUser (Some newId) = inr g).
Proof.
  intros Hne. unfold groupController.createGroup, GroupDoc.save,
    GroupDoc.validate. cbn [Group.name Group.members forallb Group.role].
  change (JS.includes GroupDoc.roles "admin") with true.
  rewrite andb_true_r.
  destruct (String.eqb (trim name) "") eqn:E.
  - apply String.eqb_eq in E. split; [reflexivity | congruence].
  - apply String.eqb_neq in E. split; [congruence|]. intros _.
    cbn [negb]. eexists. split; [reflexivity|]. split; [reflexivity|].
    cbn [snd groups withGroups]. unfold groupAccess.requireGroupAdmin.
    assert (T : JS.truthy (Some newId) = true)
      by (destruct newId; [congruence | reflexivity]).
    rewrite T. unfold withGroups. cbn [groups].
    rewrite findById_write_same. unfold GroupDoc.isAdmin. simpl.
    now rewrite String.eqb_refl.
Qed.

Lemma creator_is_admin_witness :
  "g2" <> "" /\ trim " flat " <> "" /\
  exists g,
    Group.members g = [Group.mkMember "D" "admin"] /\
    groupAccess.requireGroupAdmin
      (snd (groupController.createGroup dbTrip "g2" "D" " flat " None)) "D"
      (Some "g2")
    = inr g.
Proof.
  split; [discriminate|]. split; [vm_compute; discriminate|].
  destruct (creator_is_admin dbTrip "g2" "D" " flat " None) as [_ H];
    [discriminate|].
  destruct H as (g & _ & Hm & Ha); [vm_compute; discriminate|].
  exists g. split; assumption.
Defined.
